(** * Kernelflinger fastboot: a shallow embedding of the protocol server

    The development follows the C sources file by file:

    - [Efi]       status codes and fixed-width arithmetic of the UEFI ABI;
    - [Flash]     libfastboot/flash.c   (write cursor, bounds guard, zImage splice);
    - [Hashes]    libfastboot/hashes.c  (filesystem length, dm-verity tree size);
    - [Security]  libkernelflinger/security.c (boot image attestation);
    - [Fastboot]  libfastboot/fastboot.c (variables, commands, replies, parser).

    and then the rest of the same files, on top of these:

    - [Callbacks]   fastboot.c (the transport callbacks, runs of events);
    - [CommandLine] fastboot.c (well-formed command lines);
    - [LongInfo]    fastboot.c (fastboot_info_long_string);
    - [FlashOps]    flash.c    (flash_fill, flash_partition, erase, garbage_disk);
    - [HashTools]   hashes.c   (digest selection, hash_partition, the ESP walk);
    - [Pkcs7]       security.c (signing time, trusted certificate, verify_pkcs7).

    C integers are integers of [Z] with the wrap-around of their width written
    out; C strings are [string]; linked lists are [list]; a global of a C file
    is a field of the module's state record; the firmware services and the
    functions of other compilation units a file calls are gathered in a record
    of collaborators that the definitions take as a section variable.

    Part I holds the program, the vocabulary of its properties and a few
    sample devices; Part II holds the theorems.  A function that can fault
    in C (a NULL dereference, an undefined shift) returns an [option], with
    [None] for the fault; a loop without a bound of its own runs on fuel,
    and is proved to return within it. *)

From Stdlib Require Import ZArith List String Ascii Bool Lia.
From Equations Require Import Equations.
Import ListNotations.

Open Scope Z_scope.

(* ========================================================================= *)
(** * Part I: the program *)
(* ========================================================================= *)

(* ------------------------------------------------------------------------- *)
(** ** UEFI base types *)
(* ------------------------------------------------------------------------- *)

Module Efi.

(** UINT32, UINT64 and UINTN (x86_64) arithmetic wraps. *)
Definition u32 (x : Z) : Z := x mod 2 ^ 32.

Definition u64 (x : Z) : Z := x mod 2 ^ 64.

(** EFI_STATUS is a UINTN whose top bit marks an error (efierr.h). *)
Definition EFI_STATUS := Z.

Definition EFIERR (a : Z) : EFI_STATUS := Z.lor (2 ^ 63) a.

Definition EFI_SUCCESS : EFI_STATUS := 0.

Definition EFI_INVALID_PARAMETER : EFI_STATUS := EFIERR 2.

Definition EFI_UNSUPPORTED : EFI_STATUS := EFIERR 3.

Definition EFI_BUFFER_TOO_SMALL : EFI_STATUS := EFIERR 5.

Definition EFI_OUT_OF_RESOURCES : EFI_STATUS := EFIERR 9.

Definition EFI_ACCESS_DENIED : EFI_STATUS := EFIERR 15.

(** [EFI_ERROR(a)] is [((INTN) a) < 0]. *)
Definition EFI_ERROR (r : EFI_STATUS) : bool := Z.testbit r 63.

Definition byte := Z.

Definition bytes := list byte.

End Efi.

(* ------------------------------------------------------------------------- *)
(** ** libfastboot/flash.c *)
(* ------------------------------------------------------------------------- *)

Module Flash.
Import Efi.

(** [gparti.bio->Media]: the two fields the file reads. *)
Record block_io := { MediaId : Z; BlockSize : Z }.

(** [struct gpt_partition_interface]: [part.starting_lba], [part.ending_lba]
    and the block I/O protocol pointer, [None] for NULL (the static is
    zero-initialised until a partition has been resolved). *)
Record gpt_partition_interface := {
  starting_lba : Z;
  ending_lba : Z;
  bio : option block_io
}.

(** One [WriteDisk] request handed to the disk I/O protocol. *)
Record disk_write := {
  w_media : Z;
  w_offset : Z;
  w_size : Z;
  w_data : bytes
}.

(** The statics of flash.c ([gparti], [cur_offset]) together with what the
    file has done to the firmware: the write requests issued, oldest first,
    and the number of pool allocations made. *)
Record state := {
  gparti : gpt_partition_interface;
  cur_offset : Z;
  writes : list disk_write;
  allocs : nat
}.

Definition set_gparti (g : gpt_partition_interface) (st : state) : state :=
  {| gparti := g; cur_offset := cur_offset st;
     writes := writes st; allocs := allocs st |}.

Definition set_cur_offset (o : Z) (st : state) : state :=
  {| gparti := gparti st; cur_offset := o;
     writes := writes st; allocs := allocs st |}.

Definition push_write (w : disk_write) (st : state) : state :=
  {| gparti := gparti st; cur_offset := cur_offset st;
     writes := writes st ++ [w]; allocs := allocs st |}.

Definition count_alloc (st : state) : state :=
  {| gparti := gparti st; cur_offset := cur_offset st;
     writes := writes st; allocs := S (allocs st) |}.

(** [#define part_start (gparti.part.starting_lba * gparti.bio->Media->BlockSize)]
    A UINT64 times a UINT32, computed in UINT64. *)
Definition part_start (g : gpt_partition_interface) (b : block_io) : Z :=
  u64 (starting_lba g * BlockSize b).

(** [#define part_end ((gparti.part.ending_lba + 1) * gparti.bio->Media->BlockSize)] *)
Definition part_end (g : gpt_partition_interface) (b : block_io) : Z :=
  u64 (u64 (ending_lba g + 1) * BlockSize b).

(** [#define is_inside_partition(off, sz) (off >= part_start && off + sz <= part_end)]
    where [off + sz] is a UINT64 sum. *)
Definition is_inside_partition (g : gpt_partition_interface) (b : block_io)
  (off sz : Z) : bool :=
  (part_start g b <=? off) && (u64 (off + sz) <=? part_end g b).

(** The byte range of the resolved partition, over the integers: what the
    guard is there to enforce. *)
Definition in_partition_range (g : gpt_partition_interface) (b : block_io)
  (off sz : Z) : Prop :=
  starting_lba g * BlockSize b <= off /\
  off + sz <= (ending_lba g + 1) * BlockSize b.

(** [struct boot_img_hdr] (android.h), the fields flash.c reads. *)
Record boot_img_hdr := {
  magic : string;
  kernel_size : Z;
  kernel_addr : Z;
  ramdisk_size : Z;
  second_size : Z;
  page_size : Z
}.

Definition BOOT_MAGIC : string := "ANDROID!".

(** The firmware and the GPT reader, as flash.c uses them. *)
Record firmware := {
  (** the status [WriteDisk] answers to a request *)
  WriteDisk : disk_write -> EFI_STATUS;
  (** the status and bytes [ReadDisk] answers for (media, offset, length)
      after the given requests *)
  ReadDisk : list disk_write -> Z -> Z -> Z -> EFI_STATUS * bytes;
  (** [AllocatePool]/[AllocateZeroPool]: whether the n-th allocation of the
      run, of the given size, succeeds *)
  AllocatePool : nat -> Z -> bool;
  (** gpt.c: the status of the lookup and the interface it fills in *)
  gpt_get_partition_by_label : string -> EFI_STATUS * gpt_partition_interface
}.

(** android.h is not among the sources: the layout of the header inside the
    partition bytes, the stores of a [kernel_size] and of a [kernel_addr]
    into such bytes, and the two inline helpers are taken as they come. *)
Record android_h := {
  hdr_of_bytes : bytes -> boot_img_hdr;
  store_kernel_size : Z -> bytes -> bytes;
  store_kernel_addr : Z -> bytes -> bytes;
  bootimage_size : boot_img_hdr -> Z;
  pagealign : boot_img_hdr -> Z -> Z
}.

(** [memcpy(dst + off, src, n)] on a buffer kept as a list; what the C code
    would read past the end of [src] is not defined by C and reads as zero. *)
Definition memcpy_at (dst : bytes) (off : Z) (src : bytes) (n : Z) : bytes :=
  let o := Z.to_nat off in
  let k := Z.to_nat n in
  firstn o dst ++ firstn k (src ++ repeat 0 k) ++ skipn (o + k) dst.

Definition zeroes (n : Z) : bytes := repeat 0 (Z.to_nat n).

(** A resolved partition whose bounds are representable: the GPT entry of a
    disk that exists. *)
Definition sane_partition (g : gpt_partition_interface) (b : block_io) : Prop :=
  0 <= starting_lba g /\ starting_lba g <= ending_lba g + 1 /\
  0 <= BlockSize b /\ (ending_lba g + 1) * BlockSize b < 2 ^ 64.

(** [partlen] of [flash_zimage]. *)
Definition zimage_partlen (g : gpt_partition_interface) (b : block_io) : Z :=
  u64 (u64 (ending_lba g + 1 - starting_lba g) * BlockSize b).

Section Engine.

Variable fw : firmware.
Variable ah : android_h.

(** [EFI_STATUS flash_skip(UINT64 size)].  The macro dereferences
    [gparti.bio] without a NULL test: [None] is that fault. *)
Definition flash_skip (size : Z) (st : state) : option (EFI_STATUS * state) :=
  match bio (gparti st) with
  | None => None
  | Some b =>
      if negb (is_inside_partition (gparti st) b (cur_offset st) size)
      then Some (EFI_INVALID_PARAMETER, st)
      else Some (EFI_SUCCESS, set_cur_offset (u64 (cur_offset st + size)) st)
  end.

(** [EFI_STATUS flash_write(VOID *data, UINTN size)] *)
Definition flash_write (data : bytes) (size : Z) (st : state)
  : EFI_STATUS * state :=
  match bio (gparti st) with
  | None => (EFI_INVALID_PARAMETER, st)
  | Some b =>
      if negb (is_inside_partition (gparti st) b (cur_offset st) size)
      then (EFI_INVALID_PARAMETER, st)
      else
        let w := {| w_media := MediaId b; w_offset := cur_offset st;
                    w_size := size; w_data := data |} in
        let ret := WriteDisk fw w in
        (ret, set_cur_offset (u64 (cur_offset st + size)) (push_write w st))
  end.

(** The body of [flash_zimage] between the second allocation and the write:
    header page, new kernel, old ramdisk, old second stage. *)
Definition splice_zimage (bootimage : bytes) (h : boot_img_hdr)
  (data : bytes) (size new_size : Z) : bytes :=
  let img0 := memcpy_at (zeroes new_size) 0 bootimage (page_size h) in
  let img1 :=
    store_kernel_addr ah (kernel_addr h) (store_kernel_size ah size img0) in
  let h' := hdr_of_bytes ah img1 in
  let new_cur0 := page_size h in
  let img2 := memcpy_at img1 new_cur0 data size in
  let new_cur1 := new_cur0 + pagealign ah h' size in
  let cur0 := page_size h + pagealign ah h (kernel_size h) in
  let img3 := memcpy_at img2 new_cur1 (skipn (Z.to_nat cur0) bootimage)
                        (ramdisk_size h) in
  let new_cur2 := new_cur1 + pagealign ah h' (ramdisk_size h') in
  let cur1 := cur0 + pagealign ah h (ramdisk_size h) in
  memcpy_at img3 new_cur2 (skipn (Z.to_nat cur1) bootimage) (second_size h).

(** [static EFI_STATUS flash_zimage(VOID *data, UINTN size)].  [None] is the
    dereference of a NULL [gparti.bio] after a lookup that reported success. *)
Definition flash_zimage (data : bytes) (size : Z) (st : state)
  : option (EFI_STATUS * state) :=
  let (ret, g) := gpt_get_partition_by_label fw "boot" in
  if EFI_ERROR ret then Some (ret, st)
  else
    let st := set_gparti g st in
    match bio g with
    | None => None
    | Some b =>
        let partlen :=
          u64 (u64 (ending_lba g + 1 - starting_lba g) * BlockSize b) in
        let ok := AllocatePool fw (allocs st) partlen in
        let st := count_alloc st in
        if negb ok then Some (EFI_OUT_OF_RESOURCES, st)
        else
          let (ret, bootimage) :=
            ReadDisk fw (writes st) (MediaId b) (part_start g b) partlen in
          if EFI_ERROR ret then Some (ret, st)
          else
            let h := hdr_of_bytes ah bootimage in
            if negb (String.eqb BOOT_MAGIC (magic h))
            then Some (EFI_UNSUPPORTED, st)
            else
              let new_size :=
                u64 (bootimage_size ah h - kernel_size h + pagealign ah h size) in
              if partlen <? new_size then Some (EFI_INVALID_PARAMETER, st)
              else
                let ok := AllocatePool fw (allocs st) new_size in
                let st := count_alloc st in
                if negb ok then Some (EFI_OUT_OF_RESOURCES, st)
                else
                  let new_bootimage :=
                    splice_zimage bootimage h data size new_size in
                  let st := set_cur_offset (part_start g b) st in
                  Some (flash_write new_bootimage new_size st)
    end.

(** [new_size] of [flash_zimage], a UINTN. *)
Definition zimage_new_size (h : boot_img_hdr) (size : Z) : Z :=
  u64 (bootimage_size ah h - kernel_size h + pagealign ah h size).

End Engine.

End Flash.

(* ------------------------------------------------------------------------- *)
(** ** libfastboot/hashes.c: filesystem length and dm-verity accounting *)
(* ------------------------------------------------------------------------- *)

Module Hashes.
Import Efi.

(** A fault ([None]: a NULL dereference, an undefined shift) ends the run. *)
Definition bind_fault {A B : Type} (m : option A) (k : A -> option B) : option B :=
  match m with
  | None => None
  | Some a => k a
  end.

Notation "'do' x <- m ; k" := (bind_fault m (fun x => k))
  (at level 10, x pattern, m at level 100, k at level 200).

Definition EXT4_SB_OFFSET : Z := 1024.

Definition EXT4_SUPER_MAGIC : Z := 0xEF53.

Definition EXT4_VALID_FS : Z := 0x0001.

(** [struct ext4_super_block]: the fields read; the INT32 ones are signed. *)
Record ext4_super_block := {
  s_blocks_count_lo : Z;
  s_log_block_size : Z;
  ext4_s_magic : Z;
  s_state : Z;
  s_blocks_count_hi : Z
}.

Definition sizeof_ext4_super_block : Z := 340.

(** [struct ext4_verity_header] *)
Record ext4_verity_header := {
  vh_magic : Z;
  protocol_version : Z
}.

Definition sizeof_ext4_verity_header : Z := 8.

Definition SQUASHFS_MAGIC : Z := 0x73717368.

Definition SQUASHFS_PADDING : Z := 4096.

(** [struct squashfs_super_block]: the fields read; [bytes_used] is a UINT64. *)
Record squashfs_super_block := {
  squashfs_s_magic : Z;
  bytes_used : Z
}.

Definition sizeof_squashfs_super_block : Z := 96.

Definition VERITY_METADATA_SIZE : Z := 32768.

Definition VERITY_METADATA_MAGIC_NUMBER : Z := 0xb001b001.

Definition VERITY_HASH_SIZE : Z := 32.

Definition VERITY_BLOCK_SIZE : Z := 4096.

Definition VERITY_HASHES_PER_BLOCK : Z := VERITY_BLOCK_SIZE / VERITY_HASH_SIZE.

(** Modelled from the spec: the macro DIV_ROUND_UP comes from lib.h, which is
    not among the sources; the spec reads it as a ceiling division, which on
    UINT64 operands is the usual [((x) + (y) - 1) / (y)]. *)
Definition DIV_ROUND_UP (x y : Z) : Z := u64 (x + y - 1) / y.

(** The [do ... while (level--)] of [verity_tree_blocks]: [S n] divisions for
    a level that starts at [n]. *)
Fixpoint verity_level_loop (level : nat) (level_blocks : Z) : Z :=
  let level_blocks := DIV_ROUND_UP level_blocks VERITY_HASHES_PER_BLOCK in
  match level with
  | O => level_blocks
  | S level' => verity_level_loop level' level_blocks
  end.

(** [static UINT64 verity_tree_blocks(UINT64 data_size, INT32 level)], for the
    levels its one caller passes (0, 1, 2, ...). *)
Definition verity_tree_blocks (data_size : Z) (level : nat) : Z :=
  verity_level_loop level (DIV_ROUND_UP data_size VERITY_BLOCK_SIZE).

(** The [do ... while (level_blocks > 1)] of [verity_tree_size]; the C loop
    has no bound of its own, the model stops with [None] when [fuel] is out. *)
Fixpoint verity_tree_size_loop (fuel : nat) (data_size : Z) (levels : nat)
  (verity_blocks : Z) : option Z :=
  match fuel with
  | O => None
  | S fuel' =>
      let level_blocks := verity_tree_blocks data_size levels in
      let levels := S levels in
      let verity_blocks := u64 (verity_blocks + level_blocks) in
      if 1 <? level_blocks
      then verity_tree_size_loop fuel' data_size levels verity_blocks
      else Some verity_blocks
  end.

(** Enough iterations for any UINT64 [data_size]: see
    [verity_tree_size_total] in Part II. *)
Definition VERITY_MAX_LEVELS : nat := 16.

(** [static UINT64 verity_tree_size(UINT64 data_size)] *)
Definition verity_tree_size (data_size : Z) : option Z :=
  match verity_tree_size_loop VERITY_MAX_LEVELS data_size 0 0 with
  | None => None
  | Some verity_blocks => Some (u64 (verity_blocks * VERITY_BLOCK_SIZE))
  end.

(** The disk as hashes.c reads it: each read lands in a struct, so the answer
    is kept as the struct the bytes overlay. [hash_partition] is the status
    of the streaming digest over the first [len] bytes of the partition. *)
Record disk_io := {
  ReadDisk_ext4 : Z -> Z -> Z -> EFI_STATUS * ext4_super_block;
  ReadDisk_squashfs : Z -> Z -> Z -> EFI_STATUS * squashfs_super_block;
  ReadDisk_verity : Z -> Z -> Z -> EFI_STATUS * ext4_verity_header;
  gpt_get_partition_by_label :
    string -> EFI_STATUS * Flash.gpt_partition_interface;
  hash_partition : Flash.gpt_partition_interface -> Z -> EFI_STATUS
}.

(** [static EFI_STATUS read_partition(gparti, offset, len, data)]: [data] is
    the struct before the call, the result the struct after it. *)
Definition read_partition {A : Type}
  (ReadDisk : Z -> Z -> Z -> EFI_STATUS * A)
  (gparti : Flash.gpt_partition_interface) (offset len : Z) (data : A)
  : option (EFI_STATUS * A) :=
  match Flash.bio gparti with
  | None => None
  | Some b =>
      let partlen :=
        u64 (u64 (Flash.ending_lba gparti + 1 - Flash.starting_lba gparti)
             * Flash.BlockSize b) in
      let partoffset := u64 (Flash.starting_lba gparti * Flash.BlockSize b) in
      if partlen <? u64 (len + offset)
      then Some (EFI_INVALID_PARAMETER, data)
      else Some (ReadDisk (Flash.MediaId b) (u64 (partoffset + offset)) len)
  end.

Section Lengths.

Variable dk : disk_io.

(** [static EFI_STATUS get_ext4_len(gparti, UINT64 *len)]: [len] is the value
    behind the pointer before the call.  [1024 << s_log_block_size] is an
    [int] shift, defined by C for 0..20 only. *)
Definition get_ext4_len (gparti : Flash.gpt_partition_interface) (len : Z)
  : option (EFI_STATUS * Z) :=
  let sb0 := {| s_blocks_count_lo := 0; s_log_block_size := 0;
                ext4_s_magic := 0; s_state := 0; s_blocks_count_hi := 0 |} in
  do (ret, sb) <- read_partition (ReadDisk_ext4 dk) gparti EXT4_SB_OFFSET
                                 sizeof_ext4_super_block sb0;
  if EFI_ERROR ret then Some (ret, len)
  else if negb (ext4_s_magic sb =? EXT4_SUPER_MAGIC)
  then Some (EFI_INVALID_PARAMETER, len)
  else if negb (Z.land (s_state sb) EXT4_VALID_FS =? EXT4_VALID_FS)
  then Some (EFI_INVALID_PARAMETER, len)
  else if negb ((0 <=? s_log_block_size sb) && (s_log_block_size sb <=? 20))
  then None
  else
    let block_size := Z.shiftl 1024 (s_log_block_size sb) in
    let len_blocks :=
      u64 (u64 (u64 (s_blocks_count_hi sb) * 2 ^ 32) + s_blocks_count_lo sb) in
    Some (EFI_SUCCESS, u64 (block_size * len_blocks)).

(** [static EFI_STATUS get_squashfs_len(gparti, UINT64 *len)] *)
Definition get_squashfs_len (gparti : Flash.gpt_partition_interface) (len : Z)
  : option (EFI_STATUS * Z) :=
  let sb0 := {| squashfs_s_magic := 0; bytes_used := 0 |} in
  let padding := SQUASHFS_PADDING in
  do (ret, sb) <- read_partition (ReadDisk_squashfs dk) gparti 0
                                 sizeof_squashfs_super_block sb0;
  if EFI_ERROR ret then Some (ret, len)
  else if negb (squashfs_s_magic sb =? SQUASHFS_MAGIC)
  then Some (EFI_INVALID_PARAMETER, len)
  else if negb (bytes_used sb mod padding =? 0)
  then Some (EFI_SUCCESS, u64 (u64 (bytes_used sb + padding) / padding * padding))
  else Some (EFI_SUCCESS, bytes_used sb).

(** [static EFI_STATUS check_verity_header(gparti, UINT64 fs_len)] *)
Definition check_verity_header (gparti : Flash.gpt_partition_interface)
  (fs_len : Z) : option EFI_STATUS :=
  let vh0 := {| vh_magic := 0; protocol_version := 0 |} in
  do (ret, vh) <- read_partition (ReadDisk_verity dk) gparti fs_len
                                 sizeof_ext4_verity_header vh0;
  if EFI_ERROR ret then Some ret
  else if negb (vh_magic vh =? VERITY_METADATA_MAGIC_NUMBER)
  then Some EFI_INVALID_PARAMETER
  else if negb (protocol_version vh =? 0)
  then Some EFI_INVALID_PARAMETER
  else Some EFI_SUCCESS.

(** The table [SUPPORTED_FS] of [get_fs_hash]. *)
Definition SUPPORTED_FS :
  list (string * (Flash.gpt_partition_interface -> Z -> option (EFI_STATUS * Z))) :=
  [ ("Ext4"%string, get_ext4_len); ("SquashFS"%string, get_squashfs_len) ].

(** The [for] loop over [SUPPORTED_FS]: the first entry that succeeds ends it,
    otherwise the status of the last one tried stays in [ret]. *)
Fixpoint detect_fs
  (fs : list (string * (Flash.gpt_partition_interface -> Z -> option (EFI_STATUS * Z))))
  (gparti : Flash.gpt_partition_interface) (ret : EFI_STATUS) (fs_len : Z)
  : option (EFI_STATUS * Z) :=
  match fs with
  | [] => Some (ret, fs_len)
  | (_, get_len) :: rest =>
      do (ret, fs_len) <- get_len gparti fs_len;
      if EFI_ERROR ret then detect_fs rest gparti ret fs_len
      else Some (ret, fs_len)
  end.

(** [EFI_STATUS get_fs_hash(const CHAR16 *label)] up to the digest: the status
    returned and, when the partition was hashed, the length that was handed
    to [hash_partition].  [fs_len0] is the uninitialised local. *)
Definition get_fs_hash (label : string) (fs_len0 : Z)
  : option (EFI_STATUS * option Z) :=
  let (ret, gparti) := gpt_get_partition_by_label dk label in
  if EFI_ERROR ret then Some (ret, None)
  else
    do (ret, fs_len) <- detect_fs SUPPORTED_FS gparti ret fs_len0;
    if EFI_ERROR ret then Some (ret, None)
    else
      do ret <- check_verity_header gparti fs_len;
      if EFI_ERROR ret then Some (ret, None)
      else
        do tree <- verity_tree_size fs_len;
        let fs_len := u64 (fs_len + u64 (tree + VERITY_METADATA_SIZE)) in
        let ret := hash_partition dk gparti fs_len in
        Some (ret, Some fs_len).

End Lengths.

(** *** The spec's reading of the two computations *)

(** Ceiling division over the integers. *)
Definition ceil_div (x y : Z) : Z := (x + y - 1) / y.

(** "bytes_used padded up to the next 4 KiB boundary". *)
Definition spec_squashfs_len (used : Z) : Z := ceil_div used 4096 * 4096.

(** "the Merkle tree over 4 KiB blocks with 32-byte hashes (128 per block),
    computed bottom-up until one block remains": the blocks of the levels
    above a level of [blocks] blocks. *)
Equations? spec_tree_blocks (blocks : Z) : Z by wf (Z.to_nat blocks) lt :=
  spec_tree_blocks blocks with Z_le_gt_dec (ceil_div blocks 128) 1 := {
    | left _ => ceil_div blocks 128
    | right _ => ceil_div blocks 128 + spec_tree_blocks (ceil_div blocks 128)
  }.
Proof.
  unfold ceil_div in *.
  apply Z2Nat.inj_lt; Z.div_mod_to_equations; lia.
Qed.

Definition spec_verity_tree_size (fs_len : Z) : Z :=
  4096 * spec_tree_blocks (ceil_div fs_len 4096).

End Hashes.

(* ------------------------------------------------------------------------- *)
(** ** libkernelflinger/security.c: boot image attestation *)
(* ------------------------------------------------------------------------- *)

Module Security.
Import Efi.

(** Modelled from the spec: the BOOT_STATE_* constants come from security.h,
    which is not among the sources; security.c and the spec use these three
    ("yellow/green/red attestation"). *)
Inductive boot_state := BOOT_STATE_GREEN | BOOT_STATE_YELLOW | BOOT_STATE_RED.

(** OpenSSL's object identifiers and digest lengths (obj_mac.h, sha.h). *)
Definition NID_sha1 : Z := 64.

Definition NID_sha1WithRSAEncryption : Z := 65.

Definition NID_sha256WithRSAEncryption : Z := 668.

Definition NID_sha512WithRSAEncryption : Z := 670.

Definition NID_sha256 : Z := 672.

Definition NID_sha512 : Z := 674.

Definition EVP_PKEY_RSA : Z := 6.

Definition SHA_DIGEST_LENGTH : Z := 20.

Definition SHA256_DIGEST_LENGTH : Z := 32.

Definition SHA512_DIGEST_LENGTH : Z := 64.

(** OpenSSL as security.c calls it.  Certificates, keys and their checks are
    opaque: [RSA_verify] and [X509_verify] answer 1 for a good signature. *)
Record openssl := {
  X509 : Type;
  EVP_PKEY : Type;
  RSA : Type;
  (** [BIO_new_mem_buf] followed by [d2i_X509_bio] *)
  d2i_X509_mem : bytes -> Z -> option X509;
  X509_get_pubkey : X509 -> option EVP_PKEY;
  (** [EVP_PKEY_type(pkey->type)] *)
  EVP_PKEY_type : EVP_PKEY -> Z;
  EVP_PKEY_get1_RSA : EVP_PKEY -> option RSA;
  RSA_verify : Z -> bytes -> Z -> bytes -> Z -> RSA -> Z;
  X509_verify : X509 -> EVP_PKEY -> Z;
  (** [OBJ_obj2nid(cert->sig_alg->algorithm)] *)
  sig_alg_nid : X509 -> Z;
  (** [EVP_add_digest(md)] for the digest of the given NID *)
  EVP_add_digest : Z -> Z;
  SHA1_Init : Z;
  SHA256_Init : Z;
  SHA512_Init : Z;
  (** the digests of the bytes fed through [Update] *)
  SHA1 : bytes -> bytes;
  SHA256 : bytes -> bytes;
  SHA512 : bytes -> bytes;
  X509_dup : X509 -> option X509
}.

Section Verify.

Variable ssl : openssl.

(** [struct boot_signature] (signature.h), the fields security.c reads. *)
Record boot_signature := {
  id_nid : Z;
  attributes_data : bytes;
  attributes_data_sz : Z;
  attributes_target : string;
  signature : bytes;
  signature_len : Z;
  certificate : option (X509 ssl)
}.

(** The rest of libkernelflinger and the firmware, as security.c uses them:
    android.h and signature.h parsers, the string conversion of lib.c, the
    pool allocator (whether the n-th allocation of the run succeeds) and two
    compile-time sizes. *)
Record lib := {
  boot_img_hdr : Type;
  get_bootimage_header : bytes -> option boot_img_hdr;
  bootimage_size : boot_img_hdr -> Z;
  get_boot_signature : bytes -> Z -> option boot_signature;
  stra_to_str : string -> option string;
  AllocatePool : nat -> Z -> bool;
  BOOT_SIGNATURE_MAX_SIZE : Z;
  BOOT_TARGET_SIZE : Z
}.

Variable kf : lib.

(** [static EVP_PKEY *get_rsa_pubkey(X509 *cert)] *)
Definition get_rsa_pubkey (cert : X509 ssl) : option (EVP_PKEY ssl) :=
  match X509_get_pubkey ssl cert with
  | None => None
  | Some pkey =>
      if negb (EVP_PKEY_RSA =? EVP_PKEY_type ssl pkey) then None else Some pkey
  end.

(** [static X509 *der_to_x509(CONST UINT8 *der, UINTN size)] *)
Definition der_to_x509 (der : bytes) (size : Z) : option (X509 ssl) :=
  d2i_X509_mem ssl der size.

(** [static EFI_STATUS get_hash_buffer(UINTN nid, VOID **hash, UINTN *hashsz)]:
    the status, [*hashsz], and the allocation count after the call. *)
Definition get_hash_buffer (n : nat) (nid : Z) : EFI_STATUS * Z * nat :=
  let sized (hashsz : Z) :=
    if AllocatePool kf n hashsz then (EFI_SUCCESS, hashsz, S n)
    else (EFI_OUT_OF_RESOURCES, hashsz, S n) in
  if nid =? NID_sha1WithRSAEncryption then sized SHA_DIGEST_LENGTH
  else if nid =? NID_sha256WithRSAEncryption then sized SHA256_DIGEST_LENGTH
  else if nid =? NID_sha512WithRSAEncryption then sized SHA512_DIGEST_LENGTH
  else (EFI_UNSUPPORTED, 0, n).

(** The bytes hashed: the boot image, then the AuthenticatedAttributes. *)
Definition signed_bytes (bs : boot_signature) (bootimage : bytes) (imgsize : Z)
  : bytes :=
  firstn (Z.to_nat imgsize) bootimage
  ++ firstn (Z.to_nat (attributes_data_sz bs)) (attributes_data bs).

(** [static EFI_STATUS hash_bootimage(bs, bootimage, imgsize, hash, hashsz)] *)
Definition hash_bootimage (n : nat) (bs : boot_signature) (bootimage : bytes)
  (imgsize : Z) : EFI_STATUS * bytes * Z * nat :=
  let nid := id_nid bs in
  let '(eret, hashsz, n) := get_hash_buffer n nid in
  if EFI_ERROR eret then (eret, [], hashsz, n)
  else if nid =? NID_sha1WithRSAEncryption then
    if negb (1 =? SHA1_Init ssl) then (EFI_INVALID_PARAMETER, [], hashsz, n)
    else (EFI_SUCCESS, SHA1 ssl (signed_bytes bs bootimage imgsize), hashsz, n)
  else if nid =? NID_sha256WithRSAEncryption then
    if negb (1 =? SHA256_Init ssl) then (EFI_INVALID_PARAMETER, [], hashsz, n)
    else (EFI_SUCCESS, SHA256 ssl (signed_bytes bs bootimage imgsize), hashsz, n)
  else if nid =? NID_sha512WithRSAEncryption then
    if negb (1 =? SHA512_Init ssl) then (EFI_INVALID_PARAMETER, [], hashsz, n)
    else (EFI_SUCCESS, SHA512 ssl (signed_bytes bs bootimage imgsize), hashsz, n)
  else (EFI_INVALID_PARAMETER, [], hashsz, n).

(** [static int get_rsa_verify_nid(int nid)] *)
Definition get_rsa_verify_nid (nid : Z) : Z :=
  if nid =? NID_sha256WithRSAEncryption then NID_sha256
  else if nid =? NID_sha512WithRSAEncryption then NID_sha512
  else if nid =? NID_sha1WithRSAEncryption then NID_sha1
  else nid.

(** [static EFI_STATUS check_bootimage(bootimage, imgsize, sig, cert)] *)
Definition check_bootimage (n : nat) (bootimage : bytes) (imgsize : Z)
  (sig : boot_signature) (cert : X509 ssl) : EFI_STATUS * nat :=
  let '(ret, hash, hash_sz, n) := hash_bootimage n sig bootimage imgsize in
  if EFI_ERROR ret then (EFI_ACCESS_DENIED, n)
  else
    match get_rsa_pubkey cert with
    | None => (EFI_ACCESS_DENIED, n)
    | Some pkey =>
        match EVP_PKEY_get1_RSA ssl pkey with
        | None => (EFI_ACCESS_DENIED, n)
        | Some rsa =>
            let rsa_ret :=
              RSA_verify ssl (get_rsa_verify_nid (id_nid sig)) hash hash_sz
                         (signature sig) (signature_len sig) rsa in
            if rsa_ret =? 1 then (EFI_SUCCESS, n) else (EFI_ACCESS_DENIED, n)
        end
    end.

(** [static EFI_STATUS add_digest(X509_ALGOR *algo)], on the signature
    algorithm of a certificate. *)
Definition add_digest (c : X509 ssl) : EFI_STATUS :=
  let nid := sig_alg_nid ssl c in
  if nid =? NID_sha256WithRSAEncryption then
    if negb (EVP_add_digest ssl NID_sha256 =? 0) then EFI_SUCCESS
    else EFI_UNSUPPORTED
  else if nid =? NID_sha512WithRSAEncryption then
    if negb (EVP_add_digest ssl NID_sha512 =? 0) then EFI_SUCCESS
    else EFI_UNSUPPORTED
  else EFI_UNSUPPORTED.

(** What the call leaves behind: the returned state, the string stored in
    [target] ([None]: not written) and the certificate stored through
    [verifier_cert] ([None]: NULL or not written). *)
Record outcome := {
  verify_state : boot_state;
  target_out : option string;
  verifier_out : option (X509 ssl)
}.

(** [StrNCpy(target, target_tmp, BOOT_TARGET_SIZE)] *)
Definition StrNCpy (src : string) (n : Z) : string :=
  substring 0 (Z.to_nat n) src.

(** The code from [done:] on: the target string is converted last, and a
    failed conversion turns any state into red. *)
Definition finish (sig : boot_signature) (verify_state : boot_state)
  (vc : option (X509 ssl)) : outcome :=
  match stra_to_str kf (attributes_target sig) with
  | None =>
      {| verify_state := BOOT_STATE_RED; target_out := None; verifier_out := vc |}
  | Some target_tmp =>
      {| verify_state := verify_state;
         target_out := Some (StrNCpy target_tmp (BOOT_TARGET_SIZE kf));
         verifier_out := vc |}
  end.

Definition red : outcome :=
  {| verify_state := BOOT_STATE_RED; target_out := None; verifier_out := None |}.

(** [UINT8 verify_android_boot_image(bootimage, der_cert, cert_size, target,
    verifier_cert)].  A pointer argument is [None] when NULL; [target] and
    [verifier_cert] are out-pointers, given by whether they are non-NULL. *)
Definition verify_android_boot_image (bootimage : option bytes)
  (der_cert : option bytes) (cert_size : Z) (target : bool)
  (verifier_cert : bool) : outcome :=
  match bootimage, der_cert, target with
  | Some bootimage, Some der_cert, true =>
      match get_bootimage_header kf bootimage with
      | None => red
      | Some hdr =>
          let imgsize := bootimage_size kf hdr in
          let signature_data := skipn (Z.to_nat imgsize) bootimage in
          match get_boot_signature kf signature_data (BOOT_SIGNATURE_MAX_SIZE kf) with
          | None => red
          | Some sig =>
              match der_to_x509 der_cert cert_size with
              | None => red
              | Some cert =>
                  let dup (c : X509 ssl) :=
                    if verifier_cert then X509_dup ssl c else None in
                  let (ret, n) := check_bootimage 0 bootimage imgsize sig cert in
                  if negb (EFI_ERROR ret)
                  then finish sig BOOT_STATE_GREEN (dup cert)
                  else
                    match certificate sig with
                    | None => finish sig BOOT_STATE_RED None
                    | Some embedded =>
                        if negb (ret =? EFI_ACCESS_DENIED)
                        then finish sig BOOT_STATE_RED None
                        else
                          let (ret, _) :=
                            check_bootimage n bootimage imgsize sig embedded in
                          if EFI_ERROR ret then finish sig BOOT_STATE_RED None
                          else
                            let vc := dup embedded in
                            match get_rsa_pubkey cert with
                            | None => finish sig BOOT_STATE_YELLOW vc
                            | Some oemkey =>
                                if EFI_ERROR (add_digest embedded)
                                   || negb (X509_verify ssl embedded oemkey =? 1)
                                then finish sig BOOT_STATE_YELLOW vc
                                else finish sig BOOT_STATE_GREEN vc
                            end
                    end
              end
          end
      end
  | _, _, _ => red
  end.

(** *** The words of the attestation rule *)

(** The rule is written here from its statement, over the oracles of
    OpenSSL and of the parsers alone: none of the functions of security.c
    above takes part in it. *)






End Verify.

End Security.

(* ------------------------------------------------------------------------- *)
(** ** libfastboot/fastboot.c: variables, replies, commands, parser *)
(* ------------------------------------------------------------------------- *)

Module Fastboot.
Import Efi.

Open Scope string_scope.
Open Scope Z_scope.

(** size of "INFO" "OKAY" or "FAIL" *)
Definition CODE_LENGTH : Z := 4.

(** Modelled from the spec: MAGIC_LENGTH is defined in fastboot.h, which is
    not among the sources; the spec fixes every reply frame at 64 bytes. *)
Definition MAGIC_LENGTH : Z := 64.

Definition INFO_PAYLOAD : Z := MAGIC_LENGTH - CODE_LENGTH.

Definition MAX_VARIABLE_LENGTH : Z := 64.

(** [struct fastboot_var] without its link; the character arrays hold C
    strings, the getter is [None] for a NULL function pointer and answers
    [None] for a NULL string. *)
Record fastboot_var := {
  name : string;
  value : string;
  get_value : option (unit -> option string)
}.

Inductive fastboot_states :=
| STATE_OFFLINE
| STATE_COMMAND
| STATE_COMPLETE
| STATE_START_DOWNLOAD
| STATE_DOWNLOAD
| STATE_TX
| STATE_STOPPING
| STATE_STOPPED
| STATE_ERROR.

Definition fastboot_states_eqb (a b : fastboot_states) : bool :=
  match a, b with
  | STATE_OFFLINE, STATE_OFFLINE | STATE_COMMAND, STATE_COMMAND
  | STATE_COMPLETE, STATE_COMPLETE | STATE_START_DOWNLOAD, STATE_START_DOWNLOAD
  | STATE_DOWNLOAD, STATE_DOWNLOAD | STATE_TX, STATE_TX
  | STATE_STOPPING, STATE_STOPPING | STATE_STOPPED, STATE_STOPPED
  | STATE_ERROR, STATE_ERROR => true
  | _, _ => false
  end.

(** Modelled from the spec: enum device_state, get_current_state() and
    get_current_state_string() belong to vars.h and vars.c, which are not
    among the sources.  The spec names the lock states LOCKED and UNLOCKED,
    orders them by what they authorise (a command whose minimum is UNLOCKED
    is refused while LOCKED) and prints the state in capitals in the replies
    (scenario S3). *)
Inductive device_state := LOCKED | UNLOCKED.

(** Modelled from the spec: the integer behind an enumerator of
    enum device_state (vars.h, absent), for the comparison
    [cmd->min_state > get_current_state()]; LOCKED is the least. *)
Definition device_state_rank (s : device_state) : Z :=
  match s with
  | LOCKED => 0
  | UNLOCKED => 1
  end.

Definition device_state_eqb (a b : device_state) : bool :=
  device_state_rank a =? device_state_rank b.

(** Modelled from the spec: the name [get_current_state_string()] (vars.c,
    absent) has for a lock state; scenario S3 shows LOCKED in capitals. *)
Definition state_string (s : device_state) : string :=
  match s with
  | LOCKED => "LOCKED"
  | UNLOCKED => "UNLOCKED"
  end.

(** Modelled from the spec: enum boot_target is declared in targets.h, which
    is not among the sources; these are the enumerators fastboot.c names. *)
Inductive boot_target := UNKNOWN_TARGET | NORMAL_BOOT | FASTBOOT.

(** What the session has asked of its collaborators, oldest first.  The
    diagnostics ([error], [debug], [ui_print]) are not recorded. *)
Inductive event :=
| TransportWrite (buf : string) (len : Z) (ret : EFI_STATUS)
| PoolAlloc (size : Z) (ok : bool)
| PoolFree
| FlashCall (label : string) (size : Z)
| EraseCall (label : string)
| GptSync.

(** The globals of fastboot.c, the lock state kept by the vars collaborator
    ([current_state]: what [get_current_state()] answers), and the trace.
    [txbuf_head] is the queue of frames; [dlbuffer] is [None] for NULL and
    otherwise the size of the pool block it points to; the images handed
    over by [fastboot_stop] are kept the same way. *)
Record state := {
  varlist : list fastboot_var;
  txbuf_head : list string;
  fastboot_state : fastboot_states;
  next_state : fastboot_states;
  dlbuffer : option Z;
  dlsize : Z;
  bufsize : Z;
  command_buffer : string;
  received_len : Z;
  last_received_len : Z;
  fastboot_bootimage : option Z;
  fastboot_efiimage : option Z;
  fastboot_imagesize : Z;
  fastboot_target : boot_target;
  current_state : device_state;
  trace : list event
}.

Definition set_varlist (x : list fastboot_var) (st : state) : state :=
  {| varlist := x; txbuf_head := txbuf_head st;
     fastboot_state := fastboot_state st; next_state := next_state st;
     dlbuffer := dlbuffer st; dlsize := dlsize st; bufsize := bufsize st;
     command_buffer := command_buffer st; received_len := received_len st;
     last_received_len := last_received_len st;
     fastboot_bootimage := fastboot_bootimage st;
     fastboot_efiimage := fastboot_efiimage st;
     fastboot_imagesize := fastboot_imagesize st;
     fastboot_target := fastboot_target st; current_state := current_state st;
     trace := trace st |}.

Definition set_txbuf_head (x : list string) (st : state) : state :=
  {| varlist := varlist st; txbuf_head := x;
     fastboot_state := fastboot_state st; next_state := next_state st;
     dlbuffer := dlbuffer st; dlsize := dlsize st; bufsize := bufsize st;
     command_buffer := command_buffer st; received_len := received_len st;
     last_received_len := last_received_len st;
     fastboot_bootimage := fastboot_bootimage st;
     fastboot_efiimage := fastboot_efiimage st;
     fastboot_imagesize := fastboot_imagesize st;
     fastboot_target := fastboot_target st; current_state := current_state st;
     trace := trace st |}.

Definition set_fastboot_state (x : fastboot_states) (st : state) : state :=
  {| varlist := varlist st; txbuf_head := txbuf_head st; fastboot_state := x;
     next_state := next_state st; dlbuffer := dlbuffer st;
     dlsize := dlsize st; bufsize := bufsize st;
     command_buffer := command_buffer st; received_len := received_len st;
     last_received_len := last_received_len st;
     fastboot_bootimage := fastboot_bootimage st;
     fastboot_efiimage := fastboot_efiimage st;
     fastboot_imagesize := fastboot_imagesize st;
     fastboot_target := fastboot_target st; current_state := current_state st;
     trace := trace st |}.

Definition set_next_state (x : fastboot_states) (st : state) : state :=
  {| varlist := varlist st; txbuf_head := txbuf_head st;
     fastboot_state := fastboot_state st; next_state := x;
     dlbuffer := dlbuffer st; dlsize := dlsize st; bufsize := bufsize st;
     command_buffer := command_buffer st; received_len := received_len st;
     last_received_len := last_received_len st;
     fastboot_bootimage := fastboot_bootimage st;
     fastboot_efiimage := fastboot_efiimage st;
     fastboot_imagesize := fastboot_imagesize st;
     fastboot_target := fastboot_target st; current_state := current_state st;
     trace := trace st |}.

Definition set_dlbuffer (x : option Z) (st : state) : state :=
  {| varlist := varlist st; txbuf_head := txbuf_head st;
     fastboot_state := fastboot_state st; next_state := next_state st;
     dlbuffer := x; dlsize := dlsize st; bufsize := bufsize st;
     command_buffer := command_buffer st; received_len := received_len st;
     last_received_len := last_received_len st;
     fastboot_bootimage := fastboot_bootimage st;
     fastboot_efiimage := fastboot_efiimage st;
     fastboot_imagesize := fastboot_imagesize st;
     fastboot_target := fastboot_target st; current_state := current_state st;
     trace := trace st |}.

Definition set_dlsize (x : Z) (st : state) : state :=
  {| varlist := varlist st; txbuf_head := txbuf_head st;
     fastboot_state := fastboot_state st; next_state := next_state st;
     dlbuffer := dlbuffer st; dlsize := x; bufsize := bufsize st;
     command_buffer := command_buffer st; received_len := received_len st;
     last_received_len := last_received_len st;
     fastboot_bootimage := fastboot_bootimage st;
     fastboot_efiimage := fastboot_efiimage st;
     fastboot_imagesize := fastboot_imagesize st;
     fastboot_target := fastboot_target st; current_state := current_state st;
     trace := trace st |}.

Definition set_bufsize (x : Z) (st : state) : state :=
  {| varlist := varlist st; txbuf_head := txbuf_head st;
     fastboot_state := fastboot_state st; next_state := next_state st;
     dlbuffer := dlbuffer st; dlsize := dlsize st; bufsize := x;
     command_buffer := command_buffer st; received_len := received_len st;
     last_received_len := last_received_len st;
     fastboot_bootimage := fastboot_bootimage st;
     fastboot_efiimage := fastboot_efiimage st;
     fastboot_imagesize := fastboot_imagesize st;
     fastboot_target := fastboot_target st; current_state := current_state st;
     trace := trace st |}.

Definition set_command_buffer (x : string) (st : state) : state :=
  {| varlist := varlist st; txbuf_head := txbuf_head st;
     fastboot_state := fastboot_state st; next_state := next_state st;
     dlbuffer := dlbuffer st; dlsize := dlsize st; bufsize := bufsize st;
     command_buffer := x; received_len := received_len st;
     last_received_len := last_received_len st;
     fastboot_bootimage := fastboot_bootimage st;
     fastboot_efiimage := fastboot_efiimage st;
     fastboot_imagesize := fastboot_imagesize st;
     fastboot_target := fastboot_target st; current_state := current_state st;
     trace := trace st |}.

Definition set_received_len (x : Z) (st : state) : state :=
  {| varlist := varlist st; txbuf_head := txbuf_head st;
     fastboot_state := fastboot_state st; next_state := next_state st;
     dlbuffer := dlbuffer st; dlsize := dlsize st; bufsize := bufsize st;
     command_buffer := command_buffer st; received_len := x;
     last_received_len := last_received_len st;
     fastboot_bootimage := fastboot_bootimage st;
     fastboot_efiimage := fastboot_efiimage st;
     fastboot_imagesize := fastboot_imagesize st;
     fastboot_target := fastboot_target st; current_state := current_state st;
     trace := trace st |}.

Definition set_last_received_len (x : Z) (st : state) : state :=
  {| varlist := varlist st; txbuf_head := txbuf_head st;
     fastboot_state := fastboot_state st; next_state := next_state st;
     dlbuffer := dlbuffer st; dlsize := dlsize st; bufsize := bufsize st;
     command_buffer := command_buffer st; received_len := received_len st;
     last_received_len := x; fastboot_bootimage := fastboot_bootimage st;
     fastboot_efiimage := fastboot_efiimage st;
     fastboot_imagesize := fastboot_imagesize st;
     fastboot_target := fastboot_target st; current_state := current_state st;
     trace := trace st |}.

Definition set_fastboot_bootimage (x : option Z) (st : state) : state :=
  {| varlist := varlist st; txbuf_head := txbuf_head st;
     fastboot_state := fastboot_state st; next_state := next_state st;
     dlbuffer := dlbuffer st; dlsize := dlsize st; bufsize := bufsize st;
     command_buffer := command_buffer st; received_len := received_len st;
     last_received_len := last_received_len st; fastboot_bootimage := x;
     fastboot_efiimage := fastboot_efiimage st;
     fastboot_imagesize := fastboot_imagesize st;
     fastboot_target := fastboot_target st; current_state := current_state st;
     trace := trace st |}.

Definition set_fastboot_efiimage (x : option Z) (st : state) : state :=
  {| varlist := varlist st; txbuf_head := txbuf_head st;
     fastboot_state := fastboot_state st; next_state := next_state st;
     dlbuffer := dlbuffer st; dlsize := dlsize st; bufsize := bufsize st;
     command_buffer := command_buffer st; received_len := received_len st;
     last_received_len := last_received_len st;
     fastboot_bootimage := fastboot_bootimage st; fastboot_efiimage := x;
     fastboot_imagesize := fastboot_imagesize st;
     fastboot_target := fastboot_target st; current_state := current_state st;
     trace := trace st |}.

Definition set_fastboot_imagesize (x : Z) (st : state) : state :=
  {| varlist := varlist st; txbuf_head := txbuf_head st;
     fastboot_state := fastboot_state st; next_state := next_state st;
     dlbuffer := dlbuffer st; dlsize := dlsize st; bufsize := bufsize st;
     command_buffer := command_buffer st; received_len := received_len st;
     last_received_len := last_received_len st;
     fastboot_bootimage := fastboot_bootimage st;
     fastboot_efiimage := fastboot_efiimage st; fastboot_imagesize := x;
     fastboot_target := fastboot_target st; current_state := current_state st;
     trace := trace st |}.

Definition set_fastboot_target (x : boot_target) (st : state) : state :=
  {| varlist := varlist st; txbuf_head := txbuf_head st;
     fastboot_state := fastboot_state st; next_state := next_state st;
     dlbuffer := dlbuffer st; dlsize := dlsize st; bufsize := bufsize st;
     command_buffer := command_buffer st; received_len := received_len st;
     last_received_len := last_received_len st;
     fastboot_bootimage := fastboot_bootimage st;
     fastboot_efiimage := fastboot_efiimage st;
     fastboot_imagesize := fastboot_imagesize st; fastboot_target := x;
     current_state := current_state st; trace := trace st |}.

Definition set_trace (x : list event) (st : state) : state :=
  {| varlist := varlist st; txbuf_head := txbuf_head st;
     fastboot_state := fastboot_state st; next_state := next_state st;
     dlbuffer := dlbuffer st; dlsize := dlsize st; bufsize := bufsize st;
     command_buffer := command_buffer st; received_len := received_len st;
     last_received_len := last_received_len st;
     fastboot_bootimage := fastboot_bootimage st;
     fastboot_efiimage := fastboot_efiimage st;
     fastboot_imagesize := fastboot_imagesize st;
     fastboot_target := fastboot_target st; current_state := current_state st;
     trace := x |}.

(** Modelled from the spec: [get_current_state()] of vars.c (absent) answers
    the lock state the device keeps in non-volatile storage. *)
Definition get_current_state (st : state) : device_state := current_state st.

(** Modelled from the spec: [get_current_state_string()] of vars.c (absent),
    the name of that state. *)
Definition get_current_state_string (st : state) : string :=
  state_string (get_current_state st).

Definition log (e : event) (st : state) : state :=
  set_trace (trace st ++ [e]) st.

(** [EFI_GUID] *)
Record EFI_GUID := {
  Data1 : Z;
  Data2 : Z;
  Data3 : Z;
  Data4 : list Z
}.

Definition guid_linux_data : EFI_GUID :=
  {| Data1 := 0x0fc63daf; Data2 := 0x8483; Data3 := 0x4772;
     Data4 := [0x8e; 0x79; 0x3d; 0x69; 0xd8; 0x47; 0x7d; 0xe4] |}.

(** gnu-efi's [EfiPartTypeSystemPartitionGuid] *)
Definition EfiPartTypeSystemPartitionGuid : EFI_GUID :=
  {| Data1 := 0xc12a7328; Data2 := 0xf81f; Data3 := 0x11d2;
     Data4 := [0xba; 0x4b; 0x00; 0xa0; 0xc9; 0x3e; 0xc9; 0x3b] |}.

Fixpoint list_Z_eqb (a b : list Z) : bool :=
  match a, b with
  | [], [] => true
  | x :: a', y :: b' => (x =? y) && list_Z_eqb a' b'
  | _, _ => false
  end.

(** [CompareGuid] answers 0 for equal GUIDs; this is [!CompareGuid(a, b)]. *)
Definition guid_equal (a b : EFI_GUID) : bool :=
  (Data1 a =? Data1 b) && (Data2 a =? Data2 b) && (Data3 a =? Data3 b)
  && list_Z_eqb (Data4 a) (Data4 b).

(** One entry of [gpt_list_partition]: [part.name], the LBA range,
    [part.type] and [bio->Media->BlockSize]. *)
Record gpt_entry := {
  part_name : string;
  part_starting_lba : Z;
  part_ending_lba : Z;
  part_type : EFI_GUID;
  part_BlockSize : Z
}.

(** The collaborators of fastboot.c.  An answer may depend on everything
    asked before, hence the trace argument.
    - [transport_write]: the status of handing a buffer to the transport;
    - [AllocatePool]: whether an allocation (also [AllocateZeroPool])
      succeeds;
    - [stra_to_str]: the widened copy of a string, [None] when it cannot be
      allocated;
    - [strtoul]: lib.c's conversion in the given base;
    - [flash], [erase_by_label]: the flash engine of flash.c, from the
      download buffer, its size and the label;
    - [gpt_list_partition], [gpt_sync]: gpt.c;
    - [status_string]: the rendering of [%r];
    - the compile-time settings MAX_DOWNLOAD_SIZE, REFRESH_PARTITION_VAR,
      BOOTLOADER_POLICY and ACTION_AUTHORIZATION. *)
Record platform := {
  transport_write : list event -> string -> Z -> EFI_STATUS;
  AllocatePool : list event -> Z -> bool;
  stra_to_str : list event -> string -> option string;
  strtoul : string -> Z -> Z;
  flash : option Z -> Z -> string -> state -> EFI_STATUS * state;
  erase_by_label : string -> state -> EFI_STATUS * state;
  gpt_list_partition : list event -> EFI_STATUS * list gpt_entry;
  status_string : EFI_STATUS -> string;
  MAX_DOWNLOAD_SIZE : Z;
  REFRESH_PARTITION_VAR : Z;
  BOOTLOADER_POLICY : bool;
  ACTION_AUTHORIZATION : string
}.

(** *** printf conversions *)

Definition hex_digit (upper : bool) (d : Z) : ascii :=
  nth (Z.to_nat d)
      (list_ascii_of_string
         (if upper then "0123456789ABCDEF" else "0123456789abcdef"))
      "0"%char.

(** The [n] low nibbles of [v], most significant first. *)
Fixpoint hex_nibbles (upper : bool) (n : nat) (v : Z) : string :=
  match n with
  | O => EmptyString
  | S n' =>
      String (hex_digit upper (Z.shiftr v (4 * Z.of_nat n') mod 16))
             (hex_nibbles upper n' v)
  end.

Fixpoint strip_zeros (s : string) : string :=
  match s with
  | String c (String _ _ as rest) =>
      if Ascii.eqb c "0"%char then strip_zeros rest else s
  | _ => s
  end.

(** ["%08x"] of an [unsigned]. *)
Definition fmt_08x (v : Z) : string := hex_nibbles false 8 (u32 v).

(** ["0x%lX"] of a UINT64. *)
Definition fmt_0x_lX (v : Z) : string :=
  "0x" ++ strip_zeros (hex_nibbles true 16 (u64 v)).

(** [strlena] *)
Definition strlena (s : string) : Z := Z.of_nat (String.length s).

(** What [snprintf(buf, size, ...)] leaves in [buf] of a rendered string:
    at most [size - 1] characters. *)
Definition truncate (size : Z) (s : string) : string :=
  substring 0 (Z.to_nat (size - 1)) s.

(** *** What a run leaves behind *)

(** The frames handed to the transport, in order. *)
Fixpoint frames_written (t : list event) : list string :=
  match t with
  | [] => []
  | TransportWrite buf _ _ :: t' => buf :: frames_written t'
  | _ :: t' => frames_written t'
  end.

(** The labels handed to the flash engine, in order. *)
Fixpoint flash_calls (t : list event) : list string :=
  match t with
  | [] => []
  | FlashCall label _ :: t' => label :: flash_calls t'
  | _ :: t' => flash_calls t'
  end.

(** The invariant of [varlist]: names are unique and fit their array.
    [fastboot_getvar_or_create] is the one place that adds a node. *)
Definition varlist_ok (l : list fastboot_var) : Prop :=
  NoDup (map name l) /\
  Forall (fun var => strlena (name var) < MAX_VARIABLE_LENGTH) l.

Definition named (nm : string) (var : fastboot_var) : bool :=
  String.eqb nm (name var).

Section Session.

Variable pf : platform.

(** *** Firmware services, with their trace *)

Definition do_transport_write (buf : string) (len : Z) (st : state)
  : EFI_STATUS * state :=
  let ret := transport_write pf (trace st) buf len in
  (ret, log (TransportWrite buf len ret) st).

Definition do_AllocatePool (size : Z) (st : state) : bool * state :=
  let ok := AllocatePool pf (trace st) size in
  (ok, log (PoolAlloc size ok) st).

Definition do_FreePool (st : state) : state := log PoolFree st.

(** *** Replies *)

(** [fastboot_build_ack_msg]: the four bytes of the code, then the rendered
    reason cut to the payload.  The frame is kept as the C string it starts
    with; [vsnprintf] does not fail on a rendered reason. *)
Definition fastboot_build_ack_msg (code : string) (reason : string) : string :=
  substring 0 (Z.to_nat CODE_LENGTH) code ++ truncate INFO_PAYLOAD reason.

(** [void fastboot_ack(const char *code, const char *fmt, va_list ap)] *)
Definition fastboot_ack (code reason : string) (st : state) : state :=
  let msg := fastboot_build_ack_msg code reason in
  let st := set_fastboot_state (next_state st) st in
  let (ret, st) := do_transport_write msg MAGIC_LENGTH st in
  if EFI_ERROR ret then set_fastboot_state STATE_ERROR st else st.

(** [sizeof(struct fastboot_tx_buffer)]: a pointer and the frame. *)
Definition sizeof_fastboot_tx_buffer : Z := 8 + MAGIC_LENGTH.

(** [void fastboot_ack_buffered(const char *code, const char *fmt, va_list ap)] *)
Definition fastboot_ack_buffered (code reason : string) (st : state) : state :=
  let (ok, st) := do_AllocatePool sizeof_fastboot_tx_buffer st in
  if negb ok then st
  else
    let msg := fastboot_build_ack_msg code reason in
    let st := set_txbuf_head (txbuf_head st ++ [msg]) st in
    set_fastboot_state STATE_TX st.

(** [void fastboot_info(const char *fmt, ...)] *)
Definition fastboot_info (reason : string) (st : state) : state :=
  fastboot_ack_buffered "INFO" reason st.

(** [void fastboot_fail(const char *fmt, ...)] *)
Definition fastboot_fail (reason : string) (st : state) : state :=
  if fastboot_states_eqb (fastboot_state st) STATE_TX
  then fastboot_ack_buffered "FAIL" reason st
  else fastboot_ack "FAIL" reason st.

(** [void fastboot_okay(const char *fmt, ...)] *)
Definition fastboot_okay (reason : string) (st : state) : state :=
  if fastboot_states_eqb (fastboot_state st) STATE_TX
  then fastboot_ack_buffered "OKAY" reason st
  else fastboot_ack "OKAY" reason st.

(** [static void flush_tx_buffer(void)]; [None] is the dereference of a NULL
    [txbuf_head]. *)
Definition flush_tx_buffer (st : state) : option state :=
  match txbuf_head st with
  | [] => None
  | msg :: rest =>
      let st := set_txbuf_head rest st in
      let st :=
        match rest with
        | [] => set_fastboot_state (next_state st) st
        | _ :: _ => st
        end in
      let st := do_FreePool st in
      let (ret, st) := do_transport_write msg MAGIC_LENGTH st in
      Some (if EFI_ERROR ret then set_fastboot_state STATE_ERROR st else st)
  end.

(** *** Variables *)

(** [struct fastboot_var *fastboot_getvar(const char *name)]: the first node
    whose name compares equal. *)
Definition fastboot_getvar (nm : string) (st : state) : option fastboot_var :=
  find (fun var => String.eqb nm (name var)) (varlist st).

(** A store through the pointer [fastboot_getvar] returns. *)
Fixpoint store_var (nm : string) (f : fastboot_var -> fastboot_var)
  (l : list fastboot_var) : list fastboot_var :=
  match l with
  | [] => []
  | var :: next =>
      if String.eqb nm (name var) then f var :: next
      else var :: store_var nm f next
  end.

Definition sizeof_fastboot_var : Z := 8 + MAX_VARIABLE_LENGTH + MAX_VARIABLE_LENGTH + 8.

(** [static struct fastboot_var *fastboot_getvar_or_create(const char *name)] *)
Definition fastboot_getvar_or_create (nm : string) (st : state)
  : option fastboot_var * state :=
  let size := strlena nm + 1 in
  if MAX_VARIABLE_LENGTH <? size then (None, st)
  else
    match fastboot_getvar nm st with
    | Some var => (Some var, st)
    | None =>
        let (ok, st) := do_AllocatePool sizeof_fastboot_var st in
        if negb ok then (None, st)
        else
          let var := {| name := nm; value := ""; get_value := None |} in
          (Some var, set_varlist (var :: varlist st) st)
    end.

Definition MATCH_PART : string := "partition-".

(** The 64 bytes of [var->name]: the string, then zeroes. *)
Definition name_array (var : fastboot_var) : list ascii :=
  list_ascii_of_string (name var)
  ++ repeat zero (Z.to_nat MAX_VARIABLE_LENGTH - String.length (name var)).

(** [!memcmp(a, b, n)] *)
Fixpoint memcmp_equal (a b : list ascii) (n : nat) : bool :=
  match n with
  | O => true
  | S n' =>
      match a, b with
      | x :: a', y :: b' => Ascii.eqb x y && memcmp_equal a' b' n'
      | _, _ => false
      end
  end.

Definition is_partition_var (var : fastboot_var) : bool :=
  memcmp_equal (list_ascii_of_string MATCH_PART) (name_array var)
               (String.length MATCH_PART).

(** The loop of [clean_partition_var]: a kept node is pushed on the front of
    the new list. *)
Fixpoint clean_partition_loop (old_varlist : list fastboot_var) (st : state)
  : state :=
  match old_varlist with
  | [] => st
  | var :: next =>
      if is_partition_var var
      then clean_partition_loop next (do_FreePool st)
      else clean_partition_loop next (set_varlist (var :: varlist st) st)
  end.

(** [static void clean_partition_var(void)] *)
Definition clean_partition_var (st : state) : state :=
  let old_varlist := varlist st in
  clean_partition_loop old_varlist (set_varlist [] st).

(** [EFI_STATUS fastboot_publish_dynamic(const char *name, char *(get_value)(void))] *)
Definition fastboot_publish_dynamic (nm : string)
  (getter : unit -> option string) (st : state) : EFI_STATUS * state :=
  match fastboot_getvar_or_create nm st with
  | (None, st) => (EFI_INVALID_PARAMETER, st)
  | (Some _, st) =>
      let put var := {| name := name var; value := value var;
                        get_value := Some getter |} in
      (EFI_SUCCESS, set_varlist (store_var nm put (varlist st)) st)
  end.

(** [EFI_STATUS fastboot_publish(const char *name, const char *value)] *)
Definition fastboot_publish (nm val : string) (st : state)
  : EFI_STATUS * state :=
  let valuelen := strlena val + 1 in
  if MAX_VARIABLE_LENGTH <? valuelen then (EFI_BUFFER_TOO_SMALL, st)
  else
    match fastboot_getvar_or_create nm st with
    | (None, st) => (EFI_INVALID_PARAMETER, st)
    | (Some _, st) =>
        let put var := {| name := name var; value := val;
                          get_value := get_value var |} in
        (EFI_SUCCESS, set_varlist (store_var nm put (varlist st)) st)
    end.

(** [static char *get_ptype_str(EFI_GUID *guid)] *)
Definition get_ptype_str (guid : EFI_GUID) : string :=
  if guid_equal guid guid_linux_data then "ext4"
  else if guid_equal guid EfiPartTypeSystemPartitionGuid then "vfat"
  else "none".

(** [static char *get_psize_str(UINT64 size)] *)
Definition get_psize_str (size : Z) : option string :=
  let rendered := fmt_0x_lX size in
  if MAX_VARIABLE_LENGTH <=? strlena rendered then None else Some rendered.

(** The loop of [publish_part] over its three descriptors. *)
Fixpoint publish_descriptors (descriptors : list (string * option string))
  (part_name : string) (st : state) : EFI_STATUS * state :=
  match descriptors with
  | [] => (EFI_SUCCESS, st)
  | (desc_name, desc_value) :: rest =>
      match desc_value with
      | None => (EFI_INVALID_PARAMETER, st)
      | Some val =>
          let var := desc_name ++ ":" ++ part_name in
          if MAX_VARIABLE_LENGTH <=? strlena var then (EFI_INVALID_PARAMETER, st)
          else
            let (_, st) := fastboot_publish var val st in
            publish_descriptors rest part_name st
      end
  end.

(** [static EFI_STATUS publish_part(CHAR16 *part_name, UINT64 size, EFI_GUID *guid)] *)
Definition publish_part (part_name : string) (size : Z) (guid : EFI_GUID)
  (st : state) : EFI_STATUS * state :=
  publish_descriptors
    [ ("partition-size", get_psize_str size);
      ("partition-type", Some (get_ptype_str guid));
      ("has-slot", Some "no") ]
    part_name st.

(** The loop of [publish_partsize] over the partitions found. *)
Fixpoint publish_partitions (gparti : list gpt_entry) (st : state)
  : EFI_STATUS * state :=
  match gparti with
  | [] => (EFI_SUCCESS, do_FreePool st)
  | e :: rest =>
      let size :=
        u64 (part_BlockSize e
             * u64 (part_ending_lba e + 1 - part_starting_lba e)) in
      let (ret, st) := publish_part (part_name e) size (part_type e) st in
      if EFI_ERROR ret then (ret, st)
      else
        let (ret, st) :=
          if String.eqb (part_name e) "data"
          then publish_part "userdata" size (part_type e) st
          else if String.eqb (part_name e) "userdata"
          then publish_part "data" size (part_type e) st
          else (ret, st) in
        if EFI_ERROR ret then (ret, st)
        else publish_partitions rest st
  end.

(** [static EFI_STATUS publish_partsize(void)] *)
Definition publish_partsize (st : state) : EFI_STATUS * state :=
  let (ret, gparti) := gpt_list_partition pf (trace st) in
  if EFI_ERROR ret || (Z.of_nat (List.length gparti) =? 0) then (EFI_SUCCESS, st)
  else publish_partitions gparti st.

(** [EFI_STATUS refresh_partition_var(void)] *)
Definition refresh_partition_var (st : state) : EFI_STATUS * state :=
  publish_partsize (clean_partition_var st).

(** [static char *fastboot_var_value(struct fastboot_var *var)] *)
Definition fastboot_var_value (var : fastboot_var) : string :=
  match get_value var with
  | None => value var
  | Some getter =>
      match getter tt with
      | None => ""
      | Some val =>
          if MAX_VARIABLE_LENGTH <? strlena val + 1 then "" else val
      end
  end.

(** *** Command handlers *)

(** [static const char *flash_locked_whitelist[]] *)
Definition flash_locked_whitelist : list string :=
  if BOOTLOADER_POLICY pf then [ACTION_AUTHORIZATION pf] else [].

(** [static BOOLEAN is_in_white_list(const CHAR8 *key, const char **white_list)] *)
Fixpoint is_in_white_list (key : string) (white_list : list string) : bool :=
  match white_list with
  | [] => false
  | w :: rest => if String.eqb key w then true else is_in_white_list key rest
  end.

(** [argv[i]]; the handlers index below [argc] only. *)
Definition arg (argv : list string) (i : nat) : string := nth i argv "".

(** [static void cmd_flash(INTN argc, CHAR8 **argv)] *)
Definition cmd_flash (argc : Z) (argv : list string) (st : state) : state :=
  if negb (argc =? 2) then fastboot_fail "Invalid parameter" st
  else if device_state_eqb (get_current_state st) LOCKED
          && negb (is_in_white_list (arg argv 1) flash_locked_whitelist)
  then
    fastboot_fail
      ("Prohibited command in " ++ get_current_state_string st ++ " state.")
      st
  else
    match stra_to_str pf (trace st) (arg argv 1) with
    | None => fastboot_fail "Allocation error" st
    | Some label =>
        let st := log (FlashCall label (dlsize st)) st in
        let (ret, st) := flash pf (dlbuffer st) (dlsize st) label st in
        let st := do_FreePool st in
        if EFI_ERROR ret
        then fastboot_fail ("Flash failure: " ++ status_string pf ret) st
        else
          let st := log GptSync st in
          if negb (Z.land ret (REFRESH_PARTITION_VAR pf) =? 0) then
            let (ret, st) := refresh_partition_var st in
            if EFI_ERROR ret
            then
              fastboot_fail
                ("Failed to publish partition variables, " ++ status_string pf ret)
                st
            else fastboot_okay "" st
          else fastboot_okay "" st
    end.

(** [static void cmd_erase(INTN argc, CHAR8 **argv)] *)
Definition cmd_erase (argc : Z) (argv : list string) (st : state) : state :=
  if negb (argc =? 2) then fastboot_fail "Invalid parameter" st
  else
    match stra_to_str pf (trace st) (arg argv 1) with
    | None => fastboot_fail "Allocation error" st
    | Some label =>
        let st := log (EraseCall label) st in
        let (ret, st) := erase_by_label pf label st in
        let st := do_FreePool st in
        if EFI_ERROR ret
        then fastboot_fail ("Erase failure: " ++ status_string pf ret) st
        else fastboot_okay "" st
    end.

(** [EFI_STATUS fastboot_stop(void *bootimage, void *efiimage, UINTN imagesize,
    enum boot_target target)]; an image pointer is [true] when non-NULL. *)
Definition fastboot_stop (bootimage efiimage : bool) (imagesize : Z)
  (target : boot_target) (st : state) : EFI_STATUS * state :=
  let st := set_fastboot_imagesize imagesize st in
  let st := set_fastboot_target target st in
  let '(failed, imgbuffer, st) :=
    if negb (imagesize =? 0) && (bootimage || efiimage) then
      let (ok, st) := do_AllocatePool imagesize st in
      if negb ok then (true, None, st) else (false, Some imagesize, st)
    else (false, None, st) in
  if (failed : bool) then (EFI_OUT_OF_RESOURCES, st)
  else
    let st := set_fastboot_bootimage (if bootimage then imgbuffer else None) st in
    let st := set_fastboot_efiimage (if efiimage then imgbuffer else None) st in
    let st :=
      if fastboot_states_eqb (fastboot_state st) STATE_COMPLETE
      then set_fastboot_state STATE_STOPPED st
      else set_next_state STATE_STOPPING st in
    (EFI_SUCCESS, st).

(** [static void cmd_boot(INTN argc, CHAR8 **argv)] *)
Definition cmd_boot (argc : Z) (argv : list string) (st : state) : state :=
  let (ret, st) :=
    fastboot_stop (match dlbuffer st with Some _ => true | None => false end)
                  false (dlsize st) UNKNOWN_TARGET st in
  if EFI_ERROR ret then fastboot_fail "Failed to stop transport" st
  else fastboot_okay "" st.

(** [void fastboot_reboot(enum boot_target target, CHAR16 *msg)] *)
Definition fastboot_reboot (target : boot_target) (st : state) : state :=
  let (ret, st) := fastboot_stop false false 0 target st in
  if EFI_ERROR ret then fastboot_fail "Failed to stop transport" st
  else fastboot_okay "" st.

(** [static void cmd_continue(INTN argc, CHAR8 **argv)] *)
Definition cmd_continue (argc : Z) (argv : list string) (st : state) : state :=
  fastboot_reboot NORMAL_BOOT st.

(** [static void cmd_reboot(INTN argc, CHAR8 **argv)] *)
Definition cmd_reboot (argc : Z) (argv : list string) (st : state) : state :=
  fastboot_reboot NORMAL_BOOT st.

(** [static void cmd_reboot_bootloader(INTN argc, CHAR8 **argv)] *)
Definition cmd_reboot_bootloader (argc : Z) (argv : list string) (st : state)
  : state :=
  fastboot_reboot FASTBOOT st.

(** The loop of [cmd_getvar] for [getvar:all]. *)
Fixpoint getvar_all (vars : list fastboot_var) (st : state) : state :=
  match vars with
  | [] => st
  | var :: next =>
      getvar_all next
        (fastboot_info (name var ++ ": " ++ fastboot_var_value var) st)
  end.

(** [static void cmd_getvar(INTN argc, CHAR8 **argv)] *)
Definition cmd_getvar (argc : Z) (argv : list string) (st : state) : state :=
  if negb (argc =? 2) then fastboot_fail "Invalid parameter" st
  else if String.eqb (arg argv 1) "all"
  then fastboot_okay "" (getvar_all (varlist st) st)
  else
    let var := fastboot_getvar (arg argv 1) st in
    fastboot_okay
      (match var with
       | Some var => fastboot_var_value var
       | None => ""
       end)
      st.

(** [static void cmd_download(INTN argc, CHAR8 **argv)]; [newdlsize] is a
    UINTN, [dlsize] and [bufsize] are [unsigned]. *)
Definition cmd_download (argc : Z) (argv : list string) (st : state) : state :=
  if negb (argc =? 2) then fastboot_fail "Invalid parameter" st
  else
    let newdlsize := strtoul pf (arg argv 1) 16 in
    if newdlsize =? 0 then fastboot_fail "no data to download" st
    else if MAX_DOWNLOAD_SIZE pf <? newdlsize
    then fastboot_fail "data too large" st
    else
      let '(failed, st) :=
        if bufsize st <? newdlsize then
          let st :=
            match dlbuffer st with
            | Some _ => do_FreePool st
            | None => st
            end in
          let (ok, st) := do_AllocatePool newdlsize st in
          if negb ok then
            let st := set_dlbuffer None st in
            let st := fastboot_fail "Memory allocation failure" st in
            (true, set_dlsize 0 (set_bufsize 0 st))
          else
            (false, set_bufsize (u32 newdlsize) (set_dlbuffer (Some newdlsize) st))
        else (false, st) in
      if (failed : bool) then st
      else
        let st := set_dlsize (u32 newdlsize) st in
        let response := truncate MAGIC_LENGTH ("DATA" ++ fmt_08x (dlsize st)) in
        let st := set_fastboot_state STATE_START_DOWNLOAD st in
        let (ret, st) := do_transport_write response (strlena response) st in
        if EFI_ERROR ret then set_fastboot_state STATE_ERROR st else st.

(** *** Command registry *)

(** [struct fastboot_cmd] *)
Record fastboot_cmd := {
  cmd_name : string;
  min_state : device_state;
  handle : Z -> list string -> state -> state
}.

(** [cmdlist_t]: the handlers are functions of the state, so the list is
    passed along instead of being a field of it. *)
Definition cmdlist_t := list fastboot_cmd.

Definition sizeof_cmdlist_node : Z := 16.

(** [EFI_STATUS fastboot_register_into(cmdlist_t *list, struct fastboot_cmd *cmd)] *)
Definition fastboot_register_into (lst : cmdlist_t) (cmd : fastboot_cmd)
  (st : state) : EFI_STATUS * cmdlist_t * state :=
  let (ok, st) := do_AllocatePool sizeof_cmdlist_node st in
  if negb ok then (EFI_OUT_OF_RESOURCES, lst, st)
  else (EFI_SUCCESS, cmd :: lst, st).

(** [static struct fastboot_cmd *get_cmd(cmdlist_t list, const char *name)] *)
Fixpoint get_cmd (lst : cmdlist_t) (nm : string) : option fastboot_cmd :=
  match lst with
  | [] => None
  | cmd :: next =>
      if String.eqb nm (cmd_name cmd) then Some cmd else get_cmd next nm
  end.

(** [void fastboot_run_cmd(cmdlist_t list, const char *name, INTN argc, CHAR8 **argv)] *)
Definition fastboot_run_cmd (lst : cmdlist_t) (nm : string) (argc : Z)
  (argv : list string) (st : state) : state :=
  match get_cmd lst nm with
  | None => fastboot_fail "unknown command" st
  | Some cmd =>
      if device_state_rank (get_current_state st) <? device_state_rank (min_state cmd)
      then
        fastboot_fail
          ("command not allowed in " ++ get_current_state_string st ++ " state")
          st
      else handle cmd argc argv st
  end.

(** [void fastboot_run_root_cmd(const char *name, INTN argc, CHAR8 **argv)],
    on the root list. *)
Definition fastboot_run_root_cmd (cmdlist : cmdlist_t) (nm : string)
  (argc : Z) (argv : list string) (st : state) : state :=
  fastboot_run_cmd cmdlist nm argc argv st.

(** [static struct fastboot_cmd COMMANDS[]] *)
Definition COMMANDS : list fastboot_cmd :=
  [ {| cmd_name := "download"; min_state := LOCKED; handle := cmd_download |};
    {| cmd_name := "flash"; min_state := LOCKED; handle := cmd_flash |};
    {| cmd_name := "erase"; min_state := UNLOCKED; handle := cmd_erase |};
    {| cmd_name := "getvar"; min_state := LOCKED; handle := cmd_getvar |};
    {| cmd_name := "boot"; min_state := UNLOCKED; handle := cmd_boot |};
    {| cmd_name := "continue"; min_state := LOCKED; handle := cmd_continue |};
    {| cmd_name := "reboot"; min_state := LOCKED; handle := cmd_reboot |};
    {| cmd_name := "reboot-bootloader"; min_state := LOCKED;
       handle := cmd_reboot_bootloader |} ].

(** The registration loop of [fastboot_init]: each command is pushed on the
    front of the root list. *)
Fixpoint register_all (cmds : list fastboot_cmd) (lst : cmdlist_t)
  (st : state) : EFI_STATUS * cmdlist_t * state :=
  match cmds with
  | [] => (EFI_SUCCESS, lst, st)
  | cmd :: rest =>
      let '(ret, lst, st) := fastboot_register_into lst cmd st in
      if EFI_ERROR ret then (ret, lst, st) else register_all rest lst st
  end.

(** *** Command line *)

(** [strchr(delim, c) != NULL] *)
Fixpoint is_delim (c : ascii) (delim : string) : bool :=
  match delim with
  | EmptyString => false
  | String d rest => if Ascii.eqb c d then true else is_delim c rest
  end.

(** [s + strspn(s, delim)] *)
Fixpoint skip_delims (delim s : string) : string :=
  match s with
  | EmptyString => EmptyString
  | String c rest => if is_delim c delim then skip_delims delim rest else s
  end.

(** The token at the head of [s] and the string behind the delimiter that
    ends it (empty when the token runs to the end of [s]). *)
Fixpoint take_token (delim s : string) : string * string :=
  match s with
  | EmptyString => (EmptyString, EmptyString)
  | String c rest =>
      if is_delim c delim then (EmptyString, rest)
      else let (tok, saveptr) := take_token delim rest in (String c tok, saveptr)
  end.

(** Modelled from the spec: strtok_r comes with lib.c, which is not among
    the sources; the spec has the line split at the delimiters, which is the
    C library's strtok_r: skip the delimiters in front, return NULL at the
    end of the string, else end the token at the next delimiter by writing
    a NUL over it.  The argument is the string at [str], or at [*saveptr]
    for a NULL [str]; the result is the token and the string at the new
    [*saveptr]. *)
Definition strtok_r (delim s : string) : option string * string :=
  match skip_delims delim s with
  | EmptyString => (None, EmptyString)
  | String _ _ as s' =>
      let (tok, saveptr) := take_token delim s' in (Some tok, saveptr)
  end.

(** The C string left at the start of a buffer after [strtok_r] has written
    its NUL behind the first token: the delimiters in front, then the token. *)
Definition buffer_after_strtok (delim s : string) : string :=
  let s' := skip_delims delim s in
  substring 0 (String.length s - String.length s') s ++ fst (take_token delim s').

(** The [for] loop of [get_command_buffer_argv], with [n] rounds to go:
    the last [token], [*argc], [argv] and [saveptr]. *)
Fixpoint argv_loop (n : nat) (token : option string) (argc : Z)
  (argv : list string) (saveptr : string)
  : option string * Z * list string * string :=
  match n with
  | O => (token, argc, argv, saveptr)
  | S n' =>
      match strtok_r " " saveptr with
      | (None, saveptr) => (None, argc, argv, saveptr)
      | (Some tok, saveptr) =>
          argv_loop n' (Some tok) (argc + 1) (argv ++ [tok])%list saveptr
      end
  end.

(** [static EFI_STATUS get_command_buffer_argv(INTN *argc, CHAR8 *argv[],
    UINTN max_argc)]: the status, [*argc] and [argv] after the call ([argc0]
    is what [*argc] held before), and the state with the buffer as the
    tokenizer leaves it. *)
Definition get_command_buffer_argv (argc0 : Z) (max_argc : Z) (st : state)
  : EFI_STATUS * Z * list string * state :=
  let buf := command_buffer st in
  let st := set_command_buffer (buffer_after_strtok ": " buf) st in
  match strtok_r ": " buf with
  | (None, _) => (EFI_INVALID_PARAMETER, argc0, [], st)
  | (Some argv0, saveptr) =>
      let '(token, argc, argv, saveptr) :=
        argv_loop (Z.to_nat (max_argc - 1)) None 1 [argv0] saveptr in
      match token, fst (strtok_r " " saveptr) with
      | Some _, Some _ => (EFI_INVALID_PARAMETER, argc, argv, st)
      | _, _ => (EFI_SUCCESS, argc, argv, st)
      end
  end.

Definition MAX_ARGS : Z := 16.

(** [static void fastboot_run_command()]; [argc0] is the uninitialised local.
    [None] is the fault of [flush_tx_buffer]. *)
Definition fastboot_run_command (cmdlist : cmdlist_t) (argc0 : Z) (st : state)
  : option state :=
  if negb (fastboot_states_eqb (fastboot_state st) STATE_COMMAND) then Some st
  else
    let '(ret, argc, argv, st) := get_command_buffer_argv argc0 MAX_ARGS st in
    if EFI_ERROR ret then Some st
    else
      let st := fastboot_run_root_cmd cmdlist (arg argv 0) argc argv st in
      let st := set_received_len 0 st in
      let st := set_last_received_len 0 st in
      if fastboot_states_eqb (fastboot_state st) STATE_TX
      then flush_tx_buffer st
      else Some st.

(** *** Names for the steps of the handlers *)

(** The string left at [saveptr] once [n] more tokens have been taken off a
    line at the spaces, [None] when the line has fewer. *)
Fixpoint after_tokens (n : nat) (saveptr : string) : option string :=
  match n with
  | O => Some saveptr
  | S n' =>
      match strtok_r " " saveptr with
      | (None, _) => None
      | (Some _, saveptr) => after_tokens n' saveptr
      end
  end.

(** The nodes [clean_partition_var] keeps. *)
Definition kept (var : fastboot_var) : bool := negb (is_partition_var var).

(** The state in which the new buffer is asked for: the old one freed. *)
Definition after_free (st : state) : state :=
  match dlbuffer st with
  | Some _ => do_FreePool st
  | None => st
  end.

(** [cmd_download] from the point where the buffer is large enough: set
    [dlsize], answer DATA, enter STATE_START_DOWNLOAD. *)
Definition answer_DATA (n : Z) (st : state) : state :=
  let st := set_dlsize n st in
  let st := set_fastboot_state STATE_START_DOWNLOAD st in
  let (ret, st) := do_transport_write ("DATA" ++ fmt_08x n) 12 st in
  if EFI_ERROR ret then set_fastboot_state STATE_ERROR st else st.

End Session.

End Fastboot.

(* ------------------------------------------------------------------------- *)
(** ** libfastboot/fastboot.c: the transport callbacks *)
(* ------------------------------------------------------------------------- *)

Module Callbacks.
Import Efi Fastboot.
Open Scope string_scope.
Open Scope Z_scope.

(** The buffer a pointer of the transport points into, and how far. *)
Inductive buffer := CommandBuffer | DownloadBuffer | Elsewhere.

Record pointer := { base : buffer; displacement : Z }.

Definition buffer_eqb (a b : buffer) : bool :=
  match a, b with
  | CommandBuffer, CommandBuffer | DownloadBuffer, DownloadBuffer
  | Elsewhere, Elsewhere => true
  | _, _ => false
  end.

Definition pointer_eqb (p q : pointer) : bool :=
  buffer_eqb (base p) (base q) && (displacement p =? displacement q).

(** One [transport_read] request: where to, how many bytes. *)
Record read_request := { r_buf : pointer; r_len : Z }.

(** transport.c as the callbacks use it: the status of a read request, given
    the requests made before. *)
Record transport := {
  transport_read : list read_request -> pointer -> Z -> EFI_STATUS
}.

(** The statics of fastboot.c the callbacks add to those of the handlers:
    [command_buffer_size], and the read requests handed to the transport,
    oldest first. *)
Record link := {
  fb : state;
  command_buffer_size : Z;
  reads : list read_request
}.

Definition with_fb (st : state) (lk : link) : link :=
  {| fb := st; command_buffer_size := command_buffer_size lk; reads := reads lk |}.

(** The C string at the start of a buffer that holds the bytes [s]. *)
Fixpoint c_string (s : string) : string :=
  match s with
  | EmptyString => EmptyString
  | String c rest => if Ascii.eqb c zero then EmptyString else String c (c_string rest)
  end.

(** The queue is there whenever the state says so, and the state a reply
    falls back to is never STATE_TX. *)
Definition tx_consistent (st : state) : Prop :=
  (fastboot_state st = STATE_TX -> txbuf_head st <> []) /\
  next_state st <> STATE_TX.

(** What the variable and pool operations leave alone. *)
Definition same_reply_state (st st' : state) : Prop :=
  fastboot_state st' = fastboot_state st /\ next_state st' = next_state st
  /\ txbuf_head st' = txbuf_head st.

Section Events.

Variable pf : platform.
Variable tp : transport.

Definition do_transport_read (buf : pointer) (len : Z) (lk : link)
  : EFI_STATUS * link :=
  let ret := transport_read tp (reads lk) buf len in
  (ret, {| fb := fb lk; command_buffer_size := command_buffer_size lk;
           reads := reads lk ++ [{| r_buf := buf; r_len := len |}] |}).

(** [void fastboot_set_dlbuffer(void *buffer, unsigned size)] *)
Definition fastboot_set_dlbuffer (buffer : option Z) (size : Z) (st : state)
  : state :=
  set_dlsize (u32 size) (set_dlbuffer buffer st).

(** [EFI_STATUS fastboot_set_command_buffer(char *buffer, UINTN size)]: the
    buffer is [None] for NULL, else its contents. *)
Definition fastboot_set_command_buffer (buffer : option string) (size : Z)
  (lk : link) : EFI_STATUS * link :=
  match buffer with
  | None => (EFI_INVALID_PARAMETER, lk)
  | Some contents =>
      (EFI_SUCCESS,
       {| fb := set_command_buffer (c_string contents) (fb lk);
          command_buffer_size := size; reads := reads lk |})
  end.

(** [static void fastboot_read_command(void)] *)
Definition fastboot_read_command (lk : link) : link :=
  snd (do_transport_read {| base := CommandBuffer; displacement := 0 |}
                         (command_buffer_size lk) lk).

(** [static void worker_download(void)] *)
Definition worker_download (lk : link) : link :=
  let (ret, lk) :=
    do_transport_read {| base := DownloadBuffer; displacement := 0 |}
                      (dlsize (fb lk)) lk in
  if EFI_ERROR ret
  then with_fb (fastboot_fail pf "Transport receive failed" (fb lk)) lk
  else with_fb (set_fastboot_state STATE_DOWNLOAD (fb lk)) lk.

(** [static void fastboot_process_tx(void *buf, unsigned len)]; [None] is the
    fault of [flush_tx_buffer]. *)
Definition fastboot_process_tx (lk : link) : option link :=
  match fastboot_state (fb lk) with
  | STATE_STOPPING => Some (with_fb (set_fastboot_state STATE_STOPPED (fb lk)) lk)
  | STATE_TX =>
      match flush_tx_buffer pf (fb lk) with
      | None => None
      | Some st => Some (with_fb st lk)
      end
  | STATE_COMPLETE => Some (fastboot_read_command lk)
  | STATE_START_DOWNLOAD => Some (worker_download lk)
  | _ => Some lk
  end.

(** [static void fastboot_process_rx(void *buf, unsigned len)]: [data] are
    the [len] bytes the transport has stored at [buf]. *)
Definition fastboot_process_rx (buf : pointer) (data : string) (lk : link)
  : link :=
  let len := strlena data in
  let st := fb lk in
  match fastboot_state st with
  | STATE_DOWNLOAD =>
      let st := set_received_len (u32 (received_len st + len)) st in
      let st := set_last_received_len (received_len st) st in
      if received_len st <? dlsize st then
        snd (do_transport_read
               {| base := base buf; displacement := displacement buf + len |}
               (u32 (dlsize st - received_len st)) (with_fb st lk))
      else
        let st := set_fastboot_state STATE_COMMAND st in
        with_fb (fastboot_okay pf "" st) lk
  | STATE_COMPLETE =>
      if negb (pointer_eqb buf {| base := CommandBuffer; displacement := 0 |})
         || (command_buffer_size lk <=? len)
      then
        with_fb (fastboot_fail pf "Inappropriate command buffer or length" st) lk
      else
        let st := set_command_buffer (c_string data) st in
        with_fb (set_fastboot_state STATE_COMMAND st) lk
  | _ => lk
  end.

(** [static void fastboot_start_callback(void)] *)
Definition fastboot_start_callback (lk : link) : link :=
  fastboot_read_command
    (with_fb (set_fastboot_state (next_state (fb lk)) (fb lk)) lk).

(** [n] completed transmissions, one after the other. *)
Fixpoint tx_events (n : nat) (lk : link) : option link :=
  match n with
  | O => Some lk
  | S n' =>
      match fastboot_process_tx lk with
      | None => None
      | Some lk' => tx_events n' lk'
      end
  end.

(** Receptions one after the other: where the bytes were stored, and the
    bytes. *)
Definition rx_events (evs : list (pointer * string)) (lk : link) : link :=
  fold_left (fun lk ev => fastboot_process_rx (fst ev) (snd ev) lk) evs lk.

(** The flash engine may reply (INFO lines); it is taken to keep the queue
    consistent as the replies of this file do. *)
Definition engine_keeps_queue : Prop :=
  (forall buf size label st,
     tx_consistent st -> tx_consistent (snd (flash pf buf size label st))) /\
  (forall label st,
     tx_consistent st -> tx_consistent (snd (erase_by_label pf label st))).

(** A transport that takes every frame. *)
Definition transport_takes_all : Prop :=
  forall t buf len, EFI_ERROR (transport_write pf t buf len) = false.

(** An allocator that grants every request. *)
Definition pool_grants_all : Prop :=
  forall t size, AllocatePool pf t size = true.

End Events.

(** The bytes still missing after each of the receptions [lens], out of
    [dl], with [r] received before. *)
Fixpoint missing (dl r : Z) (lens : list Z) : list Z :=
  match lens with
  | [] => []
  | l :: rest => (dl - (r + l)) :: missing dl (r + l) rest
  end.

Definition total (lens : list Z) : Z := fold_right Z.add 0 lens.

Definition lengths (evs : list (pointer * string)) : list Z :=
  map (fun ev => strlena (snd ev)) evs.

(** Bytes without a NUL among them. *)
Definition nul_free (s : string) : Prop :=
  forall c, In c (list_ascii_of_string s) -> c <> zero.

(** The value [getvar] reports for a variable, in words: the stored value,
    or for a variable with a getter what the getter returns, and nothing
    when that is NULL or longer than 63 characters. *)
Definition spec_reported_value (var : fastboot_var) : string :=
  match get_value var with
  | None => value var
  | Some getter =>
      match getter tt with
      | Some val => if strlena val <=? 63 then val else ""
      | None => ""
      end
  end.

(** The INFO frame of a variable in the answer to [getvar:all]: "INFO", then
    the first 59 characters of "<name>: <value>". *)
Definition spec_info_frame (var : fastboot_var) : string :=
  "INFO" ++ substring 0 59 (name var ++ ": " ++ spec_reported_value var).

(** Every stored value fits its array. *)
Definition values_fit (l : list fastboot_var) : Prop :=
  Forall (fun var => strlena (value var) < MAX_VARIABLE_LENGTH) l.

End Callbacks.

(* ------------------------------------------------------------------------- *)
(** ** libfastboot/fastboot.c: well-formed command lines *)
(* ------------------------------------------------------------------------- *)

Module CommandLine.
Import Efi Fastboot.
Open Scope string_scope.
Open Scope Z_scope.

(** A token of a command line: not empty, and free of the delimiters. *)
Fixpoint delimiter_free (delim s : string) : bool :=
  match s with
  | EmptyString => true
  | String c rest => negb (is_delim c delim) && delimiter_free delim rest
  end.

Definition word (delim s : string) : Prop :=
  s <> EmptyString /\ delimiter_free delim s = true.

(** The arguments of a command as the host sends them, a space between two. *)
Fixpoint spaced (args : list string) : string :=
  match args with
  | [] => ""
  | a :: rest =>
      match rest with
      | [] => a
      | _ :: _ => a ++ " " ++ spaced rest
      end
  end.

(** The line of a command: the name, and behind a colon the arguments. *)
Definition command_line (nm : string) (args : list string) : string :=
  match args with
  | [] => nm
  | _ :: _ => nm ++ ":" ++ spaced args
  end.

End CommandLine.

(* ------------------------------------------------------------------------- *)
(** ** libfastboot/fastboot.c: fastboot_info_long_string *)
(* ------------------------------------------------------------------------- *)

Module LongInfo.
Import Efi Fastboot.
Open Scope string_scope.
Open Scope Z_scope.

(** A format without a conversion renders as itself; what lib.c's
    [vsnprintf] makes of a conversion whose argument was not passed is not
    defined: [None]. *)
Fixpoint printf_plain (fmt : string) : option string :=
  match fmt with
  | EmptyString => Some EmptyString
  | String c rest =>
      if Ascii.eqb c "%"%char then None
      else
        match printf_plain rest with
        | None => None
        | Some rendered => Some (String c rendered)
        end
  end.

(** [str + n] *)
Fixpoint advance (n : nat) (str : string) : string :=
  match n, str with
  | O, _ => str
  | S n', String _ rest => advance n' rest
  | S _, EmptyString => EmptyString
  end.

(** A string without a conversion character. *)
Definition percent_free (s : string) : Prop :=
  forall c, In c (list_ascii_of_string s) -> c <> "%"%char.

Section Long.

Variable pf : platform.

(** [max_len] of [fastboot_info_long_string]: [sizeof(linebuf) - 1]. *)
Definition max_len : Z := INFO_PAYLOAD - 1.

Opaque advance.

(** [EFI_STATUS fastboot_info_long_string(char *str, VOID *context)]: the
    state after the INFO lines; the status is EFI_SUCCESS. *)
Equations? fastboot_info_long_string (str : string) (st : state) : option state
  by wf (String.length str) lt :=
  fastboot_info_long_string str st with Z_lt_dec max_len (strlena str) := {
    | left _ with printf_plain (substring 0 (Z.to_nat max_len) str) := {
        | None => None
        | Some line =>
            fastboot_info_long_string (advance (Z.to_nat max_len) str)
                                      (fastboot_info pf line st) }
    | right _ with printf_plain str := {
        | None => None
        | Some line => Some (fastboot_info pf line st) } }.
Proof.
  assert (G : forall n s, (n < String.length s)%nat ->
                (String.length (advance (S n) s) < String.length s)%nat).
  { clear. with_strategy transparent [advance]
      (intros n; induction n as [| n IH]; intros [| c s] H; cbn in *; try lia;
       destruct s as [| d s]; cbn in *; [lia |];
       specialize (IH (String d s)); cbn in IH;
       assert (H0 : (n < S (String.length s))%nat) by lia;
       specialize (IH H0); lia). }
  change (Z.to_nat max_len) with 59%nat. apply G.
  unfold strlena, max_len, INFO_PAYLOAD, MAGIC_LENGTH, CODE_LENGTH in *. lia.
Qed.

Transparent advance.

End Long.

End LongInfo.

(* ------------------------------------------------------------------------- *)
(** ** libfastboot/flash.c: fill, flash_partition, erase *)
(* ------------------------------------------------------------------------- *)

Module FlashOps.
Import Efi Flash.

(** What the rest of flash.c asks of gpt.c and storage.c, oldest first. *)
Inductive call :=
| GptRefresh
| StorageEraseBlocks (start stop : Z)
| FillZero (start stop : Z)
| FillWith (start stop : Z) (n_block : Z) (ret : EFI_STATUS)
| FreePool.

(** The statics of flash.c with the writes issued, and the calls made. *)
Record disk := {
  engine : state;
  calls : list call
}.

Definition with_engine (st : state) (d : disk) : disk :=
  {| engine := st; calls := calls d |}.

Definition note (c : call) (d : disk) : disk :=
  {| engine := engine d; calls := calls d ++ [c] |}.

(** gpt.c, storage.c, sparse.c and the pool, as these functions use them:
    - [part_type]: the [part.type] the lookup of a label fills in;
    - [is_sparse_image], [flash_sparse]: sparse.c, which writes through
      [flash_write], [flash_skip] and [flash_fill];
    - [gpt_refresh], [storage_erase_blocks], [fill_zero], [fill_with]: the
      status of the call, given the calls made before;
    - [gpt_get_root_disk], [alloc_aligned], [generate_random_numbers];
    - [pool_garbage]: what a fresh pool block of the given size holds;
    - N_BLOCK of storage.h, and [chunk_size]: the product
      [BlockSize * N_BLOCK] in the type the compiler gives it. *)
Record storage := {
  part_type : string -> Fastboot.EFI_GUID;
  is_sparse_image : bytes -> Z -> bool;
  flash_sparse : bytes -> Z -> state -> EFI_STATUS * state;
  gpt_refresh : list call -> EFI_STATUS;
  storage_erase_blocks : list call -> Z -> Z -> EFI_STATUS;
  fill_zero : list call -> Z -> Z -> EFI_STATUS;
  fill_with : list call -> Z -> Z -> bytes -> Z -> EFI_STATUS;
  gpt_get_root_disk : EFI_STATUS * gpt_partition_interface;
  alloc_aligned : nat -> Z -> EFI_STATUS;
  generate_random_numbers : Z -> EFI_STATUS * bytes;
  pool_garbage : Z -> bytes;
  N_BLOCK : Z;
  chunk_size : Z -> Z
}.

(** The four bytes of a UINT32 in memory (little endian). *)
Definition word_bytes (pattern : Z) : bytes :=
  [ pattern mod 256; (pattern / 2 ^ 8) mod 256;
    (pattern / 2 ^ 16) mod 256; (pattern / 2 ^ 24) mod 256 ].

Fixpoint fill_words (n : nat) (pattern : Z) : bytes :=
  match n with
  | O => []
  | S n' => word_bytes pattern ++ fill_words n' pattern
  end.

Definition FS_MGR_SIZE : Z := 4096.

Section Ops.

Variable fw : firmware.
Variable sw : storage.

(** The chunks a caller writes one after the other, up to the first error. *)
Fixpoint flash_write_each (chunks : list bytes) (st : state) : EFI_STATUS * state :=
  match chunks with
  | [] => (EFI_SUCCESS, st)
  | c :: rest =>
      let (ret, st) := flash_write fw c (Z.of_nat (List.length c)) st in
      if EFI_ERROR ret then (ret, st) else flash_write_each rest st
  end.

(** [EFI_STATUS flash_fill(UINT32 pattern, UINTN size)]: the loop stores
    [size / 4] words; the bytes behind them are as the pool gave them. *)
Definition flash_fill (pattern : Z) (size : Z) (d : disk) : EFI_STATUS * disk :=
  let st := engine d in
  let ok := AllocatePool fw (allocs st) size in
  let st := count_alloc st in
  if negb ok then (EFI_OUT_OF_RESOURCES, with_engine st d)
  else
    let words := Z.to_nat (size / 4) in
    let buf :=
      fill_words words pattern
      ++ skipn (4 * words) (firstn (Z.to_nat size) (pool_garbage sw size)) in
    let (ret, st) := flash_write fw buf size st in
    (ret, note FreePool (with_engine st d)).

Definition do_gpt_refresh (d : disk) : EFI_STATUS * disk :=
  (gpt_refresh sw (calls d), note GptRefresh d).

(** [EFI_STATUS flash_partition(VOID *data, UINTN size, CHAR16 *label)];
    [None] is the dereference of a NULL [gparti.bio] after a lookup that
    reported success. *)
Definition flash_partition (data : bytes) (size : Z) (label : string) (d : disk)
  : option (EFI_STATUS * disk) :=
  let (ret, g) := gpt_get_partition_by_label fw label in
  if EFI_ERROR ret then Some (ret, d)
  else
    match bio g with
    | None => None
    | Some b =>
        let st := set_gparti g (engine d) in
        let st := set_cur_offset (u64 (starting_lba g * BlockSize b)) st in
        let (ret, st) :=
          if is_sparse_image sw data size then flash_sparse sw data size st
          else flash_write fw data size st in
        let d := with_engine st d in
        if EFI_ERROR ret then Some (ret, d)
        else if Fastboot.guid_equal (part_type sw label)
                  Fastboot.EfiPartTypeSystemPartitionGuid
        then Some (do_gpt_refresh d)
        else Some (EFI_SUCCESS, d)
    end.

(** [static EFI_STATUS erase_blocks(handle, bio, UINT64 start, UINT64 end)];
    [None] is the dereference of a NULL [bio] or the division by a zero
    block size. *)
Definition erase_blocks (bio : option block_io) (start stop : Z) (d : disk)
  : option (EFI_STATUS * disk) :=
  let ret := storage_erase_blocks sw (calls d) start stop in
  let d := note (StorageEraseBlocks start stop) d in
  if ret =? EFI_SUCCESS then
    match bio with
    | None => None
    | Some b =>
        if BlockSize b =? 0 then None
        else
          let min_end := u64 (u64 (start + u32 (FS_MGR_SIZE / BlockSize b)) + 1) in
          let upto := Z.min min_end stop in
          Some (fill_zero sw (calls d) start upto, note (FillZero start upto) d)
    end
  else Some (fill_zero sw (calls d) start stop, note (FillZero start stop) d).

(** [EFI_STATUS erase_by_label(CHAR16 *label)] *)
Definition erase_by_label (label : string) (d : disk) : option (EFI_STATUS * disk) :=
  let (ret, g) := gpt_get_partition_by_label fw label in
  if EFI_ERROR ret then Some (ret, d)
  else
    let d := with_engine (set_gparti g (engine d)) d in
    match erase_blocks (bio g) (starting_lba g) (ending_lba g) d with
    | None => None
    | Some (ret, d) =>
        if EFI_ERROR ret then Some (ret, d)
        else if Fastboot.guid_equal (part_type sw label)
                  Fastboot.EfiPartTypeSystemPartitionGuid
        then Some (do_gpt_refresh d)
        else Some (EFI_SUCCESS, d)
    end.

(** [EFI_STATUS garbage_disk(void)]; its [gparti] is a local. *)
Definition garbage_disk (d : disk) : option (EFI_STATUS * disk) :=
  let (ret, g) := gpt_get_root_disk sw in
  if EFI_ERROR ret then Some (ret, d)
  else
    match bio g with
    | None => None
    | Some b =>
        let size := chunk_size sw (BlockSize b) in
        let ret := alloc_aligned sw (allocs (engine d)) size in
        let d := with_engine (count_alloc (engine d)) d in
        if EFI_ERROR ret then Some (ret, d)
        else
          let (ret, aligned_chunk) := generate_random_numbers sw size in
          if EFI_ERROR ret then Some (ret, note FreePool d)
          else
            let ret :=
              fill_with sw (calls d) (starting_lba g) (ending_lba g)
                        aligned_chunk (N_BLOCK sw) in
            let d :=
              note (FillWith (starting_lba g) (ending_lba g) (N_BLOCK sw) ret) d in
            let d := note FreePool d in
            Some (do_gpt_refresh d)
    end.

End Ops.

(** The requests that lay the chunks end to end from [off]. *)
Fixpoint tiling (media off : Z) (chunks : list bytes) : list disk_write :=
  match chunks with
  | [] => []
  | c :: rest =>
      {| w_media := media; w_offset := off; w_size := Z.of_nat (List.length c);
         w_data := c |}
      :: tiling media (off + Z.of_nat (List.length c)) rest
  end.

Definition total_length (chunks : list bytes) : Z :=
  fold_right (fun c n => Z.of_nat (List.length c) + n) 0 chunks.

End FlashOps.

(* ------------------------------------------------------------------------- *)
(** ** libfastboot/hashes.c: digests, hash_partition, the path of the walk *)
(* ------------------------------------------------------------------------- *)

Module HashTools.
Import Efi.
Open Scope string_scope.
Open Scope Z_scope.

(** The two digests of the table [ALGORITHMS]. *)
Inductive EVP_MD := EVP_sha1 | EVP_md5.

(** [EVP_MD_size] *)
Definition EVP_MD_size (md : EVP_MD) : Z :=
  match md with
  | EVP_sha1 => 20
  | EVP_md5 => 16
  end.

Definition ALGORITHMS : list (string * EVP_MD) :=
  [ ("sha1", EVP_sha1); ("md5", EVP_md5) ].

(** The statics [selected_md] ([None] for NULL) and [hash_len]. *)
Record selection := {
  selected_md : option EVP_MD;
  hash_len : Z
}.

(** The loop of [set_hash_algorithm]: it runs over the whole table. *)
Fixpoint select_loop (algo : string) (table : list (string * EVP_MD))
  (selected : option EVP_MD) : option EVP_MD :=
  match table with
  | [] => selected
  | (nm, md) :: rest =>
      select_loop algo rest (if String.eqb algo nm then Some md else selected)
  end.

(** [EFI_STATUS set_hash_algorithm(const CHAR8 *algo)] *)
Definition set_hash_algorithm (algo : option string) (s : selection)
  : EFI_STATUS * selection :=
  match algo with
  | None =>
      let md := snd (hd ("", EVP_sha1) ALGORITHMS) in
      (EFI_SUCCESS, {| selected_md := Some md; hash_len := EVP_MD_size md |})
  | Some a =>
      match select_loop a ALGORITHMS None with
      | None => (EFI_UNSUPPORTED, {| selected_md := None; hash_len := hash_len s |})
      | Some md =>
          (EFI_SUCCESS, {| selected_md := Some md; hash_len := EVP_MD_size md |})
      end
  end.

(** [static void hash_buffer(CHAR8 *buffer, UINT64 len, CHAR8 *hash)]: the
    bytes in [hash] after the call, and the statics.  [digest] is OpenSSL's
    one-pass digest; without a digest selected [hash] is not written. *)
Definition hash_buffer (digest : EVP_MD -> bytes -> bytes) (buffer : bytes)
  (len : Z) (hash : bytes) (s : selection) : bytes * selection :=
  let s :=
    match selected_md s with
    | None => snd (set_hash_algorithm None s)
    | Some _ => s
    end in
  match selected_md s with
  | Some md => (digest md (firstn (Z.to_nat len) buffer), s)
  | None => (hash, s)
  end.

(** *** The digest of a partition *)

Definition CHUNK : Z := 1024 * 1024.

(** [#define MIN(a, b) ((a < b) ? (a) : (b))] *)
Definition MIN (a b : Z) : Z := if a <? b then a else b.

Section Partition.

(** [ReadDisk] into the chunk buffer: status and bytes for (media, offset,
    length). *)
Variable ReadDisk : Z -> Z -> Z -> EFI_STATUS * bytes.

(** [ReadDisk] with the request it answers noted beside the bytes. *)
Definition ReadDisk_noted (media off n : Z) : EFI_STATUS * (bytes * list (Z * Z)) :=
  let (ret, data) := ReadDisk media off n in (ret, (data, [(off, n)])).

(** The [for] loop of [hash_partition]: the status in [ret], the bytes fed
    to the digest and the reads asked of the disk (offset on the disk,
    length) so far, the buffer.  The result says by [true] that the loop ran
    to its end and by [false] that it left through [goto free]; [None] is a
    read that faults, or [fuel] running out. *)
Fixpoint hash_partition_loop (fuel : nat) (gparti : Flash.gpt_partition_interface)
  (len offset : Z) (ret : EFI_STATUS) (fed : bytes) (asked : list (Z * Z))
  (buffer : bytes) : option (EFI_STATUS * bytes * list (Z * Z) * bool) :=
  match fuel with
  | O => None
  | S fuel' =>
      if offset <? len then
        let chunklen := MIN (u64 (len - offset)) CHUNK in
        match Hashes.read_partition ReadDisk_noted gparti offset chunklen
                                    (buffer, []) with
        | None => None
        | Some (ret, (buffer, request)) =>
            let asked := (asked ++ request)%list in
            if EFI_ERROR ret then Some (ret, fed, asked, false)
            else
              hash_partition_loop fuel' gparti len (u64 (offset + CHUNK)) ret
                (fed ++ firstn (Z.to_nat chunklen) buffer)%list asked buffer
        end
      else Some (ret, fed, asked, true)
  end.

(** [static EFI_STATUS hash_partition(gparti, UINT64 len, CHAR8 *hash)]: the
    status, the bytes in [hash] afterwards and the reads asked of the disk.
    The loop is entered at most [len / CHUNK + 2] times unless the offset
    wraps, which the model reports as [None] like a fault. *)
Definition hash_partition (digest : EVP_MD -> bytes -> bytes)
  (pool : Z -> option bytes) (gparti : Flash.gpt_partition_interface)
  (len : Z) (hash : bytes) (s : selection)
  : option (EFI_STATUS * bytes * list (Z * Z) * selection) :=
  match pool CHUNK with
  | None => Some (EFI_OUT_OF_RESOURCES, hash, [], s)
  | Some buffer =>
      let s :=
        match selected_md s with
        | None => snd (set_hash_algorithm None s)
        | Some _ => s
        end in
      match hash_partition_loop (Z.to_nat (len / CHUNK) + 2) gparti len 0
                                EFI_INVALID_PARAMETER [] [] buffer with
      | None => None
      | Some (ret, fed, asked, finished) =>
          match finished, selected_md s with
          | true, Some md => Some (ret, digest md fed, asked, s)
          | _, _ => Some (ret, hash, asked, s)
          end
      end
  end.

(** The reads that cover the first [len] bytes behind [start] in chunks. *)
Definition chunk_count (len : Z) : nat := Z.to_nat ((len + CHUNK - 1) / CHUNK).

Definition chunk_request (start len : Z) (k : nat) : Z * Z :=
  (start + Z.of_nat k * CHUNK, Z.min CHUNK (len - Z.of_nat k * CHUNK)).

Definition chunk_requests (start len : Z) : list (Z * Z) :=
  map (chunk_request start len) (seq 0 (chunk_count len)).

(** The bytes a read puts in front of the digest. *)
Definition chunk_data (media : Z) (rq : Z * Z) : bytes :=
  firstn (Z.to_nat (snd rq)) (snd (ReadDisk media (fst rq) (snd rq))).

End Partition.

(** *** The path of the directory walk *)

Definition MAX_DIR : Z := 10.

Definition MAX_FILENAME_LEN : Z := 256 * 2.

Definition DIR_BUFFER_SIZE : Z := MAX_DIR * MAX_FILENAME_LEN.

(** [StrSize]: the bytes of a CHAR16 string, terminator included. *)
Definition StrSize (s : string) : Z := (Z.of_nat (String.length s) + 1) * 2.

(** The statics of the walk: [path] ([None] for NULL, else the string in the
    buffer), the pointers [subname] as positions into [path] ([None] for
    NULL), and [subdir]. *)
Record walk := {
  path : option string;
  subname : list (option nat);
  subdir : Z
}.

(** [a[i] = v] on an array kept as a list. *)
Fixpoint store_at {A : Type} (i : nat) (v : A) (a : list A) : list A :=
  match a, i with
  | [], _ => []
  | _ :: rest, O => v :: rest
  | x :: rest, S i' => x :: store_at i' v rest
  end.

(** [static void initpath(void)]: [granted] says whether the pool gave the
    buffer. *)
Definition initpath (granted : bool) (w : walk) : walk :=
  {| path := if granted then Some "/bootloader/" else None;
     subname := subname w; subdir := subdir w |}.

(** [static void freepath(void)] *)
Definition freepath (w : walk) : walk :=
  {| path := None; subname := subname w; subdir := subdir w |}.

(** [static void pushdir(CHAR16 *dir)]; [None] is a store outside the array
    [subname]. *)
Definition pushdir (dir : string) (w : walk) : option walk :=
  match path w with
  | None => Some w
  | Some p =>
      if DIR_BUFFER_SIZE <? StrSize p + StrSize dir then Some w
      else if (subdir w <? 0) || (MAX_DIR <=? subdir w) then None
      else
        Some {| path := Some (p ++ dir ++ "/");
                subname := store_at (Z.to_nat (subdir w))
                                    (Some (String.length p)) (subname w);
                subdir := subdir w |}
  end.

(** [static void popdir(void)]; [None] is the store through a NULL or
    out-of-range [subname[subdir - 1]]. *)
Definition popdir (w : walk) : option walk :=
  match path w with
  | None => Some w
  | Some p =>
      if 0 <? subdir w then
        match nth_error (subname w) (Z.to_nat (subdir w - 1)) with
        | Some (Some pos) =>
            Some {| path := Some (substring 0 pos p);
                    subname := subname w; subdir := subdir w |}
        | _ => None
        end
      else Some (freepath w)
  end.

(** [subdir++] and [subdir--] of the walk. *)
Definition enter (w : walk) : walk :=
  {| path := path w; subname := subname w; subdir := subdir w + 1 |}.

Definition leave (w : walk) : walk :=
  {| path := path w; subname := subname w; subdir := subdir w - 1 |}.

End HashTools.

(* ------------------------------------------------------------------------- *)
(** ** libkernelflinger/security.c: PKCS7 bundles *)
(* ------------------------------------------------------------------------- *)

Module Pkcs7.
Import Efi Security.

(** [EFI_TIME], the fields [get_signing_time] stores: a UINT16 year and
    UINT8s. *)
Record EFI_TIME := {
  Year : Z;
  Month : Z;
  Day : Z;
  Hour : Z;
  Minute : Z;
  Second : Z
}.

Definition u16 (x : Z) : Z := x mod 2 ^ 16.

Definition u8 (x : Z) : Z := x mod 2 ^ 8.

(** [(str[i] - '0') * 10 + (str[i + 1] - '0')], an [int]. *)
Definition two_digits (hi lo : byte) : Z := (hi - 48) * 10 + (lo - 48).

(** The stores into [t] from the twelve characters "YYmmddHHMMSS"; [None] is
    a read behind the end of the data. *)
Definition utctime_fields (str : bytes) : option EFI_TIME :=
  match str with
  | y1 :: y2 :: m1 :: m2 :: d1 :: d2 :: h1 :: h2 :: n1 :: n2 :: s1 :: s2 :: _ =>
      let year := u16 (1900 + two_digits y1 y2) in
      let year := if year <? 1970 then u16 (year + 100) else year in
      Some {| Year := year;
              Month := u8 (two_digits m1 m2);
              Day := u8 (two_digits d1 d2);
              Hour := u8 (two_digits h1 h2);
              Minute := u8 (two_digits n1 n2);
              Second := u8 (two_digits s1 s2) |}
  | _ => None
  end.

(** [ASN1_TYPE]: its [type] and, for a UTCTIME, the data of the string. *)
Record ASN1_TYPE := {
  asn1_type : Z;
  utctime_data : bytes
}.

Definition V_ASN1_UTCTIME : Z := 23.

(** The loop over the signer infos: the first signed signing-time attribute
    there is; an element is what [PKCS7_get_signed_attribute] answers for a
    signer. *)
Fixpoint first_signing_time (sinfos : list (option ASN1_TYPE)) : option ASN1_TYPE :=
  match sinfos with
  | [] => None
  | Some stime :: _ => Some stime
  | None :: rest => first_signing_time rest
  end.

(** [static UINT64 get_signing_time(PKCS7 *p7)] on what
    [PKCS7_get_signer_info] answers ([None] for NULL); [efi_time_to_ctime]
    is lib.c's. *)
Definition get_signing_time (efi_time_to_ctime : EFI_TIME -> Z)
  (sinfos : option (list (option ASN1_TYPE))) : option Z :=
  match sinfos with
  | None => Some 0
  | Some sinfos =>
      match first_signing_time sinfos with
      | None => Some 0
      | Some stime =>
          if negb (asn1_type stime =? V_ASN1_UTCTIME) then Some 0
          else
            match utctime_fields (utctime_data stime) with
            | None => None
            | Some t => Some (efi_time_to_ctime t)
            end
      end
  end.

(** The characters of a UTCTIME for the given fields. *)
Definition digits_of (n : Z) : bytes := [48 + n / 10; 48 + n mod 10].

Definition utctime_of (t : EFI_TIME) : bytes :=
  (digits_of (Year t mod 100) ++ digits_of (Month t) ++ digits_of (Day t)
   ++ digits_of (Hour t) ++ digits_of (Minute t) ++ digits_of (Second t))%list.

(** *** The trusted certificate *)

Fixpoint bytes_eqb (a b : bytes) : bool :=
  match a, b with
  | [], [] => true
  | x :: a', y :: b' => (x =? y) && bytes_eqb a' b'
  | _, _ => false
  end.

(** OpenSSL's PKCS7 interface as security.c uses it.
    - [d2i_PKCS7]: [BIO_new_mem_buf] and [d2i_PKCS7_bio], [None] when either
      fails;
    - [signed_certs]: the stack [p7->d.sign->cert] or
      [p7->d.signed_and_enveloped->cert] by the type of [p7], [None] for
      NULL;
    - [X509_digest_sha256]: the digest of a certificate, [None] when
      [X509_digest] answers 0;
    - [signer_times]: [PKCS7_get_signer_info] with the signing-time
      attribute of each signer;
    - [X509_STORE_new], [X509_STORE_add_cert], [BIO_new_mem]: whether the
      call succeeds;
    - [PKCS7_verify]: the answer for a store that holds the one certificate
      and the verification time, and the content written to the data BIO;
    - [BIO_get_mem_data]: the size it reports for that content. *)
Record pkcs7_lib := {
  PKCS7 : Type;
  cert : Type;
  d2i_PKCS7 : bytes -> Z -> option PKCS7;
  signed_certs : PKCS7 -> option (list cert);
  X509_digest_sha256 : cert -> option bytes;
  signer_times : PKCS7 -> option (list (option ASN1_TYPE));
  X509_STORE_new : bool;
  X509_STORE_add_cert : cert -> Z;
  BIO_new_mem : bool;
  PKCS7_verify : PKCS7 -> cert -> Z -> Z * bytes;
  BIO_get_mem_data : bytes -> Z;
  efi_time_to_ctime : EFI_TIME -> Z;
  AllocatePool : Z -> bool
}.

Section Verify.

Variable ossl : pkcs7_lib.

(** The loop of [find_cert_in_pkcs7]. *)
Fixpoint find_cert_loop (certs : list (cert ossl)) (cert_sha256 : bytes)
  : option (cert ossl) :=
  match certs with
  | [] => None
  | x509 :: rest =>
      match X509_digest_sha256 ossl x509 with
      | None => None
      | Some digest =>
          if negb (Z.of_nat (List.length digest) =? SHA256_DIGEST_LENGTH)
          then find_cert_loop rest cert_sha256
          else if bytes_eqb (firstn 32 cert_sha256) (firstn 32 digest)
          then Some x509
          else find_cert_loop rest cert_sha256
      end
  end.

(** [static X509 *find_cert_in_pkcs7(PKCS7 *p7, const unsigned char *cert_sha256)] *)
Definition find_cert_in_pkcs7 (p7 : PKCS7 ossl) (cert_sha256 : bytes)
  : option (cert ossl) :=
  match signed_certs ossl p7 with
  | None => None
  | Some certs => find_cert_loop certs cert_sha256
  end.

(** A certificate answers to the trusted digest when its SHA-256 digest is
    the 32 bytes given. *)
Definition trusted (cert_sha256 : bytes) (x509 : cert ossl) : Prop :=
  exists digest,
    X509_digest_sha256 ossl x509 = Some digest
    /\ List.length digest = 32%nat /\ firstn 32 cert_sha256 = digest.

(** A certificate the loop steps over: its digest is computed and is not
    the trusted one. *)
Definition passed_over (cert_sha256 : bytes) (x509 : cert ossl) : Prop :=
  exists digest,
    X509_digest_sha256 ossl x509 = Some digest
    /\ ~ (List.length digest = 32%nat /\ firstn 32 cert_sha256 = digest).

(** [EFI_STATUS verify_pkcs7(cert_sha256, cert_size, pkcs7, pkcs7_size,
    data_p, size)]: the status and what is stored through [data_p] and
    through [size] ([None]: nothing); [None] for the whole is the fault of
    [get_signing_time]. *)
Definition verify_pkcs7 (cert_sha256 : bytes) (cert_size : Z) (pkcs7 : bytes)
  (pkcs7_size : Z) : option (EFI_STATUS * option bytes * option Z) :=
  let failed := Some (EFI_INVALID_PARAMETER, None, None) in
  if negb (cert_size =? SHA256_DIGEST_LENGTH) then failed
  else
    match d2i_PKCS7 ossl pkcs7 pkcs7_size with
    | None => failed
    | Some p7 =>
        match find_cert_in_pkcs7 p7 cert_sha256 with
        | None => failed
        | Some x509 =>
            match get_signing_time (efi_time_to_ctime ossl) (signer_times ossl p7) with
            | None => None
            | Some signing_time =>
                if signing_time =? 0 then failed
                else if negb (X509_STORE_new ossl) then failed
                else if negb (X509_STORE_add_cert ossl x509 =? 1) then failed
                else if negb (BIO_new_mem ossl) then failed
                else
                  let (ret, content) := PKCS7_verify ossl p7 x509 signing_time in
                  if negb (ret =? 1) then failed
                  else
                    let size := BIO_get_mem_data ossl content in
                    if size =? -1
                    then Some (EFI_INVALID_PARAMETER, None, Some size)
                    else if negb (AllocatePool ossl size)
                    then Some (EFI_INVALID_PARAMETER, None, Some size)
                    else Some (EFI_SUCCESS, Some (firstn (Z.to_nat size) content),
                               Some size)
            end
        end
    end.

End Verify.

(** *** Firmware secure boot *)

(** [BOOLEAN is_efi_secure_boot_enabled(VOID)]; [get_efi_variable_byte] is
    lib.c's, by variable name. *)
Definition is_efi_secure_boot_enabled
  (get_efi_variable_byte : string -> EFI_STATUS * Z) : bool :=
  let (ret, value) := get_efi_variable_byte "SetupMode"%string in
  if EFI_ERROR ret then false
  else if negb (value =? 0) then false
  else
    let (ret, value) := get_efi_variable_byte "SecureBoot"%string in
    if EFI_ERROR ret then false
    else value =? 1.


Section Outputs.

Variable ssl : openssl.
Variable kf : lib ssl.

(** What [finish] and [red] hand out: no target only with the red state,
    a target within BOOT_TARGET_SIZE, no certificate for a caller that
    asked for none. *)
Definition outputs_agree (verifier_cert : bool) (o : outcome ssl) : Prop :=
  (target_out ssl o = None -> verify_state ssl o = BOOT_STATE_RED)
  /\ (forall t, target_out ssl o = Some t ->
        (String.length t <= Z.to_nat (BOOT_TARGET_SIZE ssl kf))%nat)
  /\ (verifier_cert = false -> verifier_out ssl o = None).

End Outputs.

End Pkcs7.


(* ------------------------------------------------------------------------- *)
(** ** Sample devices *)
(* ------------------------------------------------------------------------- *)

Section FlashSamples.
Import Efi Flash.

(** A 16 GiB partition that starts 16 GiB into the disk, the cursor at its
    first byte, as [flash_partition] leaves it. *)
Definition gparti_16G : gpt_partition_interface :=
  {| starting_lba := 2 ^ 25; ending_lba := 2 ^ 26 - 1;
     bio := Some {| MediaId := 0; BlockSize := 512 |} |}.

Definition st_16G : state :=
  {| gparti := gparti_16G; cur_offset := 2 ^ 34; writes := []; allocs := 0 |}.

(** A boot partition of 4 MiB behind the first MiB of the disk, holding an
    image of one 2048-byte page of header, a 5000-byte kernel and a
    3000-byte ramdisk; firmware that grants every request. *)
Definition boot_gparti : Flash.gpt_partition_interface :=
  {| Flash.starting_lba := 2048; Flash.ending_lba := 2048 + 8191;
     Flash.bio := Some {| Flash.MediaId := 7; Flash.BlockSize := 512 |} |}.

Definition boot_hdr : Flash.boot_img_hdr :=
  {| Flash.magic := "ANDROID!"; Flash.kernel_size := 5000;
     Flash.kernel_addr := 0x10008000; Flash.ramdisk_size := 3000;
     Flash.second_size := 0; Flash.page_size := 2048 |}.

Definition granting_firmware : Flash.firmware :=
  {| Flash.WriteDisk := fun _ => Efi.EFI_SUCCESS;
     Flash.ReadDisk := fun _ _ _ len => (Efi.EFI_SUCCESS, Flash.zeroes len);
     Flash.AllocatePool := fun _ _ => true;
     Flash.gpt_get_partition_by_label := fun _ => (Efi.EFI_SUCCESS, boot_gparti) |}.

Definition pagealign_pow2 (h : Flash.boot_img_hdr) (n : Z) : Z :=
  Z.land (Efi.u32 (n + Flash.page_size h - 1))
         (Efi.u32 (Z.lnot (Flash.page_size h - 1))).

Definition fixed_header : Flash.android_h :=
  {| Flash.hdr_of_bytes := fun _ => boot_hdr;
     Flash.store_kernel_size := fun _ img => img;
     Flash.store_kernel_addr := fun _ img => img;
     Flash.bootimage_size := fun h =>
       Flash.page_size h + pagealign_pow2 h (Flash.kernel_size h)
       + pagealign_pow2 h (Flash.ramdisk_size h)
       + pagealign_pow2 h (Flash.second_size h);
     Flash.pagealign := pagealign_pow2 |}.

Definition flash_idle : Flash.state :=
  {| Flash.gparti := {| Flash.starting_lba := 0; Flash.ending_lba := 0;
                        Flash.bio := None |};
     Flash.cur_offset := 0; Flash.writes := []; Flash.allocs := 0 |}.

End FlashSamples.

Section HashesSamples.
Import Efi Hashes.

(** A 1 MiB partition, and a disk that shows a SquashFS superblock with the
    given [bytes_used] at its start and a dm-verity header behind the
    filesystem. *)
Definition hashed_gparti : Flash.gpt_partition_interface :=
  {| Flash.starting_lba := 2048; Flash.ending_lba := 2048 + 2047;
     Flash.bio := Some {| Flash.MediaId := 7; Flash.BlockSize := 512 |} |}.

Definition squashfs_disk (used : Z) : Hashes.disk_io :=
  {| Hashes.ReadDisk_ext4 := fun _ _ _ =>
       (Efi.EFI_SUCCESS,
        {| Hashes.s_blocks_count_lo := 0; Hashes.s_log_block_size := 0;
           Hashes.ext4_s_magic := 0; Hashes.s_state := 0;
           Hashes.s_blocks_count_hi := 0 |});
     Hashes.ReadDisk_squashfs := fun _ _ _ =>
       (Efi.EFI_SUCCESS,
        {| Hashes.squashfs_s_magic := Hashes.SQUASHFS_MAGIC;
           Hashes.bytes_used := used |});
     Hashes.ReadDisk_verity := fun _ _ _ =>
       (Efi.EFI_SUCCESS,
        {| Hashes.vh_magic := Hashes.VERITY_METADATA_MAGIC_NUMBER;
           Hashes.protocol_version := 0 |});
     Hashes.gpt_get_partition_by_label := fun _ => (Efi.EFI_SUCCESS, hashed_gparti);
     Hashes.hash_partition := fun _ _ => Efi.EFI_SUCCESS |}.

End HashesSamples.

Section FastbootSamples.
Import Efi Fastboot.
Open Scope string_scope.
Open Scope Z_scope.

(** A hexadecimal [strtoul] for the examples: the digits in front, read as
    a UINT64. *)
Definition hex_digit_value (c : ascii) : option Z :=
  let n := Z.of_nat (nat_of_ascii c) in
  if (48 <=? n) && (n <=? 57) then Some (n - 48)
  else if (97 <=? n) && (n <=? 102) then Some (n - 87)
  else if (65 <=? n) && (n <=? 70) then Some (n - 55)
  else None.

Fixpoint hex_prefix_value (acc : Z) (s : string) : Z :=
  match s with
  | EmptyString => acc
  | String c rest =>
      match hex_digit_value c with
      | Some d => hex_prefix_value (u64 (16 * acc + d)) rest
      | None => acc
      end
  end.

(** A device whose firmware grants every request: the transport takes each
    frame, the pool never runs dry, the flash engine reports success, the
    disk has no partitions; a 256 MiB download cap and the bootloader
    policy with its authorization label. *)
Definition granting_platform : platform :=
  {| transport_write := fun _ _ _ => EFI_SUCCESS;
     AllocatePool := fun _ _ => true;
     stra_to_str := fun _ s => Some s;
     strtoul := fun s _ => hex_prefix_value 0 s;
     flash := fun _ _ _ st => (EFI_SUCCESS, st);
     erase_by_label := fun _ st => (EFI_SUCCESS, st);
     gpt_list_partition := fun _ => (EFI_SUCCESS, []);
     status_string := fun _ => "Error";
     MAX_DOWNLOAD_SIZE := 0x10000000;
     REFRESH_PARTITION_VAR := 0x100;
     BOOTLOADER_POLICY := true;
     ACTION_AUTHORIZATION := "authorization" |}.

(** The same device short of memory. *)
Definition starved_platform : platform :=
  {| transport_write := fun _ _ _ => EFI_SUCCESS;
     AllocatePool := fun _ _ => false;
     stra_to_str := fun _ s => Some s;
     strtoul := fun s _ => hex_prefix_value 0 s;
     flash := fun _ _ _ st => (EFI_SUCCESS, st);
     erase_by_label := fun _ st => (EFI_SUCCESS, st);
     gpt_list_partition := fun _ => (EFI_SUCCESS, []);
     status_string := fun _ => "Error";
     MAX_DOWNLOAD_SIZE := 0x10000000;
     REFRESH_PARTITION_VAR := 0x100;
     BOOTLOADER_POLICY := true;
     ACTION_AUTHORIZATION := "authorization" |}.

Definition battery (_ : unit) : option string := None.

(** A session that has just received [line], with three variables
    published and a 4096-byte download buffer. *)
Definition session (lock : device_state) (line : string) : state :=
  {| varlist :=
       [ {| name := "partition-size:boot"; value := "0x400000"; get_value := None |};
         {| name := "battery-voltage"; value := ""; get_value := Some battery |};
         {| name := "product"; value := "yt2"; get_value := None |} ];
     txbuf_head := [];
     fastboot_state := STATE_COMMAND;
     next_state := STATE_COMPLETE;
     dlbuffer := Some 4096;
     dlsize := 4096;
     bufsize := 4096;
     command_buffer := line;
     received_len := 0;
     last_received_len := 0;
     fastboot_bootimage := None;
     fastboot_efiimage := None;
     fastboot_imagesize := 0;
     fastboot_target := UNKNOWN_TARGET;
     current_state := lock;
     trace := [] |}.

(** The root list after [fastboot_init]: each command pushed on the front. *)
Definition root_cmdlist : cmdlist_t := rev (COMMANDS granting_platform).

Definition overlong_line : string :=
  "reboot:1 2 3 4 5 6 7 8 9 10 11 12 13 14 15 16".

End FastbootSamples.

Section SecuritySamples.
Import Efi Security.

(** A certificate is a key and the key that signed it; a signature is the
    signing key in front of the digest; the digest is a checksum. *)
Definition checksum (b : bytes) : bytes := [fold_right Z.add 0 b mod 256].

Definition toy_ssl : openssl :=
  {| X509 := Z * Z;
     EVP_PKEY := Z;
     RSA := Z;
     d2i_X509_mem := fun der _ =>
       match der with
       | [key; issuer] => Some (key, issuer)
       | _ => None
       end;
     X509_get_pubkey := fun cert => Some (fst cert);
     EVP_PKEY_type := fun _ => EVP_PKEY_RSA;
     EVP_PKEY_get1_RSA := fun pkey => Some pkey;
     RSA_verify := fun _ hash _ sig _ rsa =>
       if Fastboot.list_Z_eqb sig (rsa :: hash) then 1 else 0;
     X509_verify := fun cert pkey => if snd cert =? pkey then 1 else 0;
     sig_alg_nid := fun _ => NID_sha256WithRSAEncryption;
     EVP_add_digest := fun _ => 1;
     SHA1_Init := 1;
     SHA256_Init := 1;
     SHA512_Init := 1;
     SHA1 := checksum;
     SHA256 := checksum;
     SHA512 := checksum;
     X509_dup := fun cert => Some cert |}.

(** A boot image is four bytes that start with 'A'; what follows is the
    signature, then a flag and the embedded certificate. *)
Definition toy_lib : lib toy_ssl :=
  {| boot_img_hdr := Z;
     get_bootimage_header := fun img =>
       match img with
       | 65 :: _ => Some 4
       | _ => None
       end;
     bootimage_size := fun hdr => hdr;
     get_boot_signature := fun data _ =>
       match data with
       | [key; digest; embedded; ckey; cissuer] =>
           Some {| id_nid := NID_sha256WithRSAEncryption;
                   attributes_data := [];
                   attributes_data_sz := 0;
                   attributes_target := "/boot";
                   signature := [key; digest];
                   signature_len := 2;
                   certificate :=
                     (if embedded =? 1 then Some (ckey, cissuer) else None)
                     : option (X509 toy_ssl) |}
       | _ => None
       end;
     stra_to_str := fun s => Some s;
     AllocatePool := fun _ _ => true;
     BOOT_SIGNATURE_MAX_SIZE := 4096;
     BOOT_TARGET_SIZE := 32 |}.

Definition toy_verify (bootimage : bytes) : boot_state :=
  verify_state toy_ssl
    (verify_android_boot_image toy_ssl toy_lib (Some bootimage) (Some [10; 10])
                               2 true false).

End SecuritySamples.

Section CallbackSamples.
Import Efi Fastboot Callbacks.
Open Scope string_scope.
Open Scope Z_scope.

(** A transport that takes every read request, and the link of a session
    with a command buffer of 64 bytes and no request made yet. *)
Definition ready_transport : transport :=
  {| transport_read := fun _ _ _ => EFI_SUCCESS |}.

Definition link_of (st : state) : link :=
  {| fb := st; command_buffer_size := 64; reads := [] |}.

(** A session with two replies queued. *)
Definition queued_session : state :=
  set_fastboot_state STATE_TX
    (set_txbuf_head ["INFOproduct: yt2"; "OKAY"] (session LOCKED "getvar:all")).

(** A session in the middle of a download of ten bytes. *)
Definition downloading_session : state :=
  set_fastboot_state STATE_DOWNLOAD
    (set_dlsize 10 (session UNLOCKED "download:0000000a")).

(** A session that waits for a command. *)
Definition waiting_session : state :=
  set_fastboot_state STATE_COMPLETE (session LOCKED "").

(** A string of 130 characters. *)
Definition long_line : string :=
  "0123456789abcdefghijklmnopqrstuvwxyzABCDEFGHIJKLMNOPQRSTUVWXYZ-+_"
  ++ "0123456789abcdefghijklmnopqrstuvwxyzABCDEFGHIJKLMNOPQRSTUVWXYZ-+_".

End CallbackSamples.

Section FlashOpsSamples.
Import Efi Flash FlashOps.

(** Storage that answers every call with success, on a disk whose
    partitions are plain data partitions; the pool hands out zeroes. *)
Definition plain_storage : storage :=
  {| part_type := fun _ => Fastboot.guid_linux_data;
     is_sparse_image := fun _ _ => false;
     flash_sparse := fun _ _ st => (EFI_SUCCESS, st);
     gpt_refresh := fun _ => EFI_SUCCESS;
     storage_erase_blocks := fun _ _ _ => EFI_SUCCESS;
     fill_zero := fun _ _ _ => EFI_SUCCESS;
     fill_with := fun _ _ _ _ _ => EFI_SUCCESS;
     gpt_get_root_disk := (EFI_SUCCESS, boot_gparti);
     alloc_aligned := fun _ _ => EFI_SUCCESS;
     generate_random_numbers := fun n => (EFI_SUCCESS, zeroes n);
     pool_garbage := fun n => zeroes n;
     N_BLOCK := 4096;
     chunk_size := fun bs => bs * 4096 |}.

Definition idle_disk : disk := {| engine := flash_idle; calls := [] |}.

Definition disk_16G : disk := {| engine := st_16G; calls := [] |}.

End FlashOpsSamples.

Section HashToolsSamples.
Import Efi Hashes HashTools.
Open Scope string_scope.
Open Scope Z_scope.

(** A disk that answers every read with the offset asked for, and a digest
    that is the number of bytes it was given. *)
Definition offset_disk (media off n : Z) : EFI_STATUS * bytes :=
  (EFI_SUCCESS, [off]).

Definition counting_digest (md : EVP_MD) (b : bytes) : bytes :=
  [Z.of_nat (List.length b)].

(** The walk at the top of the ESP. *)
Definition walk_top : walk :=
  {| path := Some "/bootloader/"; subname := repeat None 10; subdir := 0 |}.

(** An ext4 superblock of 256 blocks of 4096 bytes, and a disk that shows
    it. *)
Definition ext4_sb_1M : ext4_super_block :=
  {| s_blocks_count_lo := 256; s_log_block_size := 2;
     ext4_s_magic := EXT4_SUPER_MAGIC; s_state := 1; s_blocks_count_hi := 0 |}.

Definition ext4_disk : disk_io :=
  {| Hashes.ReadDisk_ext4 := fun _ _ _ => (EFI_SUCCESS, ext4_sb_1M);
     Hashes.ReadDisk_squashfs := fun _ _ _ =>
       (EFI_SUCCESS, {| squashfs_s_magic := 0; bytes_used := 0 |});
     Hashes.ReadDisk_verity := fun _ _ _ =>
       (EFI_SUCCESS, {| vh_magic := 0; protocol_version := 0 |});
     Hashes.gpt_get_partition_by_label := fun _ => (EFI_SUCCESS, hashed_gparti);
     Hashes.hash_partition := fun _ _ => EFI_SUCCESS |}.

End HashToolsSamples.

Section Pkcs7Samples.
Import Efi Security Pkcs7.

Definition signing_date : EFI_TIME :=
  {| Year := 2015; Month := 6; Day := 17; Hour := 12; Minute := 30; Second := 45 |}.

(** A bundle is the list of its certificates, a certificate is a number
    and its digest that number 32 times; the second signer carries the
    signing time, and the time of a date is its year. *)
Definition toy_pkcs7 : pkcs7_lib :=
  {| PKCS7 := bytes;
     cert := Z;
     d2i_PKCS7 := fun der _ => Some der;
     signed_certs := fun p7 => Some p7;
     X509_digest_sha256 := fun c => Some (repeat c 32);
     signer_times := fun _ =>
       Some [None;
             Some {| asn1_type := V_ASN1_UTCTIME;
                     utctime_data := (utctime_of signing_date ++ [90])%list |}];
     X509_STORE_new := true;
     X509_STORE_add_cert := fun _ => 1;
     BIO_new_mem := true;
     PKCS7_verify := fun p7 _ _ => (1, p7);
     BIO_get_mem_data := fun content => Z.of_nat (List.length content);
     efi_time_to_ctime := fun t => Year t;
     AllocatePool := fun _ => true |}.

End Pkcs7Samples.

(** Closed comparisons of [Z], by evaluation. *)
Ltac by_evaluation :=
  vm_compute; repeat split;
  first [ reflexivity | discriminate | (let H := fresh in intros H; discriminate H) ].

(* ========================================================================= *)
(** * Part II: the properties *)
(* ========================================================================= *)

(* ------------------------------------------------------------------------- *)
(** ** Status codes and wrap-around *)
(* ------------------------------------------------------------------------- *)

Section EfiFacts.
Import Efi.

Lemma u64_range (x : Z) : 0 <= u64 x < 2 ^ 64.
Proof. unfold u64. apply Z.mod_pos_bound. lia. Qed.

Lemma u64_small (x : Z) : 0 <= x < 2 ^ 64 -> u64 x = x.
Proof. intros H. unfold u64. now apply Z.mod_small. Qed.

Lemma u32_small (x : Z) : 0 <= x < 2 ^ 32 -> u32 x = x.
Proof. intros H. unfold u32. now apply Z.mod_small. Qed.

Lemma EFI_SUCCESS_not_error : EFI_ERROR EFI_SUCCESS = false.
Proof. reflexivity. Qed.

Lemma EFI_INVALID_PARAMETER_error : EFI_ERROR EFI_INVALID_PARAMETER = true.
Proof. reflexivity. Qed.

Lemma EFI_UNSUPPORTED_error : EFI_ERROR EFI_UNSUPPORTED = true.
Proof. reflexivity. Qed.

Lemma EFI_ACCESS_DENIED_error : EFI_ERROR EFI_ACCESS_DENIED = true.
Proof. reflexivity. Qed.

End EfiFacts.

(* ------------------------------------------------------------------------- *)
(** ** flash.c: the partition guard *)
(* ------------------------------------------------------------------------- *)

Section FlashFacts.
Import Efi Flash.

Variable fw : firmware.
Variable ah : android_h.

Lemma sane_part_start g b :
  sane_partition g b -> part_start g b = starting_lba g * BlockSize b.
Proof.
  intros (H0 & H1 & H2 & H3). unfold part_start. apply u64_small. nia.
Qed.

Lemma sane_part_end g b :
  sane_partition g b -> part_end g b = (ending_lba g + 1) * BlockSize b.
Proof.
  intros (H0 & H1 & H2 & H3). unfold part_end.
  destruct (Z.eq_dec (BlockSize b) 0) as [E | E].
  - rewrite E, !Z.mul_0_r. reflexivity.
  - rewrite (u64_small (ending_lba g + 1)) by nia. apply u64_small. nia.
Qed.

(** Where neither the bounds nor the end of the request wrap, the guard is
    the range test over the integers. *)
Lemma is_inside_partition_exact g b off sz :
  sane_partition g b -> 0 <= off + sz < 2 ^ 64 ->
  is_inside_partition g b off sz = true <-> in_partition_range g b off sz.
Proof.
  intros Hs Hr. unfold is_inside_partition, in_partition_range.
  rewrite (sane_part_start _ _ Hs), (sane_part_end _ _ Hs), (u64_small _ Hr).
  rewrite andb_true_iff, !Z.leb_le. tauto.
Qed.

(** [flash_write] issues no request and leaves the cursor alone when the
    guard refuses. *)
Lemma flash_write_refused data size st b :
  bio (gparti st) = Some b ->
  is_inside_partition (gparti st) b (cur_offset st) size = false ->
  flash_write fw data size st = (EFI_INVALID_PARAMETER, st).
Proof.
  intros Hb Hg. unfold flash_write. rewrite Hb, Hg. reflexivity.
Qed.

Lemma flash_write_accepted data size st b :
  bio (gparti st) = Some b ->
  is_inside_partition (gparti st) b (cur_offset st) size = true ->
  let w := {| w_media := MediaId b; w_offset := cur_offset st;
              w_size := size; w_data := data |} in
  flash_write fw data size st =
    (WriteDisk fw w, set_cur_offset (u64 (cur_offset st + size)) (push_write w st)).
Proof.
  intros Hb Hg. unfold flash_write. rewrite Hb, Hg. reflexivity.
Qed.

(** The part of the guard that holds: as long as the end of the request does
    not wrap, [flash_write] and [flash_skip] succeed only inside the byte
    range of the partition, and otherwise answer EFI_INVALID_PARAMETER and
    change nothing. *)
Lemma flash_write_guard_without_wrap data size st b :
  bio (gparti st) = Some b -> sane_partition (gparti st) b ->
  0 <= cur_offset st + size < 2 ^ 64 ->
  (fst (flash_write fw data size st) = EFI_SUCCESS ->
   in_partition_range (gparti st) b (cur_offset st) size) /\
  (~ in_partition_range (gparti st) b (cur_offset st) size ->
   flash_write fw data size st = (EFI_INVALID_PARAMETER, st)).
Proof.
  intros Hb Hs Hr.
  pose proof (is_inside_partition_exact _ _ _ _ Hs Hr) as Hex.
  destruct (is_inside_partition (gparti st) b (cur_offset st) size) eqn:Hg.
  - split; intros H; [apply Hex; reflexivity | exfalso; apply H, Hex; reflexivity].
  - rewrite (flash_write_refused _ _ _ _ Hb Hg). split; intros H.
    + discriminate H.
    + reflexivity.
Qed.

Lemma flash_skip_guard_without_wrap size st b :
  bio (gparti st) = Some b -> sane_partition (gparti st) b ->
  0 <= cur_offset st + size < 2 ^ 64 ->
  (in_partition_range (gparti st) b (cur_offset st) size ->
   flash_skip size st = Some (EFI_SUCCESS, set_cur_offset (cur_offset st + size) st)) /\
  (~ in_partition_range (gparti st) b (cur_offset st) size ->
   flash_skip size st = Some (EFI_INVALID_PARAMETER, st)).
Proof.
  intros Hb Hs Hr.
  pose proof (is_inside_partition_exact _ _ _ _ Hs Hr) as Hex.
  unfold flash_skip. rewrite Hb.
  destruct (is_inside_partition (gparti st) b (cur_offset st) size) eqn:Hg; cbn.
  - split; intros H.
    + rewrite (u64_small _ Hr). reflexivity.
    + exfalso. apply H, Hex. reflexivity.
  - split; intros H.
    + apply Hex in H. discriminate H.
    + reflexivity.
Qed.

(** C3 (as the code behaves): the guard of [flash_skip] adds offset and size
    in UINT64.  With the cursor at the start of the partition [2^34, 2^35)
    and a size of 2^64 - 2^34 + 512, the end of the request lies far beyond
    the partition, yet the sum wraps to 512, the guard accepts, the call
    answers EFI_SUCCESS and the cursor moves to byte 512 of the disk,
    below the partition. *)
Theorem flash_skip_wraps_past_partition :
  let b := {| MediaId := 0; BlockSize := 512 |} in
  let size := 2 ^ 64 - 2 ^ 34 + 512 in
  0 <= size < 2 ^ 64 /\
  ~ in_partition_range gparti_16G b (cur_offset st_16G) size /\
  flash_skip size st_16G = Some (EFI_SUCCESS, set_cur_offset 512 st_16G) /\
  512 < starting_lba gparti_16G * BlockSize b.
Proof.
  cbv zeta. split; [lia |]. split.
  - unfold in_partition_range. cbn. lia.
  - split; [vm_compute; reflexivity | cbn; lia].
Qed.

(** The same guard stands in [flash_write]: for that size it hands the
    request to [WriteDisk], from the first byte of the partition on. *)
Lemma flash_write_wraps_past_partition data :
  let size := 2 ^ 64 - 2 ^ 34 + 512 in
  writes (snd (flash_write fw data size st_16G)) =
    [ {| w_media := 0; w_offset := 2 ^ 34; w_size := size; w_data := data |} ].
Proof.
  cbv zeta. rewrite (flash_write_accepted data _ st_16G {| MediaId := 0; BlockSize := 512 |}).
  - reflexivity.
  - reflexivity.
  - vm_compute. reflexivity.
Qed.

(** *** zImage splice *)

Lemma sane_zimage_partlen g b :
  sane_partition g b ->
  zimage_partlen g b = (ending_lba g + 1 - starting_lba g) * BlockSize b.
Proof.
  intros (H0 & H1 & H2 & H3). unfold zimage_partlen.
  destruct (Z.eq_dec (BlockSize b) 0) as [E | E].
  - rewrite E, !Z.mul_0_r. reflexivity.
  - rewrite (u64_small (ending_lba g + 1 - starting_lba g)) by nia.
    apply u64_small. nia.
Qed.

(** An image no longer than the partition passes the guard at its start. *)
Lemma zimage_fits g b n :
  sane_partition g b -> 0 <= n <= zimage_partlen g b ->
  is_inside_partition g b (part_start g b) n = true.
Proof.
  intros Hs Hn. rewrite (sane_zimage_partlen _ _ Hs) in Hn.
  pose proof Hs as (H0 & H1 & H2 & H3).
  apply is_inside_partition_exact; [assumption | |].
  - rewrite (sane_part_start _ _ Hs). nia.
  - unfold in_partition_range. rewrite (sane_part_start _ _ Hs). nia.
Qed.

(** C8: with the boot partition resolved, its buffer allocated and its
    contents read, [flash_zimage]
    - answers EFI_UNSUPPORTED and writes nothing when the contents do not
      start with the boot magic;
    - otherwise takes old image size - old kernel_size + pagealign(size), as
      a UINTN, for the new size, answers EFI_INVALID_PARAMETER and writes
      nothing when that exceeds the partition length;
    - otherwise (the new buffer allocated) issues exactly one write, of that
      size, at the start of the partition;
    and the UINTN is the integer itself whenever that fits 64 bits. *)
Theorem flash_zimage_size_and_errors data size st ret0 g b rret bootimage :
  gpt_get_partition_by_label fw "boot" = (ret0, g) ->
  EFI_ERROR ret0 = false ->
  bio g = Some b ->
  AllocatePool fw (allocs st) (zimage_partlen g b) = true ->
  ReadDisk fw (writes st) (MediaId b) (part_start g b) (zimage_partlen g b)
    = (rret, bootimage) ->
  EFI_ERROR rret = false ->
  let h := hdr_of_bytes ah bootimage in
  let new_size := zimage_new_size ah h size in
  (magic h <> BOOT_MAGIC ->
   exists st', flash_zimage fw ah data size st = Some (EFI_UNSUPPORTED, st')
               /\ writes st' = writes st) /\
  (magic h = BOOT_MAGIC -> zimage_partlen g b < new_size ->
   exists st', flash_zimage fw ah data size st = Some (EFI_INVALID_PARAMETER, st')
               /\ writes st' = writes st) /\
  (magic h = BOOT_MAGIC -> new_size <= zimage_partlen g b ->
   AllocatePool fw (S (allocs st)) new_size = true ->
   sane_partition g b ->
   exists w st',
     flash_zimage fw ah data size st = Some (WriteDisk fw w, st')
     /\ writes st' = (writes st ++ [w])%list
     /\ w_offset w = starting_lba g * BlockSize b
     /\ w_size w = new_size) /\
  (0 <= bootimage_size ah h - kernel_size h + pagealign ah h size < 2 ^ 64 ->
   new_size = bootimage_size ah h - kernel_size h + pagealign ah h size).
Proof.
  intros Hgpt Hret0 Hbio Halloc Hread Hrret h new_size.
  assert (Hunfold :
    flash_zimage fw ah data size st =
    if negb (String.eqb BOOT_MAGIC (magic h))
    then Some (EFI_UNSUPPORTED, count_alloc (set_gparti g st))
    else if zimage_partlen g b <? new_size
    then Some (EFI_INVALID_PARAMETER, count_alloc (set_gparti g st))
    else if negb (AllocatePool fw (S (allocs st)) new_size)
    then Some (EFI_OUT_OF_RESOURCES, count_alloc (count_alloc (set_gparti g st)))
    else Some (flash_write fw (splice_zimage ah bootimage h data size new_size)
                 new_size
                 (set_cur_offset (part_start g b)
                    (count_alloc (count_alloc (set_gparti g st)))))).
  { unfold flash_zimage. rewrite Hgpt, Hret0, Hbio. cbn [allocs set_gparti].
    fold (zimage_partlen g b). rewrite Halloc. cbn [negb].
    cbn [writes count_alloc set_gparti]. rewrite Hread, Hrret.
    reflexivity. }
  rewrite Hunfold. repeat split.
  - intros Hm. apply String.eqb_neq in Hm. rewrite String.eqb_sym in Hm.
    rewrite Hm. cbn. eexists; split; reflexivity.
  - intros Hm Hbig. rewrite <- Hm, String.eqb_refl. cbn [negb].
    apply Z.ltb_lt in Hbig. rewrite Hbig. eexists; split; reflexivity.
  - intros Hm Hfit Halloc2 Hs. rewrite <- Hm, String.eqb_refl. cbn [negb].
    apply Z.ltb_ge in Hfit. rewrite Hfit, Halloc2. cbn [negb].
    assert (Hin : is_inside_partition g b (part_start g b) new_size = true).
    { apply zimage_fits; [assumption |]. apply Z.ltb_ge in Hfit.
      split; [apply u64_range | assumption]. }
    erewrite flash_write_accepted by (cbn; eassumption).
    cbn. do 2 eexists. split; [reflexivity |]. cbn.
    split; [reflexivity |]. split; [apply sane_part_start; assumption | reflexivity].
  - intros Hr. unfold new_size, zimage_new_size. apply u64_small. exact Hr.
Qed.

End FlashFacts.

(** Splicing a 7000-byte kernel into that image: one write of
    2048 + 6144 + 4096 + 0 - 5000 + 8192 bytes at the start of the partition. *)
Lemma flash_zimage_size_and_errors_witness :
  exists w st',
    Flash.flash_zimage granting_firmware fixed_header [] 7000 flash_idle
      = Some (Efi.EFI_SUCCESS, st')
    /\ Flash.writes st' = [w]
    /\ Flash.w_offset w = 2048 * 512
    /\ Flash.w_size w = 2048 + 6144 + 4096 + 0 - 5000 + 8192.
Proof.
  destruct (flash_zimage_size_and_errors granting_firmware fixed_header
              [] 7000 flash_idle Efi.EFI_SUCCESS boot_gparti
              {| Flash.MediaId := 7; Flash.BlockSize := 512 |}
              Efi.EFI_SUCCESS (Flash.zeroes (8192 * 512))
              eq_refl eq_refl eq_refl eq_refl eq_refl eq_refl)
    as (_ & _ & H & _).
  destruct H as (w & st' & H1 & H2 & H3 & H4).
  - reflexivity.
  - vm_compute. discriminate.
  - reflexivity.
  - unfold Flash.sane_partition. cbn. lia.
  - exists w, st'. repeat split; assumption.
Defined.

(* ------------------------------------------------------------------------- *)
(** ** hashes.c: SquashFS length and verity tree size *)
(* ------------------------------------------------------------------------- *)

Section HashesFacts.
Import Efi Hashes.

Lemma DIV_ROUND_UP_exact x y :
  0 <= x -> 0 < y -> x + y - 1 < 2 ^ 64 -> DIV_ROUND_UP x y = ceil_div x y.
Proof.
  intros Hx Hy Hs. unfold DIV_ROUND_UP, ceil_div. rewrite u64_small by lia.
  reflexivity.
Qed.

Lemma DIV_ROUND_UP_bound x y :
  0 < y -> 0 <= DIV_ROUND_UP x y <= (2 ^ 64 - 1) / y.
Proof.
  intros Hy. unfold DIV_ROUND_UP. pose proof (u64_range (x + y - 1)) as Hr.
  split.
  - apply Z.div_pos; lia.
  - apply Z.div_le_mono; lia.
Qed.

Lemma ceil_div_128_le x : 0 <= x -> 0 <= ceil_div x 128 <= x.
Proof.
  intros Hx. unfold ceil_div. Z.div_mod_to_equations. lia.
Qed.

Lemma ceil_div_128_pow x (n : nat) :
  0 <= x <= 128 ^ Z.of_nat (S n) -> ceil_div x 128 <= 128 ^ Z.of_nat n.
Proof.
  intros Hx. rewrite Nat2Z.inj_succ, Z.pow_succ_r in Hx by lia.
  unfold ceil_div.
  assert (Hp : 0 < 128 ^ Z.of_nat n) by (apply Z.pow_pos_nonneg; lia).
  apply Z.lt_succ_r. apply Z.div_lt_upper_bound; lia.
Qed.

(** The unfolding of the spec's tree: one more level while a level has more
    than one block. *)
Lemma spec_tree_blocks_unfold x :
  spec_tree_blocks x =
    if ceil_div x 128 <=? 1 then ceil_div x 128
    else ceil_div x 128 + spec_tree_blocks (ceil_div x 128).
Proof.
  etransitivity; [apply spec_tree_blocks_equation_1 |].
  destruct (Z_le_gt_dec (ceil_div x 128) 1) as [H | H]; cbn.
  - apply Z.leb_le in H. rewrite H. reflexivity.
  - assert (H' : (ceil_div x 128 <=? 1) = false) by (apply Z.leb_gt; lia).
    rewrite H'. reflexivity.
Qed.

Lemma spec_tree_blocks_le x : 0 <= x -> 0 <= spec_tree_blocks x <= x.
Proof.
  intros Hx. revert Hx.
  induction x as [x IH] using (well_founded_induction (Z.lt_wf 0)).
  intros Hx. rewrite spec_tree_blocks_unfold.
  pose proof (ceil_div_128_le x Hx) as Hc.
  destruct (ceil_div x 128 <=? 1) eqn:E.
  - lia.
  - apply Z.leb_gt in E.
    assert (Hlt : ceil_div x 128 < x).
    { unfold ceil_div in *. Z.div_mod_to_equations. lia. }
    specialize (IH (ceil_div x 128) ltac:(lia) ltac:(lia)).
    assert (2 * ceil_div x 128 <= x).
    { unfold ceil_div in *. Z.div_mod_to_equations. lia. }
    lia.
Qed.

(** Each call of [verity_tree_blocks] redoes the divisions of the level
    below and adds one. *)
Lemma verity_level_loop_succ level x :
  verity_level_loop (S level) x =
    DIV_ROUND_UP (verity_level_loop level x) VERITY_HASHES_PER_BLOCK.
Proof.
  revert x. induction level as [| level IH]; intros x.
  - reflexivity.
  - change (verity_level_loop (S (S level)) x)
      with (verity_level_loop (S level) (DIV_ROUND_UP x VERITY_HASHES_PER_BLOCK)).
    rewrite IH. reflexivity.
Qed.

Lemma verity_tree_blocks_succ data_size level :
  verity_tree_blocks data_size (S level) =
    DIV_ROUND_UP (verity_tree_blocks data_size level) VERITY_HASHES_PER_BLOCK.
Proof. unfold verity_tree_blocks. apply verity_level_loop_succ. Qed.

(** The loop of [verity_tree_size], entered at level [levels] with [x] blocks
    on the level below, adds the spec's tree over [x] to the count, if the
    fuel covers the levels left. *)
Lemma verity_tree_size_loop_spec fuel :
  forall data_size levels verity_blocks x,
    verity_tree_blocks data_size levels = DIV_ROUND_UP x VERITY_HASHES_PER_BLOCK ->
    0 <= x <= 128 ^ Z.of_nat fuel -> (0 < fuel)%nat ->
    0 <= verity_blocks -> verity_blocks + x < 2 ^ 63 ->
    verity_tree_size_loop fuel data_size levels verity_blocks =
      Some (verity_blocks + spec_tree_blocks x).
Proof.
  induction fuel as [| fuel IH]; intros data_size levels vb x Hlvl Hx Hfuel Hvb Hsum.
  - lia.
  - cbn [verity_tree_size_loop]. rewrite Hlvl.
    change VERITY_HASHES_PER_BLOCK with 128 in *.
    rewrite DIV_ROUND_UP_exact in * by lia.
    pose proof (ceil_div_128_le x ltac:(lia)) as Hc.
    pose proof (ceil_div_128_pow x fuel Hx) as Hp.
    rewrite (spec_tree_blocks_unfold x).
    rewrite u64_small by lia.
    destruct (1 <? ceil_div x 128) eqn:E.
    + apply Z.ltb_lt in E.
      assert (E' : (ceil_div x 128 <=? 1) = false) by (apply Z.leb_gt; lia).
      rewrite E'.
      assert (Hfuel' : (0 < fuel)%nat).
      { destruct fuel; [cbn in Hp; lia | lia]. }
      assert (H2 : 2 * ceil_div x 128 <= x).
      { unfold ceil_div in *. Z.div_mod_to_equations. lia. }
      rewrite (IH data_size (S levels) (vb + ceil_div x 128) (ceil_div x 128)).
      * f_equal. lia.
      * rewrite verity_tree_blocks_succ, Hlvl.
        change VERITY_HASHES_PER_BLOCK with 128.
        rewrite !DIV_ROUND_UP_exact by lia. reflexivity.
      * lia.
      * assumption.
      * lia.
      * lia.
    + apply Z.ltb_ge in E.
      assert (E' : (ceil_div x 128 <=? 1) = true) by (apply Z.leb_le; lia).
      rewrite E'. reflexivity.
Qed.

(** [verity_tree_size] returns for every argument: sixteen levels are more
    than a UINT64 block count can need. *)
Lemma verity_tree_size_total data_size :
  verity_tree_size data_size =
    Some (4096 * spec_tree_blocks (DIV_ROUND_UP data_size VERITY_BLOCK_SIZE)).
Proof.
  unfold verity_tree_size.
  pose proof (DIV_ROUND_UP_bound data_size VERITY_BLOCK_SIZE ltac:(reflexivity)) as Hb.
  change ((2 ^ 64 - 1) / VERITY_BLOCK_SIZE) with (2 ^ 52 - 1) in Hb.
  rewrite (verity_tree_size_loop_spec VERITY_MAX_LEVELS data_size 0 0
             (DIV_ROUND_UP data_size VERITY_BLOCK_SIZE)).
  - pose proof (spec_tree_blocks_le _ (proj1 Hb)) as Hs.
    f_equal. change VERITY_BLOCK_SIZE with 4096 in *.
    rewrite u64_small by lia. lia.
  - reflexivity.
  - change (128 ^ Z.of_nat VERITY_MAX_LEVELS) with (2 ^ 112). lia.
  - unfold VERITY_MAX_LEVELS. lia.
  - lia.
  - lia.
Qed.

Variable dk : disk_io.

(** The rounding of [get_squashfs_len], where the padded length fits. *)
Lemma squashfs_round_up used :
  0 <= used <= 2 ^ 64 - 4096 ->
  (if negb (used mod SQUASHFS_PADDING =? 0)
   then u64 (u64 (used + SQUASHFS_PADDING) / SQUASHFS_PADDING * SQUASHFS_PADDING)
   else used) = spec_squashfs_len used.
Proof.
  intros Hu. unfold spec_squashfs_len, ceil_div, SQUASHFS_PADDING.
  destruct (used mod 4096 =? 0) eqn:E; cbn [negb].
  - apply Z.eqb_eq in E. Z.div_mod_to_equations. lia.
  - apply Z.eqb_neq in E.
    rewrite (u64_small (used + 4096)) by (Z.div_mod_to_equations; lia).
    rewrite u64_small; Z.div_mod_to_equations; lia.
Qed.

Lemma verity_tree_size_in_range fs_len :
  0 <= fs_len <= 2 ^ 64 - 4096 ->
  verity_tree_size fs_len = Some (spec_verity_tree_size fs_len).
Proof.
  intros Hf. rewrite verity_tree_size_total. unfold spec_verity_tree_size.
  change VERITY_BLOCK_SIZE with 4096.
  rewrite DIV_ROUND_UP_exact by lia. reflexivity.
Qed.

(** C9 (as amended): for a SquashFS superblock whose bytes_used is at most
    2^64 - 4096, the filesystem length is bytes_used rounded up to the next
    multiple of 4096 (bytes_used itself when it is a multiple); for a length
    of at most 2^64 - 4096, [verity_tree_size] returns 4096 times the sum,
    over the levels, of the ceiling divisions by 128 of the 4 KiB block
    count, until a level has at most one block; and when a dm-verity header
    follows, the length hashed is fs_len + verity_tree_size(fs_len) + 32768,
    whenever that is below 2^64. *)
Theorem hasher_sizes_exact_in_range gparti len ret sb :
  read_partition (ReadDisk_squashfs dk) gparti 0 sizeof_squashfs_super_block
    {| squashfs_s_magic := 0; bytes_used := 0 |} = Some (ret, sb) ->
  EFI_ERROR ret = false ->
  squashfs_s_magic sb = SQUASHFS_MAGIC ->
  0 <= bytes_used sb <= 2 ^ 64 - 4096 ->
  get_squashfs_len dk gparti len
    = Some (EFI_SUCCESS, spec_squashfs_len (bytes_used sb))
  /\ (bytes_used sb mod 4096 = 0 ->
      spec_squashfs_len (bytes_used sb) = bytes_used sb)
  /\ (forall fs_len, 0 <= fs_len <= 2 ^ 64 - 4096 ->
      verity_tree_size fs_len = Some (spec_verity_tree_size fs_len))
  /\ (forall label fs_len0 ret0 gp ret1 fs_len ret2,
      gpt_get_partition_by_label dk label = (ret0, gp) ->
      EFI_ERROR ret0 = false ->
      detect_fs (SUPPORTED_FS dk) gp ret0 fs_len0 = Some (ret1, fs_len) ->
      EFI_ERROR ret1 = false ->
      check_verity_header dk gp fs_len = Some ret2 ->
      EFI_ERROR ret2 = false ->
      0 <= fs_len <= 2 ^ 64 - 4096 ->
      fs_len + spec_verity_tree_size fs_len + 32768 < 2 ^ 64 ->
      let hashed := fs_len + spec_verity_tree_size fs_len + 32768 in
      get_fs_hash dk label fs_len0
        = Some (hash_partition dk gp hashed, Some hashed)).
Proof.
  intros Hread Hret Hmagic Hused. repeat split.
  - unfold get_squashfs_len. rewrite Hread. cbn [bind_fault].
    rewrite Hret, Hmagic, Z.eqb_refl. cbn [negb].
    pose proof (squashfs_round_up (bytes_used sb) Hused) as Hr.
    destruct (negb (bytes_used sb mod SQUASHFS_PADDING =? 0)); rewrite <- Hr;
      reflexivity.
  - intros Hm. unfold spec_squashfs_len, ceil_div.
    Z.div_mod_to_equations. lia.
  - apply verity_tree_size_in_range.
  - intros label fs_len0 ret0 gp ret1 fs_len ret2 Hgpt Hret0 Hdet Hret1 Hver
           Hret2 Hfs Hsum hashed.
    unfold get_fs_hash. rewrite Hgpt, Hret0, Hdet. cbn [bind_fault].
    rewrite Hret1, Hver. cbn [bind_fault]. rewrite Hret2.
    rewrite (verity_tree_size_in_range fs_len Hfs). cbn [bind_fault].
    assert (Ht : 0 <= spec_verity_tree_size fs_len).
    { unfold spec_verity_tree_size.
      assert (0 <= ceil_div fs_len 4096).
      { unfold ceil_div. apply Z.div_pos; lia. }
      pose proof (spec_tree_blocks_le (ceil_div fs_len 4096) ltac:(lia)). lia. }
    change VERITY_METADATA_SIZE with 32768.
    rewrite (u64_small (spec_verity_tree_size fs_len + 32768)) by lia.
    rewrite u64_small by lia.
    replace (fs_len + (spec_verity_tree_size fs_len + 32768)) with hashed
      by (unfold hashed; lia).
    reflexivity.
Qed.

End HashesFacts.

(** C9 (as stated) fails at the top of the UINT64 range: a superblock with
    bytes_used = 2^64 - 1 gets the length 0, where rounding up to the next
    multiple of 4096 gives 2^64. *)
Lemma squashfs_len_wraps_at_top :
  Hashes.get_squashfs_len (squashfs_disk (2 ^ 64 - 1)) hashed_gparti 0
    = Some (Efi.EFI_SUCCESS, 0)
  /\ Hashes.spec_squashfs_len (2 ^ 64 - 1) = 2 ^ 64
  /\ Hashes.get_squashfs_len (squashfs_disk (2 ^ 64 - 1)) hashed_gparti 0
     <> Some (Efi.EFI_SUCCESS, Hashes.spec_squashfs_len (2 ^ 64 - 1)).
Proof.
  assert (H1 : Hashes.get_squashfs_len (squashfs_disk (2 ^ 64 - 1)) hashed_gparti 0
               = Some (Efi.EFI_SUCCESS, 0)) by (vm_compute; reflexivity).
  assert (H2 : Hashes.spec_squashfs_len (2 ^ 64 - 1) = 2 ^ 64)
    by (vm_compute; reflexivity).
  split; [exact H1 |]. split; [exact H2 |].
  rewrite H1, H2. intros H. inversion H.
Qed.

(** 10000 bytes used: 12288 bytes of filesystem, a tree of one block, and
    12288 + 4096 + 32768 bytes hashed. *)
Lemma hasher_sizes_exact_in_range_witness :
  Hashes.get_squashfs_len (squashfs_disk 10000) hashed_gparti 0
    = Some (Efi.EFI_SUCCESS, 12288)
  /\ Hashes.verity_tree_size 12288 = Some 4096
  /\ Hashes.get_fs_hash (squashfs_disk 10000) "system" 0
     = Some (Efi.EFI_SUCCESS, Some 49152).
Proof.
  destruct (hasher_sizes_exact_in_range (squashfs_disk 10000) hashed_gparti 0
              Efi.EFI_SUCCESS
              {| Hashes.squashfs_s_magic := Hashes.SQUASHFS_MAGIC;
                 Hashes.bytes_used := 10000 |}
              eq_refl eq_refl eq_refl ltac:(cbn; lia))
    as (H1 & _ & H3 & H4).
  assert (Ht : Hashes.spec_verity_tree_size 12288 = 4096).
  { unfold Hashes.spec_verity_tree_size.
    change (Hashes.ceil_div 12288 4096) with 3.
    rewrite spec_tree_blocks_unfold. reflexivity. }
  split; [exact H1 |]. split.
  - rewrite (H3 12288) by lia. rewrite Ht. reflexivity.
  - rewrite (H4 "system"%string 0 Efi.EFI_SUCCESS hashed_gparti
               Efi.EFI_SUCCESS 12288 Efi.EFI_SUCCESS);
      try reflexivity; rewrite ?Ht; lia.
Defined.

(* ------------------------------------------------------------------------- *)
(** ** security.c: green, yellow, red *)
(* ------------------------------------------------------------------------- *)

Section SecurityFacts.
Import Efi Security.

Variable ssl : openssl.
Variable kf : lib ssl.

(** [check_bootimage] has two answers only, so the test
    [ret != EFI_ACCESS_DENIED] of the caller never fires. *)
Lemma check_bootimage_status n bootimage imgsize sig cert :
  fst (check_bootimage ssl kf n bootimage imgsize sig cert) = EFI_SUCCESS \/
  fst (check_bootimage ssl kf n bootimage imgsize sig cert) = EFI_ACCESS_DENIED.
Proof.
  unfold check_bootimage.
  destruct (hash_bootimage ssl kf n sig bootimage imgsize) as [[[ret hash] sz] n'].
  destruct (EFI_ERROR ret); [right; reflexivity |].
  destruct (get_rsa_pubkey ssl cert) as [pkey |]; [| right; reflexivity].
  destruct (EVP_PKEY_get1_RSA ssl pkey) as [rsa |]; [| right; reflexivity].
  destruct (_ =? 1); [left | right]; reflexivity.
Qed.






End SecurityFacts.

(* ------------------------------------------------------------------------- *)
(** ** fastboot.c: replies *)
(* ------------------------------------------------------------------------- *)

Section FastbootFacts.
Import Efi Fastboot.
Open Scope string_scope.
Open Scope Z_scope.

Variable pf : platform.

Lemma frames_written_app t1 t2 :
  frames_written (t1 ++ t2) = (frames_written t1 ++ frames_written t2)%list.
Proof.
  induction t1 as [| e t1 IH]; [reflexivity |].
  destruct e; cbn; rewrite IH; reflexivity.
Qed.

Lemma flash_calls_app t1 t2 :
  flash_calls (t1 ++ t2) = (flash_calls t1 ++ flash_calls t2)%list.
Proof.
  induction t1 as [| e t1 IH]; [reflexivity |].
  destruct e; cbn; rewrite IH; reflexivity.
Qed.

(** A terminal reply outside STATE_TX goes straight to the transport. *)
Lemma fastboot_ack_trace code reason st :
  trace (fastboot_ack pf code reason st) =
    (trace st ++ [TransportWrite (fastboot_build_ack_msg code reason) MAGIC_LENGTH
                    (transport_write pf (trace st)
                       (fastboot_build_ack_msg code reason) MAGIC_LENGTH)])%list.
Proof.
  unfold fastboot_ack, do_transport_write.
  match goal with |- context [if ?c then _ else _] => destruct c end;
    reflexivity.
Qed.

Lemma fastboot_ack_buffered_trace code reason st :
  trace (fastboot_ack_buffered pf code reason st) =
    (trace st ++ [PoolAlloc sizeof_fastboot_tx_buffer
                    (AllocatePool pf (trace st) sizeof_fastboot_tx_buffer)])%list.
Proof.
  unfold fastboot_ack_buffered, do_AllocatePool.
  match goal with |- context [if ?c then _ else _] => destruct c end;
    reflexivity.
Qed.

(** Either way of replying leaves the flash engine alone. *)
Lemma fastboot_fail_flash_calls reason st :
  flash_calls (trace (fastboot_fail pf reason st)) = flash_calls (trace st).
Proof.
  unfold fastboot_fail. destruct (fastboot_states_eqb _ _).
  - rewrite fastboot_ack_buffered_trace, flash_calls_app. cbn.
    apply app_nil_r.
  - rewrite fastboot_ack_trace, flash_calls_app. cbn. apply app_nil_r.
Qed.

Lemma fastboot_states_eqb_eq a b : fastboot_states_eqb a b = true <-> a = b.
Proof. destruct a, b; cbn; split; intros H; congruence. Qed.

Lemma fastboot_states_eqb_neq a b : a <> b -> fastboot_states_eqb a b = false.
Proof.
  intros H. destruct (fastboot_states_eqb a b) eqn:E; [| reflexivity].
  apply fastboot_states_eqb_eq in E. contradiction.
Qed.

(** Outside STATE_TX, [fastboot_fail] and [fastboot_okay] put one frame on
    the wire: the code, then the reason. *)
Lemma fastboot_fail_frame reason st :
  fastboot_state st <> STATE_TX ->
  frames_written (trace (fastboot_fail pf reason st)) =
    (frames_written (trace st) ++ [fastboot_build_ack_msg "FAIL" reason])%list.
Proof.
  intros H. unfold fastboot_fail. rewrite (fastboot_states_eqb_neq _ _ H).
  rewrite fastboot_ack_trace, frames_written_app. reflexivity.
Qed.

Lemma fastboot_okay_frame reason st :
  fastboot_state st <> STATE_TX ->
  frames_written (trace (fastboot_okay pf reason st)) =
    (frames_written (trace st) ++ [fastboot_build_ack_msg "OKAY" reason])%list.
Proof.
  intros H. unfold fastboot_okay. rewrite (fastboot_states_eqb_neq _ _ H).
  rewrite fastboot_ack_trace, frames_written_app. reflexivity.
Qed.

(** In STATE_TX the reply is queued behind the frames already waiting. *)
Lemma fastboot_fail_queued reason st :
  fastboot_state st = STATE_TX ->
  AllocatePool pf (trace st) sizeof_fastboot_tx_buffer = true ->
  txbuf_head (fastboot_fail pf reason st) =
    (txbuf_head st ++ [fastboot_build_ack_msg "FAIL" reason])%list.
Proof.
  intros H Ha. unfold fastboot_fail, fastboot_ack_buffered, do_AllocatePool.
  rewrite H, Ha. reflexivity.
Qed.

(** *** The command registry *)

Lemma get_cmd_Some lst nm cmd :
  get_cmd lst nm = Some cmd -> In cmd lst /\ cmd_name cmd = nm.
Proof.
  induction lst as [| c lst IH]; cbn; [discriminate |].
  destruct (String.eqb nm (cmd_name c)) eqn:E.
  - intros H. injection H as <-. apply String.eqb_eq in E. auto.
  - intros H. destruct (IH H) as [H1 H2]. auto.
Qed.

Lemma get_cmd_None lst nm :
  get_cmd lst nm = None <-> (forall cmd, In cmd lst -> cmd_name cmd <> nm).
Proof.
  induction lst as [| c lst IH]; cbn.
  - split; [intros _ cmd [] | reflexivity].
  - destruct (String.eqb nm (cmd_name c)) eqn:E.
    + apply String.eqb_eq in E. split; [discriminate |].
      intros H. exfalso. apply (H c); auto.
    + apply String.eqb_neq in E. rewrite IH. split.
      * intros H cmd [<- | Hin]; [congruence | auto].
      * intros H cmd Hin. apply H. auto.
Qed.

(** C2: [fastboot_run_cmd] answers FAIL "unknown command" for a name that no
    registered command bears; for a registered command whose [min_state] is
    above the current lock state it answers FAIL "command not allowed in
    <state> state" whatever the handler is; otherwise the result is the
    handler's, called with [argc] and [argv]. *)
Theorem fastboot_run_cmd_dispatch lst nm argc argv st :
  ((forall cmd, In cmd lst -> cmd_name cmd <> nm) ->
   fastboot_run_cmd pf lst nm argc argv st
     = fastboot_fail pf "unknown command" st) /\
  (forall cmd, get_cmd lst nm = Some cmd ->
     In cmd lst /\ cmd_name cmd = nm /\
     (device_state_rank (get_current_state st) < device_state_rank (min_state cmd) ->
      fastboot_run_cmd pf lst nm argc argv st
        = fastboot_fail pf
            ("command not allowed in " ++ get_current_state_string st
             ++ " state") st) /\
     (device_state_rank (min_state cmd) <= device_state_rank (get_current_state st) ->
      fastboot_run_cmd pf lst nm argc argv st = handle cmd argc argv st)).
Proof.
  split.
  - intros H. apply get_cmd_None in H. unfold fastboot_run_cmd. rewrite H.
    reflexivity.
  - intros cmd H. destruct (get_cmd_Some _ _ _ H) as [Hin Hnm].
    unfold fastboot_run_cmd. rewrite H. repeat split; try assumption.
    + intros Hlt. apply Z.ltb_lt in Hlt. rewrite Hlt. reflexivity.
    + intros Hle. apply Z.ltb_ge in Hle. rewrite Hle. reflexivity.
Qed.

(** *** flash while locked *)

(** The whitelist holds the authorization label, and only with the
    bootloader policy compiled in. *)
Lemma flash_locked_whitelist_spec key :
  is_in_white_list key (flash_locked_whitelist pf) =
    BOOTLOADER_POLICY pf && String.eqb key (ACTION_AUTHORIZATION pf).
Proof.
  unfold flash_locked_whitelist. destruct (BOOTLOADER_POLICY pf); cbn.
  - destruct (String.eqb key (ACTION_AUTHORIZATION pf)); reflexivity.
  - reflexivity.
Qed.

(** C1: while the lock state is LOCKED, a flash command whose label is not
    whitelisted (the whitelist being the authorization label, under the
    bootloader policy only) is answered FAIL "Prohibited command in LOCKED
    state." and the flash engine is not called; with another number of
    arguments the answer is FAIL "Invalid parameter", the engine not being
    called either. *)
Theorem cmd_flash_locked_prohibited argc argv st :
  get_current_state st = LOCKED ->
  BOOTLOADER_POLICY pf = false \/ arg argv 1 <> ACTION_AUTHORIZATION pf ->
  (argc = 2 ->
   cmd_flash pf argc argv st
     = fastboot_fail pf "Prohibited command in LOCKED state." st) /\
  (argc <> 2 ->
   cmd_flash pf argc argv st = fastboot_fail pf "Invalid parameter" st) /\
  flash_calls (trace (cmd_flash pf argc argv st)) = flash_calls (trace st) /\
  (argc = 2 -> fastboot_state st <> STATE_TX ->
   frames_written (trace (cmd_flash pf argc argv st)) =
     (frames_written (trace st)
      ++ ["FAILProhibited command in LOCKED state."])%list).
Proof.
  intros Hlocked Hlabel.
  assert (Hwl : is_in_white_list (arg argv 1) (flash_locked_whitelist pf) = false).
  { rewrite flash_locked_whitelist_spec. destruct Hlabel as [H | H].
    - rewrite H. reflexivity.
    - apply String.eqb_neq in H. rewrite H. apply andb_false_r. }
  assert (H2 : argc = 2 ->
               cmd_flash pf argc argv st
               = fastboot_fail pf "Prohibited command in LOCKED state." st).
  { intros ->. unfold cmd_flash, get_current_state_string.
    rewrite Hlocked, Hwl. reflexivity. }
  assert (Hn : argc <> 2 ->
               cmd_flash pf argc argv st = fastboot_fail pf "Invalid parameter" st).
  { intros H. unfold cmd_flash. apply Z.eqb_neq in H. rewrite H. reflexivity. }
  split; [exact H2 |]. split; [exact Hn |]. split.
  - destruct (Z.eq_dec argc 2) as [E | E].
    + rewrite (H2 E). apply fastboot_fail_flash_calls.
    + rewrite (Hn E). apply fastboot_fail_flash_calls.
  - intros E Htx. rewrite (H2 E). rewrite (fastboot_fail_frame _ _ Htx).
    reflexivity.
Qed.

(** *** getvar *)

(** C10: for [getvar:<name>] with a name other than "all", the reply is OKAY
    with an empty payload when no variable has that name, and also when the
    variable is dynamic and its getter returns NULL or a string of more than
    63 bytes. *)
Theorem cmd_getvar_unknown_okay_empty argv st :
  arg argv 1 <> "all" ->
  (fastboot_getvar (arg argv 1) st = None ->
   cmd_getvar pf 2 argv st = fastboot_okay pf "" st) /\
  (forall var getter,
     fastboot_getvar (arg argv 1) st = Some var ->
     get_value var = Some getter ->
     getter tt = None \/ (exists val, getter tt = Some val /\ 63 < strlena val) ->
     fastboot_var_value var = "" /\
     cmd_getvar pf 2 argv st = fastboot_okay pf "" st) /\
  (fastboot_state st <> STATE_TX ->
   frames_written (trace (fastboot_okay pf "" st)) =
     (frames_written (trace st) ++ ["OKAY"])%list).
Proof.
  intros Hall. apply String.eqb_neq in Hall.
  split; [| split].
  - intros Hnone. unfold cmd_getvar. cbn [Z.eqb negb Pos.eqb].
    rewrite Hall, Hnone. reflexivity.
  - intros var getter Hvar Hget Hbad.
    assert (Hval : fastboot_var_value var = "").
    { unfold fastboot_var_value. rewrite Hget.
      destruct Hbad as [-> | (val & -> & Hlen)]; [reflexivity |].
      assert (E : (MAX_VARIABLE_LENGTH <? strlena val + 1) = true).
      { apply Z.ltb_lt. unfold MAX_VARIABLE_LENGTH. lia. }
      rewrite E. reflexivity. }
    split; [exact Hval |].
    unfold cmd_getvar. cbn [Z.eqb negb Pos.eqb]. rewrite Hall, Hvar, Hval.
    reflexivity.
  - intros Htx. rewrite (fastboot_okay_frame _ _ Htx). reflexivity.
Qed.

(** *** download *)

Lemma hex_nibbles_length upper n v :
  String.length (hex_nibbles upper n v) = n.
Proof. induction n as [| n IH]; cbn; [reflexivity | now rewrite IH]. Qed.

Lemma substring_whole (s : string) (n : nat) :
  (String.length s <= n)%nat -> substring 0 n s = s.
Proof.
  revert n. induction s as [| c s IH]; intros n H.
  - destruct n; reflexivity.
  - destruct n as [| n]; cbn in H; [lia |]. cbn. rewrite IH by lia. reflexivity.
Qed.

(** The DATA reply is twelve characters and fits the frame uncut. *)
Lemma DATA_response v :
  truncate MAGIC_LENGTH ("DATA" ++ fmt_08x v) = "DATA" ++ fmt_08x v
  /\ strlena ("DATA" ++ fmt_08x v) = 12.
Proof.
  assert (L : String.length ("DATA" ++ fmt_08x v) = 12%nat).
  { cbn [append String.length]. unfold fmt_08x.
    rewrite hex_nibbles_length. reflexivity. }
  split.
  - unfold truncate. apply substring_whole. rewrite L. cbn. lia.
  - unfold strlena. rewrite L. reflexivity.
Qed.

Lemma answer_DATA_effect n st :
  dlsize (answer_DATA pf n st) = n
  /\ dlbuffer (answer_DATA pf n st) = dlbuffer st
  /\ bufsize (answer_DATA pf n st) = bufsize st
  /\ frames_written (trace (answer_DATA pf n st)) =
       (frames_written (trace st) ++ [("DATA" ++ fmt_08x n)%string])%list
  /\ (EFI_ERROR (transport_write pf (trace st) ("DATA" ++ fmt_08x n) 12) = false ->
      fastboot_state (answer_DATA pf n st) = STATE_START_DOWNLOAD)
  /\ trace (answer_DATA pf n st) =
       (trace st ++ [TransportWrite ("DATA" ++ fmt_08x n)%string 12
                       (transport_write pf (trace st) ("DATA" ++ fmt_08x n) 12)])%list.
Proof.
  unfold answer_DATA, do_transport_write. cbn [trace set_fastboot_state set_dlsize].
  destruct (EFI_ERROR (transport_write pf (trace st) ("DATA" ++ fmt_08x n) 12)) eqn:E;
    cbn; rewrite frames_written_app; cbn; repeat split; congruence.
Qed.

(** Outside STATE_TX a FAIL is one frame on the wire and nothing else: the
    buffers and the queue are as they were. *)
Lemma fastboot_fail_written reason st :
  fastboot_state st <> STATE_TX ->
  let frame := fastboot_build_ack_msg "FAIL" reason in
  let st' := fastboot_fail pf reason st in
  trace st' =
    (trace st ++ [TransportWrite frame MAGIC_LENGTH
                    (transport_write pf (trace st) frame MAGIC_LENGTH)])%list
  /\ dlbuffer st' = dlbuffer st /\ dlsize st' = dlsize st
  /\ bufsize st' = bufsize st /\ txbuf_head st' = txbuf_head st.
Proof.
  intros H frame st'. subst frame st'. unfold fastboot_fail.
  rewrite (fastboot_states_eqb_neq _ _ H). unfold fastboot_ack, do_transport_write.
  match goal with |- context [if ?c then _ else _] => destruct c end;
    repeat split.
Qed.

(** In STATE_TX, with a queue node at hand, a FAIL is queued and nothing
    goes to the wire. *)
Lemma fastboot_fail_buffered reason st :
  fastboot_state st = STATE_TX ->
  AllocatePool pf (trace st) sizeof_fastboot_tx_buffer = true ->
  let st' := fastboot_fail pf reason st in
  txbuf_head st' = (txbuf_head st ++ [fastboot_build_ack_msg "FAIL" reason])%list
  /\ frames_written (trace st') = frames_written (trace st)
  /\ dlbuffer st' = dlbuffer st /\ dlsize st' = dlsize st
  /\ bufsize st' = bufsize st.
Proof.
  intros H Ha st'. subst st'.
  unfold fastboot_fail, fastboot_ack_buffered, do_AllocatePool.
  rewrite H, Ha. cbn. rewrite frames_written_app. cbn. rewrite app_nil_r.
  repeat split.
Qed.

(** C5: for [download:<hex-size>] with the parsed size n (the cap
    MAX_DOWNLOAD_SIZE fitting the 32 bits of [dlsize]), in terms of what
    reaches the transport, the pool and the reply queue:
    - n = 0 and n > MAX_DOWNLOAD_SIZE are answered by the one frame FAIL "no
      data to download" or FAIL "data too large", written to the transport
      outside STATE_TX and queued in STATE_TX (a queue node being
      granted); nothing is freed and the buffer and its sizes stay as they
      are;
    - with n within the capacity [bufsize], nothing is freed or allocated:
      the DATA frame is all the trace gains, and the buffer stays;
    - with n above it the old buffer, if there is one, is freed and n bytes
      are asked for; if that fails the one frame FAIL "Memory allocation
      failure" follows (written, or queued in STATE_TX), and [dlbuffer] is
      NULL with [dlsize] and [bufsize] 0; if it succeeds the capacity is n;
    - in both accepted cases [dlsize] is n, the capacity is the larger of
      the old capacity and n, the device writes DATA followed by n as
      eight hex digits, and is in STATE_START_DOWNLOAD once the transport
      has taken that frame. *)
Theorem cmd_download_behaviour argv st :
  let n := strtoul pf (arg argv 1) 16 in
  let st' := cmd_download pf 2 argv st in
  let freed := match dlbuffer st with Some _ => [PoolFree] | None => [] end in
  let sent (frame : string) (len : Z) (before : list event) :=
    TransportWrite frame len (transport_write pf before frame len) in
  0 <= n ->
  0 <= MAX_DOWNLOAD_SIZE pf < 2 ^ 32 ->
  (n = 0 -> fastboot_state st <> STATE_TX ->
   trace st' = (trace st ++ [sent "FAILno data to download" 64 (trace st)])%list
   /\ frames_written (trace st') =
        (frames_written (trace st) ++ ["FAILno data to download"])%list
   /\ dlbuffer st' = dlbuffer st /\ dlsize st' = dlsize st
   /\ bufsize st' = bufsize st) /\
  (MAX_DOWNLOAD_SIZE pf < n -> fastboot_state st <> STATE_TX ->
   trace st' = (trace st ++ [sent "FAILdata too large" 64 (trace st)])%list
   /\ frames_written (trace st') =
        (frames_written (trace st) ++ ["FAILdata too large"])%list
   /\ dlbuffer st' = dlbuffer st /\ dlsize st' = dlsize st
   /\ bufsize st' = bufsize st) /\
  (n = 0 \/ MAX_DOWNLOAD_SIZE pf < n -> fastboot_state st = STATE_TX ->
   AllocatePool pf (trace st) sizeof_fastboot_tx_buffer = true ->
   txbuf_head st' =
     (txbuf_head st
      ++ [if n =? 0 then "FAILno data to download" else "FAILdata too large"])%list
   /\ frames_written (trace st') = frames_written (trace st)
   /\ dlbuffer st' = dlbuffer st /\ dlsize st' = dlsize st
   /\ bufsize st' = bufsize st) /\
  (0 < n <= MAX_DOWNLOAD_SIZE pf -> n <= bufsize st ->
   trace st' = (trace st ++ [sent ("DATA" ++ fmt_08x n)%string 12 (trace st)])%list
   /\ frames_written (trace st') =
        (frames_written (trace st) ++ [("DATA" ++ fmt_08x n)%string])%list
   /\ dlbuffer st' = dlbuffer st /\ dlsize st' = n
   /\ bufsize st' = bufsize st /\ bufsize st' = Z.max (bufsize st) n
   /\ (EFI_ERROR (transport_write pf (trace st) ("DATA" ++ fmt_08x n) 12) = false ->
       fastboot_state st' = STATE_START_DOWNLOAD)) /\
  (0 < n <= MAX_DOWNLOAD_SIZE pf -> bufsize st < n ->
   AllocatePool pf (trace st ++ freed) n = false ->
   fastboot_state st <> STATE_TX ->
   let asked := (trace st ++ freed ++ [PoolAlloc n false])%list in
   trace st' = (asked ++ [sent "FAILMemory allocation failure" 64 asked])%list
   /\ frames_written (trace st') =
        (frames_written (trace st) ++ ["FAILMemory allocation failure"])%list
   /\ dlbuffer st' = None /\ dlsize st' = 0 /\ bufsize st' = 0) /\
  (0 < n <= MAX_DOWNLOAD_SIZE pf -> bufsize st < n ->
   AllocatePool pf (trace st ++ freed) n = false ->
   fastboot_state st = STATE_TX ->
   let asked := (trace st ++ freed ++ [PoolAlloc n false])%list in
   AllocatePool pf asked sizeof_fastboot_tx_buffer = true ->
   txbuf_head st' = (txbuf_head st ++ ["FAILMemory allocation failure"])%list
   /\ frames_written (trace st') = frames_written (trace st)
   /\ dlbuffer st' = None /\ dlsize st' = 0 /\ bufsize st' = 0) /\
  (0 < n <= MAX_DOWNLOAD_SIZE pf -> bufsize st < n ->
   AllocatePool pf (trace st ++ freed) n = true ->
   let asked := (trace st ++ freed ++ [PoolAlloc n true])%list in
   trace st' = (asked ++ [sent ("DATA" ++ fmt_08x n)%string 12 asked])%list
   /\ frames_written (trace st') =
        (frames_written (trace st) ++ [("DATA" ++ fmt_08x n)%string])%list
   /\ dlbuffer st' = Some n /\ dlsize st' = n
   /\ bufsize st' = n /\ bufsize st' = Z.max (bufsize st) n
   /\ (EFI_ERROR (transport_write pf asked ("DATA" ++ fmt_08x n) 12) = false ->
       fastboot_state st' = STATE_START_DOWNLOAD)).
Proof.
  intros n st' freed sent Hn Hcap.
  assert (Hfreed : trace (after_free st) = (trace st ++ freed)%list
                   /\ fastboot_state (after_free st) = fastboot_state st
                   /\ txbuf_head (after_free st) = txbuf_head st
                   /\ bufsize (after_free st) = bufsize st).
  { unfold after_free, freed, do_FreePool. destruct (dlbuffer st); cbn;
      rewrite ?app_nil_r; repeat split. }
  destruct Hfreed as (Ft & Fs & Fq & Fb).
  assert (Hzero : n = 0 ->
    st' = fastboot_fail pf "no data to download" st).
  { intros E. unfold st', cmd_download. fold n. rewrite E. reflexivity. }
  assert (Hbig : MAX_DOWNLOAD_SIZE pf < n ->
    st' = fastboot_fail pf "data too large" st).
  { intros E. unfold st', cmd_download. fold n.
    assert (E0 : (n =? 0) = false) by (apply Z.eqb_neq; lia).
    apply Z.ltb_lt in E. rewrite E0, E. reflexivity. }
  assert (Hkeep : 0 < n <= MAX_DOWNLOAD_SIZE pf -> n <= bufsize st ->
    st' = answer_DATA pf n st).
  { intros Hr Hb. unfold st', cmd_download. fold n.
    assert (E0 : (n =? 0) = false) by (apply Z.eqb_neq; lia).
    assert (E1 : (MAX_DOWNLOAD_SIZE pf <? n) = false) by (apply Z.ltb_ge; lia).
    assert (E2 : (bufsize st <? n) = false) by (apply Z.ltb_ge; lia).
    rewrite E0, E1, E2. cbn [negb dlsize set_dlsize].
    rewrite (u32_small n) by lia.
    destruct (DATA_response n) as [-> ->]. reflexivity. }
  assert (Hgrow : 0 < n <= MAX_DOWNLOAD_SIZE pf -> bufsize st < n ->
    AllocatePool pf (trace st ++ freed) n = true ->
    st' = answer_DATA pf n (set_bufsize n (set_dlbuffer (Some n)
                       (log (PoolAlloc n true) (after_free st))))).
  { intros Hr Hb Ha. unfold st', cmd_download. fold n.
    assert (E0 : (n =? 0) = false) by (apply Z.eqb_neq; lia).
    assert (E1 : (MAX_DOWNLOAD_SIZE pf <? n) = false) by (apply Z.ltb_ge; lia).
    assert (E2 : (bufsize st <? n) = true) by (apply Z.ltb_lt; lia).
    rewrite E0, E1, E2. fold (after_free st). unfold do_AllocatePool.
    rewrite Ft, Ha. cbn [negb dlsize set_dlsize].
    rewrite (u32_small n) by lia.
    destruct (DATA_response n) as [-> ->]. reflexivity. }
  assert (Hstarve : 0 < n <= MAX_DOWNLOAD_SIZE pf -> bufsize st < n ->
    AllocatePool pf (trace st ++ freed) n = false ->
    st' = set_dlsize 0 (set_bufsize 0
            (fastboot_fail pf "Memory allocation failure"
               (set_dlbuffer None (log (PoolAlloc n false) (after_free st)))))).
  { intros Hr Hb Ha. unfold st', cmd_download. fold n.
    assert (E0 : (n =? 0) = false) by (apply Z.eqb_neq; lia).
    assert (E1 : (MAX_DOWNLOAD_SIZE pf <? n) = false) by (apply Z.ltb_ge; lia).
    assert (E2 : (bufsize st <? n) = true) by (apply Z.ltb_lt; lia).
    rewrite E0, E1, E2. fold (after_free st). unfold do_AllocatePool.
    rewrite Ft, Ha. reflexivity. }
  split; [| split; [| split; [| split; [| split; [| split]]]]].
  - intros E Hst. rewrite (Hzero E).
    destruct (fastboot_fail_written "no data to download" st Hst)
      as (T & B & D & C & _).
    rewrite T, B, D, C, frames_written_app. repeat split.
  - intros E Hst. rewrite (Hbig E).
    destruct (fastboot_fail_written "data too large" st Hst)
      as (T & B & D & C & _).
    rewrite T, B, D, C, frames_written_app. repeat split.
  - intros E Hst Ha. destruct E as [E | E].
    + rewrite (Hzero E), E.
      destruct (fastboot_fail_buffered "no data to download" st Hst Ha)
        as (Q & T & B & D & C).
      rewrite Q, T, B, D, C. repeat split.
    + rewrite (Hbig E).
      assert (E0 : (n =? 0) = false) by (apply Z.eqb_neq; lia). rewrite E0.
      destruct (fastboot_fail_buffered "data too large" st Hst Ha)
        as (Q & T & B & D & C).
      rewrite Q, T, B, D, C. repeat split.
  - intros Hr Hb. rewrite (Hkeep Hr Hb).
    destruct (answer_DATA_effect n st) as (D & B & C & F & S & T).
    rewrite F, T, B, D, C. repeat split; [lia | exact S].
  - intros Hr Hb Ha Hst asked. rewrite (Hstarve Hr Hb Ha).
    cbn [trace dlbuffer dlsize bufsize set_dlsize set_bufsize].
    set (st1 := set_dlbuffer None (log (PoolAlloc n false) (after_free st))).
    assert (T1 : trace st1 = asked).
    { unfold st1, asked. cbn. rewrite Ft, <- app_assoc. reflexivity. }
    assert (S1 : fastboot_state st1 <> STATE_TX) by (unfold st1; cbn; rewrite Fs; exact Hst).
    destruct (fastboot_fail_written "Memory allocation failure" st1 S1)
      as (T & B & _).
    rewrite T, B, T1, !frames_written_app.
    assert (Fa : frames_written asked = frames_written (trace st)).
    { unfold asked, freed. rewrite !frames_written_app.
      destruct (dlbuffer st); cbn; rewrite app_nil_r; reflexivity. }
    rewrite Fa. repeat split.
  - intros Hr Hb Ha Hst asked Hq. rewrite (Hstarve Hr Hb Ha).
    cbn [trace txbuf_head dlbuffer dlsize bufsize set_dlsize set_bufsize].
    set (st1 := set_dlbuffer None (log (PoolAlloc n false) (after_free st))).
    assert (T1 : trace st1 = asked).
    { unfold st1, asked. cbn. rewrite Ft, <- app_assoc. reflexivity. }
    assert (S1 : fastboot_state st1 = STATE_TX) by (unfold st1; cbn; rewrite Fs; exact Hst).
    assert (Q1 : txbuf_head st1 = txbuf_head st) by (unfold st1; cbn; exact Fq).
    rewrite <- T1 in Hq.
    destruct (fastboot_fail_buffered "Memory allocation failure" st1 S1 Hq)
      as (Q & T & B & _).
    rewrite Q, T, B, Q1, T1.
    assert (Fa : frames_written asked = frames_written (trace st)).
    { unfold asked, freed. rewrite !frames_written_app.
      destruct (dlbuffer st); cbn; rewrite app_nil_r; reflexivity. }
    rewrite Fa. repeat split.
  - intros Hr Hb Ha asked. rewrite (Hgrow Hr Hb Ha).
    set (st1 := set_bufsize n (set_dlbuffer (Some n)
                  (log (PoolAlloc n true) (after_free st)))).
    assert (T1 : trace st1 = asked).
    { unfold st1, asked. cbn. rewrite Ft, <- app_assoc. reflexivity. }
    destruct (answer_DATA_effect n st1) as (D & B & C & F & S & T).
    rewrite F, T, B, D, C, T1.
    assert (Fa : frames_written asked = frames_written (trace st)).
    { unfold asked, freed. rewrite !frames_written_app.
      destruct (dlbuffer st); cbn; rewrite app_nil_r; reflexivity. }
    rewrite Fa. rewrite T1 in S.
    repeat split; [unfold st1; cbn [bufsize set_bufsize]; lia | exact S].
Qed.

(** *** The variable list *)

Lemma find_named_Some nm l var :
  find (named nm) l = Some var -> In var l /\ name var = nm.
Proof.
  intros H. apply find_some in H. destruct H as [H1 H2].
  apply String.eqb_eq in H2. auto.
Qed.

Lemma find_named_None nm l :
  find (named nm) l = None <-> ~ In nm (map name l).
Proof.
  induction l as [| v l IH]; cbn.
  - tauto.
  - unfold named at 1. destruct (String.eqb nm (name v)) eqn:E.
    + apply String.eqb_eq in E. split; [discriminate | intros H; exfalso; auto].
    + apply String.eqb_neq in E. rewrite IH. split.
      * intros H [H' | H']; [congruence | auto].
      * intros H H'. apply H. auto.
Qed.

Lemma store_var_names nm f l :
  (forall var, name (f var) = name var) ->
  map name (store_var nm f l) = map name l.
Proof.
  intros Hf. induction l as [| v l IH]; cbn; [reflexivity |].
  destruct (String.eqb nm (name v)); cbn; [rewrite Hf | rewrite IH]; reflexivity.
Qed.

Lemma store_var_length nm f l :
  List.length (store_var nm f l) = List.length l.
Proof.
  induction l as [| v l IH]; cbn; [reflexivity |].
  destruct (String.eqb nm (name v)); cbn; [| rewrite IH]; reflexivity.
Qed.

Lemma find_store_var_same nm f l var :
  (forall var, name (f var) = name var) ->
  find (named nm) l = Some var ->
  find (named nm) (store_var nm f l) = Some (f var).
Proof.
  intros Hf. induction l as [| v l IH]; cbn; [discriminate |].
  unfold named at 1. destruct (String.eqb nm (name v)) eqn:E.
  - intros H. injection H as <-. cbn. unfold named. rewrite Hf, E. reflexivity.
  - intros H. cbn. unfold named at 1. rewrite E. auto.
Qed.

Lemma find_store_var_other nm nm' f l :
  (forall var, name (f var) = name var) -> nm' <> nm ->
  find (named nm') (store_var nm f l) = find (named nm') l.
Proof.
  intros Hf Hne. induction l as [| v l IH]; cbn; [reflexivity |].
  destruct (String.eqb nm (name v)) eqn:E; cbn.
  - unfold named. rewrite Hf. apply String.eqb_eq in E.
    assert (E' : String.eqb nm' (name v) = false)
      by (apply String.eqb_neq; congruence).
    rewrite E'. reflexivity.
  - rewrite IH. reflexivity.
Qed.

(** [memcmp] of a NUL-free literal against the array of a name is the
    prefix test on the name. *)
Lemma memcmp_equal_prefix (p s : string) (k : nat) :
  (forall c, In c (list_ascii_of_string p) -> c <> zero) ->
  memcmp_equal (list_ascii_of_string p)
               (list_ascii_of_string s ++ repeat zero k) (String.length p)
  = String.prefix p s.
Proof.
  revert s k. induction p as [| c p IH]; intros s k Hp.
  - destruct s; reflexivity.
  - assert (Hc : c <> zero) by (apply Hp; left; reflexivity).
    assert (Hp' : forall c', In c' (list_ascii_of_string p) -> c' <> zero)
      by (intros c' H; apply Hp; right; exact H).
    destruct s as [| d s]; cbn.
    + destruct k; cbn; [reflexivity |].
      apply Ascii.eqb_neq in Hc. rewrite Hc. reflexivity.
    + destruct (ascii_dec c d) as [-> | Hne].
      * rewrite Ascii.eqb_refl. cbn. apply IH. exact Hp'.
      * apply Ascii.eqb_neq in Hne. rewrite Hne. reflexivity.
Qed.

Lemma is_partition_var_prefix var :
  is_partition_var var = String.prefix MATCH_PART (name var).
Proof.
  unfold is_partition_var, name_array. apply memcmp_equal_prefix.
  intros c H. cbn in H.
  repeat (destruct H as [<- | H]; [discriminate |]). destruct H.
Qed.

Lemma clean_partition_loop_varlist old st :
  varlist (clean_partition_loop old st) =
    (rev (filter kept old) ++ varlist st)%list.
Proof.
  revert st. induction old as [| v old IH]; intros st; [reflexivity |].
  cbn [clean_partition_loop filter]. unfold kept at 1.
  destruct (is_partition_var v); cbn [negb].
  - rewrite IH. reflexivity.
  - rewrite IH. cbn [rev]. rewrite <- app_assoc. reflexivity.
Qed.

Lemma clean_partition_var_varlist st :
  varlist (clean_partition_var st) = rev (filter kept (varlist st)).
Proof.
  unfold clean_partition_var. rewrite clean_partition_loop_varlist. cbn.
  apply app_nil_r.
Qed.

Lemma find_app_named nm l1 l2 :
  find (named nm) (l1 ++ l2) =
    match find (named nm) l1 with
    | Some var => Some var
    | None => find (named nm) l2
    end.
Proof.
  induction l1 as [| v l1 IH]; cbn; [reflexivity |].
  destruct (named nm v); [reflexivity | exact IH].
Qed.

(** With unique names the order of the list does not show in a lookup. *)
Lemma find_named_rev nm l :
  NoDup (map name l) -> find (named nm) (rev l) = find (named nm) l.
Proof.
  induction l as [| v l IH]; cbn; [reflexivity |].
  intros H. inversion H as [| ? ? Hnotin Hnd]; subst.
  rewrite find_app_named, (IH Hnd). cbn [find].
  destruct (named nm v) eqn:E.
  - apply String.eqb_eq in E. subst nm.
    apply find_named_None in Hnotin. rewrite Hnotin. reflexivity.
  - destruct (find (named nm) l); reflexivity.
Qed.

Lemma find_named_filter_kept nm l :
  find (named nm) (filter kept l) =
    if String.prefix MATCH_PART nm then None else find (named nm) l.
Proof.
  induction l as [| v l IH]; cbn [filter find].
  - destruct (String.prefix MATCH_PART nm); reflexivity.
  - unfold kept at 1. rewrite is_partition_var_prefix.
    destruct (named nm v) eqn:E.
    + pose proof E as E'. unfold named in E'. apply String.eqb_eq in E'.
      subst nm.
      destruct (String.prefix MATCH_PART (name v)) eqn:P; cbn [negb].
      * exact IH.
      * cbn [find]. rewrite E. reflexivity.
    + destruct (String.prefix MATCH_PART (name v)); cbn [negb].
      * exact IH.
      * cbn [find]. rewrite E. exact IH.
Qed.

Lemma NoDup_map_filter (l : list fastboot_var) (q : fastboot_var -> bool) :
  NoDup (map name l) -> NoDup (map name (filter q l)).
Proof.
  induction l as [| v l IH]; cbn; [auto |].
  intros H. inversion H as [| ? ? Hnotin Hnd]; subst.
  destruct (q v); cbn; [| auto].
  constructor; [| auto].
  intros Hin. apply Hnotin. apply in_map_iff in Hin.
  destruct Hin as (x & Hx & Hf). apply filter_In in Hf.
  apply in_map_iff. exists x. tauto.
Qed.

(** C7: republishing a name that is present stores the new value in the
    node that is there: the lookup of the name returns that node with the
    latest value, no node is added, and the other names are untouched.
    [clean_partition_var] leaves exactly the nodes whose name does not start
    with "partition-": a lookup of a name with the prefix finds nothing, a
    lookup of any other name finds what it found before. *)
Theorem publish_overwrites_and_clean_is_exact st :
  varlist_ok (varlist st) ->
  (forall nm val v0,
     fastboot_getvar nm st = Some v0 ->
     strlena val < MAX_VARIABLE_LENGTH ->
     let st' := snd (fastboot_publish pf nm val st) in
     fst (fastboot_publish pf nm val st) = EFI_SUCCESS
     /\ fastboot_getvar nm st'
        = Some {| name := nm; value := val; get_value := get_value v0 |}
     /\ List.length (varlist st') = List.length (varlist st)
     /\ map name (varlist st') = map name (varlist st)
     /\ (forall nm', nm' <> nm -> fastboot_getvar nm' st' = fastboot_getvar nm' st)) /\
  (forall nm,
     fastboot_getvar nm (clean_partition_var st) =
       if String.prefix "partition-" nm then None else fastboot_getvar nm st) /\
  (forall var,
     In var (varlist (clean_partition_var st)) <->
     In var (varlist st) /\ String.prefix "partition-" (name var) = false) /\
  varlist_ok (varlist (clean_partition_var st)).
Proof.
  intros [Hnd Hlen]. split; [| split; [| split]].
  - intros nm val v0 Hget Hval st'.
    destruct (find_named_Some _ _ _ Hget) as [Hin Hname].
    assert (Hnm : strlena nm < MAX_VARIABLE_LENGTH).
    { rewrite Forall_forall in Hlen. rewrite <- Hname. apply Hlen. exact Hin. }
    assert (Hpub : fastboot_publish pf nm val st =
                   (EFI_SUCCESS,
                    set_varlist
                      (store_var nm
                         (fun var => {| name := name var; value := val;
                                        get_value := get_value var |})
                         (varlist st)) st)).
    { unfold fastboot_publish, fastboot_getvar_or_create.
      assert (E1 : (MAX_VARIABLE_LENGTH <? strlena val + 1) = false)
        by (apply Z.ltb_ge; lia).
      assert (E2 : (MAX_VARIABLE_LENGTH <? strlena nm + 1) = false)
        by (apply Z.ltb_ge; lia).
      rewrite E1, E2, Hget. reflexivity. }
    unfold st'. rewrite Hpub. cbn [fst snd].
    unfold fastboot_getvar. cbn [varlist set_varlist].
    fold (named nm). repeat split.
    + rewrite (find_store_var_same nm _ _ v0); [| reflexivity | exact Hget].
      cbn. rewrite Hname. reflexivity.
    + apply store_var_length.
    + apply store_var_names. reflexivity.
    + intros nm' Hne. apply (find_store_var_other nm nm'); [reflexivity | exact Hne].
  - intros nm. unfold fastboot_getvar. rewrite clean_partition_var_varlist.
    fold (named nm). rewrite find_named_rev by (apply NoDup_map_filter; exact Hnd).
    apply find_named_filter_kept.
  - intros var. rewrite clean_partition_var_varlist, <- in_rev, filter_In.
    unfold kept. rewrite is_partition_var_prefix, negb_true_iff. reflexivity.
  - rewrite clean_partition_var_varlist. split.
    + rewrite map_rev. apply NoDup_rev. apply NoDup_map_filter. exact Hnd.
    + rewrite Forall_forall in *. intros var Hin. apply in_rev in Hin.
      apply filter_In in Hin. apply Hlen. tauto.
Qed.

(** Publishing keeps the invariant. *)
Lemma fastboot_publish_keeps_ok nm val st :
  varlist_ok (varlist st) ->
  varlist_ok (varlist (snd (fastboot_publish pf nm val st))).
Proof.
  intros [Hnd Hlen]. unfold fastboot_publish.
  destruct (MAX_VARIABLE_LENGTH <? strlena val + 1); [split; assumption |].
  unfold fastboot_getvar_or_create.
  destruct (MAX_VARIABLE_LENGTH <? strlena nm + 1) eqn:E; [split; assumption |].
  apply Z.ltb_ge in E.
  destruct (fastboot_getvar nm st) as [v0 |] eqn:Hget.
  - cbn. split.
    + rewrite store_var_names by reflexivity. exact Hnd.
    + rewrite Forall_forall in *. intros var Hin.
      assert (Hn : In (name var) (map name (varlist st))).
      { rewrite <- (store_var_names nm
                      (fun var => {| name := name var; value := val;
                                     get_value := get_value var |}))
          by reflexivity.
        apply in_map. exact Hin. }
      apply in_map_iff in Hn. destruct Hn as (x & <- & Hx). apply Hlen. exact Hx.
  - unfold do_AllocatePool.
    destruct (AllocatePool pf (trace st) sizeof_fastboot_var); cbn.
    + rewrite String.eqb_refl. split.
      * constructor; [| exact Hnd]. apply find_named_None. exact Hget.
      * constructor; [cbn; lia | exact Hlen].
    + split; assumption.
Qed.

(** *** The command line *)

Lemma get_command_buffer_argv_state argc0 max_argc st :
  snd (get_command_buffer_argv argc0 max_argc st) =
    set_command_buffer (buffer_after_strtok ": " (command_buffer st)) st.
Proof.
  unfold get_command_buffer_argv.
  destruct (strtok_r ": " (command_buffer st)) as [[argv0 |] saveptr];
    [| reflexivity].
  destruct (argv_loop _ _ _ _ _) as [[[token argc] argv] saveptr'].
  destruct token; [destruct (fst (strtok_r " " saveptr')) |]; reflexivity.
Qed.

(** The loop either runs out of tokens, the last one NULL, or takes its [n]
    tokens and leaves the rest of the line at [saveptr]. *)
Lemma argv_loop_after_tokens n :
  forall token argc argv saveptr,
    match after_tokens n saveptr with
    | None =>
        exists argc' argv' saveptr',
          argv_loop n token argc argv saveptr = (None, argc', argv', saveptr')
    | Some rest =>
        exists token' argv',
          argv_loop n token argc argv saveptr
            = (token', argc + Z.of_nat n, argv', rest)
          /\ (n <> O -> token' <> None) /\ (n = O -> token' = token)
    end.
Proof.
  induction n as [| n IH]; intros token argc argv saveptr.
  - cbn. exists token, argv. rewrite Z.add_0_r. repeat split. congruence.
  - cbn [after_tokens argv_loop].
    destruct (strtok_r " " saveptr) as [[tok |] saveptr1].
    + specialize (IH (Some tok) (argc + 1) (argv ++ [tok])%list saveptr1).
      destruct (after_tokens n saveptr1) as [rest |].
      * destruct IH as (token' & argv' & Heq & Hn & H0).
        exists token', argv'. rewrite Heq. repeat split.
        -- f_equal. f_equal. f_equal. lia.
        -- intros _. destruct n; [rewrite H0 by reflexivity; discriminate |].
           apply Hn. discriminate.
        -- discriminate.
      * exact IH.
    + do 3 eexists. reflexivity.
Qed.

Lemma after_tokens_snoc n :
  forall saveptr,
    after_tokens (S n) saveptr =
      match after_tokens n saveptr with
      | None => None
      | Some rest =>
          match strtok_r " " rest with
          | (None, _) => None
          | (Some _, rest') => Some rest'
          end
      end.
Proof.
  induction n as [| n IH]; intros saveptr.
  - cbn. destruct (strtok_r " " saveptr) as [[tok |] rest]; reflexivity.
  - change (after_tokens (S (S n)) saveptr) with
      (match strtok_r " " saveptr with
       | (None, _) => None
       | (Some _, saveptr') => after_tokens (S n) saveptr'
       end).
    change (after_tokens (S n) saveptr) with
      (match strtok_r " " saveptr with
       | (None, _) => None
       | (Some _, saveptr') => after_tokens n saveptr'
       end).
    destruct (strtok_r " " saveptr) as [[tok |] saveptr1]; [| reflexivity].
    apply IH.
Qed.

(** The split is refused exactly when the line has no first token, or has a
    seventeenth: sixteen more behind the command name. *)
Lemma get_command_buffer_argv_refusal argc0 st :
  fst (fst (fst (get_command_buffer_argv argc0 MAX_ARGS st)))
    = EFI_INVALID_PARAMETER <->
  match strtok_r ": " (command_buffer st) with
  | (None, _) => True
  | (Some _, saveptr) => after_tokens 16 saveptr <> None
  end.
Proof.
  unfold get_command_buffer_argv.
  destruct (strtok_r ": " (command_buffer st)) as [[argv0 |] saveptr].
  - pose proof (argv_loop_after_tokens 15 None 1 [argv0] saveptr) as H.
    change (Z.to_nat (MAX_ARGS - 1)) with 15%nat.
    rewrite (after_tokens_snoc 15 saveptr).
    destruct (after_tokens 15 saveptr) as [rest |].
    + destruct H as (token' & argv' & -> & Hn & _).
      destruct token' as [tok |]; [| exfalso; apply Hn; [discriminate | reflexivity]].
      destruct (strtok_r " " rest) as [[tok' |] rest']; cbn.
      * split; [discriminate | reflexivity].
      * split; [discriminate | intros H; contradiction H; reflexivity].
    + destruct H as (argc' & argv' & saveptr' & ->). cbn.
      split; [discriminate | intros H; contradiction H; reflexivity].
  - cbn. tauto.
Qed.

(** A command line that does not split is dropped without a word: no frame
    is written or queued, and the session stays in STATE_COMMAND, the
    buffer cut behind the first token. *)
Lemma fastboot_run_command_parse_error_silent cmdlist argc0 st :
  fastboot_state st = STATE_COMMAND ->
  EFI_ERROR (fst (fst (fst (get_command_buffer_argv argc0 MAX_ARGS st)))) = true ->
  fastboot_run_command pf cmdlist argc0 st =
    Some (set_command_buffer (buffer_after_strtok ": " (command_buffer st)) st).
Proof.
  intros Hst Herr. unfold fastboot_run_command. rewrite Hst. cbn [fastboot_states_eqb negb].
  pose proof (get_command_buffer_argv_state argc0 MAX_ARGS st) as Hs.
  destruct (get_command_buffer_argv argc0 MAX_ARGS st) as [[[ret argc] argv] st'].
  cbn [fst snd] in *. rewrite Herr, Hs. reflexivity.
Qed.

End FastbootFacts.

(* ------------------------------------------------------------------------- *)
(** ** fastboot.c on a concrete device *)
(* ------------------------------------------------------------------------- *)

Section FastbootExamples.
Import Efi Fastboot.
Open Scope string_scope.
Open Scope Z_scope.

(** C6 (as the code behaves): a line of seventeen tokens makes
    [get_command_buffer_argv] return EFI_INVALID_PARAMETER, and
    [fastboot_run_command] then returns without a reply: nothing is written
    to the transport, nothing is queued, the state is still STATE_COMMAND and
    the buffer reads "reboot".  The next round of the main loop runs that
    remainder as a command of its own and answers OKAY.  No FAIL is sent. *)
Theorem overlong_command_gets_no_FAIL :
  let st := session LOCKED overlong_line in
  fst (fst (fst (get_command_buffer_argv 0 MAX_ARGS st))) = EFI_INVALID_PARAMETER
  /\ exists st1,
       fastboot_run_command granting_platform root_cmdlist 0 st = Some st1
       /\ trace st1 = [] /\ txbuf_head st1 = []
       /\ fastboot_state st1 = STATE_COMMAND
       /\ command_buffer st1 = "reboot"
       /\ exists st2,
            fastboot_run_command granting_platform root_cmdlist 0 st1 = Some st2
            /\ frames_written (trace st2) = ["OKAY"]
            /\ fastboot_target st2 = NORMAL_BOOT
            /\ fastboot_state st2 = STATE_STOPPING.
Proof.
  cbv zeta. split; [vm_compute; reflexivity |].
  eexists. split; [vm_compute; reflexivity |].
  repeat (split; [reflexivity |]).
  eexists. split; [vm_compute; reflexivity |].
  repeat split.
Qed.

(** [flash:boot] while locked: one FAIL frame, the engine untouched. *)
Lemma cmd_flash_locked_prohibited_witness :
  let st := session LOCKED "flash:boot" in
  frames_written (trace (cmd_flash granting_platform 2 ["flash"; "boot"] st))
    = ["FAILProhibited command in LOCKED state."]
  /\ flash_calls (trace (cmd_flash granting_platform 2 ["flash"; "boot"] st)) = [].
Proof.
  cbv zeta.
  assert (Hlabel : BOOTLOADER_POLICY granting_platform = false \/
                   arg ["flash"; "boot"] 1 <> ACTION_AUTHORIZATION granting_platform).
  { right. intros H. discriminate H. }
  destruct (cmd_flash_locked_prohibited granting_platform 2 ["flash"; "boot"]
              (session LOCKED "flash:boot") eq_refl Hlabel)
    as (_ & _ & H3 & H4).
  split.
  - rewrite H4; [reflexivity | reflexivity | intros H; discriminate H].
  - rewrite H3. reflexivity.
Defined.

(** [erase] needs UNLOCKED, [getvar] does not; [format] is not registered. *)
Lemma fastboot_run_cmd_dispatch_witness :
  let st := session LOCKED "erase:boot" in
  frames_written (trace (fastboot_run_cmd granting_platform root_cmdlist "erase"
                           2 ["erase"; "boot"] st))
    = ["FAILcommand not allowed in LOCKED state"]
  /\ fastboot_run_cmd granting_platform root_cmdlist "getvar" 2
       ["getvar"; "product"] st
     = cmd_getvar granting_platform 2 ["getvar"; "product"] st
  /\ frames_written (trace (fastboot_run_cmd granting_platform root_cmdlist
                              "format" 2 ["format"; "boot"] st))
     = ["FAILunknown command"].
Proof.
  cbv zeta.
  pose (st := session LOCKED "erase:boot").
  destruct (fastboot_run_cmd_dispatch granting_platform root_cmdlist "erase" 2
              ["erase"; "boot"] st) as [_ He].
  destruct (fastboot_run_cmd_dispatch granting_platform root_cmdlist "getvar" 2
              ["getvar"; "product"] st) as [_ Hg].
  destruct (fastboot_run_cmd_dispatch granting_platform root_cmdlist "format" 2
              ["format"; "boot"] st) as [Hf _].
  destruct (He _ eq_refl) as (_ & _ & He' & _).
  destruct (Hg _ eq_refl) as (_ & _ & _ & Hg').
  split; [| split].
  - fold st. rewrite He' by (cbn; lia). reflexivity.
  - fold st. rewrite Hg' by (cbn; lia). reflexivity.
  - fold st. rewrite Hf; [reflexivity |].
    intros cmd Hin. cbn in Hin.
    repeat (destruct Hin as [<- | Hin]; [intros H; discriminate H |]).
    destruct Hin.
Defined.

(** On the sample session with its 4096-byte buffer: [download:00001000]
    fits, [download:0] and [download:20000000] are refused, and
    [download:00002000] frees the buffer and asks for a larger one, on the
    device short of memory and on the one that grants it. *)
Lemma cmd_download_behaviour_witness :
  let st := session LOCKED "download" in
  let run pf size := cmd_download pf 2 ["download"; size] st in
  trace (run granting_platform "00001000")
    = [TransportWrite "DATA00001000" 12 EFI_SUCCESS]
  /\ bufsize (run granting_platform "00001000") = 4096
  /\ frames_written (trace (run granting_platform "0"))
     = ["FAILno data to download"]
  /\ frames_written (trace (run granting_platform "20000000"))
     = ["FAILdata too large"]
  /\ trace (run starved_platform "00002000")
     = [PoolFree; PoolAlloc 8192 false;
        TransportWrite "FAILMemory allocation failure" 64 EFI_SUCCESS]
  /\ dlsize (run starved_platform "00002000") = 0
  /\ bufsize (run starved_platform "00002000") = 0
  /\ trace (run granting_platform "00002000")
     = [PoolFree; PoolAlloc 8192 true; TransportWrite "DATA00002000" 12 EFI_SUCCESS]
  /\ bufsize (run granting_platform "00002000") = 8192
  /\ fastboot_state (run granting_platform "00002000") = STATE_START_DOWNLOAD.
Proof.
  cbv beta zeta.
  pose (st := session LOCKED "download").
  assert (Hcap : 0 <= 0x10000000 < 2 ^ 32) by lia.
  destruct (cmd_download_behaviour granting_platform ["download"; "00001000"] st
              ltac:(by_evaluation) Hcap)
    as (_ & _ & _ & Hkeep & _).
  destruct (cmd_download_behaviour granting_platform ["download"; "0"] st
              ltac:(by_evaluation) Hcap)
    as (Hzero & _).
  destruct (cmd_download_behaviour granting_platform ["download"; "20000000"] st
              ltac:(by_evaluation) Hcap)
    as (_ & Hbig & _).
  destruct (cmd_download_behaviour starved_platform ["download"; "00002000"] st
              ltac:(by_evaluation) Hcap)
    as (_ & _ & _ & _ & Hfail & _).
  destruct (cmd_download_behaviour granting_platform ["download"; "00002000"] st
              ltac:(by_evaluation) Hcap)
    as (_ & _ & _ & _ & _ & _ & Hgrow).
  destruct Hkeep as (K1 & _ & _ & _ & K5 & _); [by_evaluation | by_evaluation |].
  destruct Hzero as (_ & Z2 & _); [reflexivity | intros H; discriminate H |].
  destruct Hbig as (_ & B2 & _); [by_evaluation | intros H; discriminate H |].
  destruct Hfail as (F1 & _ & _ & F4 & F5);
    [by_evaluation | by_evaluation | reflexivity | intros H; discriminate H |].
  destruct Hgrow as (G1 & _ & _ & _ & G5 & _ & G7);
    [by_evaluation | by_evaluation | reflexivity |].
  fold st.
  rewrite K1, K5, Z2, B2, F1, F4, F5, G1, G5, G7 by reflexivity.
  repeat split.
Defined.

Lemma session_varlist_ok lock line : varlist_ok (varlist (session lock line)).
Proof.
  split.
  - cbn. repeat constructor; cbn; intros H;
      repeat (destruct H as [H | H]; [discriminate H |]); exact H.
  - repeat constructor; cbn; lia.
Qed.

(** Republishing [product], then sweeping the partition variables. *)
Lemma publish_overwrites_and_clean_is_exact_witness :
  let st := session LOCKED "" in
  fastboot_getvar "product" (snd (fastboot_publish granting_platform "product" "blade" st))
    = Some {| name := "product"; value := "blade"; get_value := None |}
  /\ List.length (varlist (snd (fastboot_publish granting_platform "product" "blade" st)))
     = 3%nat
  /\ fastboot_getvar "partition-size:boot" (clean_partition_var st) = None
  /\ fastboot_getvar "product" (clean_partition_var st)
     = Some {| name := "product"; value := "yt2"; get_value := None |}.
Proof.
  cbv zeta.
  destruct (publish_overwrites_and_clean_is_exact granting_platform
              (session LOCKED "") (session_varlist_ok LOCKED ""))
    as (Hpub & Hclean & _ & _).
  destruct (Hpub "product" "blade"
              {| name := "product"; value := "yt2"; get_value := None |}
              eq_refl ltac:(by_evaluation))
    as (_ & H1 & H2 & _).
  split; [exact H1 |]. split; [exact H2 |].
  split; rewrite Hclean; reflexivity.
Defined.

(** [getvar:serialno], which nobody published, and [getvar:battery-voltage],
    whose getter has nothing to say. *)
Lemma cmd_getvar_unknown_okay_empty_witness :
  let st := session LOCKED "getvar:serialno" in
  frames_written (trace (cmd_getvar granting_platform 2 ["getvar"; "serialno"] st))
    = ["OKAY"]
  /\ frames_written (trace (cmd_getvar granting_platform 2
                              ["getvar"; "battery-voltage"] st))
     = ["OKAY"].
Proof.
  cbv zeta.
  pose (st := session LOCKED "getvar:serialno").
  destruct (cmd_getvar_unknown_okay_empty granting_platform ["getvar"; "serialno"] st
              ltac:(intros H; discriminate H))
    as (Hnone & _ & Hframe).
  destruct (cmd_getvar_unknown_okay_empty granting_platform
              ["getvar"; "battery-voltage"] st ltac:(intros H; discriminate H))
    as (_ & Hdyn & _).
  destruct (Hdyn {| name := "battery-voltage"; value := ""; get_value := Some battery |}
              battery eq_refl eq_refl (or_introl eq_refl)) as [_ Hdyn'].
  fold st. rewrite (Hnone eq_refl), Hdyn'.
  split; apply Hframe; intros H; discriminate H.
Defined.

End FastbootExamples.

(* ------------------------------------------------------------------------- *)
(** ** security.c on a toy public-key scheme *)
(* ------------------------------------------------------------------------- *)

Section SecurityExamples.
Import Efi Security.

(** The four cases of the attestation rule, with the OEM key 10: signed by
    the OEM key; signed by key 20 whose certificate key 10 signed; signed by
    key 20 with a self-signed certificate; and the first image with a byte
    of the payload changed. *)
Example toy_attestation :
  toy_verify [65; 1; 2; 3; 10; 71; 0; 0; 0] = BOOT_STATE_GREEN
  /\ toy_verify [65; 1; 2; 3; 20; 71; 1; 20; 10] = BOOT_STATE_GREEN
  /\ toy_verify [65; 1; 2; 3; 20; 71; 1; 20; 20] = BOOT_STATE_YELLOW
  /\ toy_verify [65; 1; 2; 7; 10; 71; 0; 0; 0] = BOOT_STATE_RED.
Proof. repeat split. Qed.


End SecurityExamples.

(* ------------------------------------------------------------------------- *)
(** ** fastboot.c: the reply queue *)
(* ------------------------------------------------------------------------- *)

Section CallbackFacts.
Import Efi Fastboot Callbacks.
Open Scope string_scope.
Open Scope Z_scope.

Variable pf : platform.
Variable tp : transport.

Lemma same_reply_state_refl st : same_reply_state st st.
Proof. repeat split. Qed.

Lemma same_reply_state_trans a b c :
  same_reply_state a b -> same_reply_state b c -> same_reply_state a c.
Proof. unfold same_reply_state. intuition congruence. Qed.

Lemma same_reply_state_consistent st st' :
  same_reply_state st st' -> tx_consistent st -> tx_consistent st'.
Proof.
  intros (H1 & H2 & H3) [Ha Hb]. split.
  - rewrite H1, H3. exact Ha.
  - rewrite H2. exact Hb.
Qed.

Lemma fastboot_ack_consistent code reason st :
  tx_consistent st -> tx_consistent (fastboot_ack pf code reason st).
Proof.
  intros [Ha Hb]. unfold fastboot_ack, do_transport_write.
  match goal with |- context [if ?c then _ else _] => destruct c end; cbn.
  - split; [discriminate | exact Hb].
  - split; [intros H; contradiction | exact Hb].
Qed.

Lemma fastboot_ack_buffered_consistent code reason st :
  tx_consistent st -> tx_consistent (fastboot_ack_buffered pf code reason st).
Proof.
  intros [Ha Hb]. unfold fastboot_ack_buffered, do_AllocatePool.
  match goal with |- context [if ?c then _ else _] => destruct c end; cbn.
  - split; [exact Ha | exact Hb].
  - split; [| exact Hb]. intros _ H. apply app_eq_nil in H. destruct H as [_ H].
    discriminate H.
Qed.

Lemma fastboot_fail_consistent reason st :
  tx_consistent st -> tx_consistent (fastboot_fail pf reason st).
Proof.
  intros H. unfold fastboot_fail. destruct (fastboot_states_eqb _ _).
  - now apply fastboot_ack_buffered_consistent.
  - now apply fastboot_ack_consistent.
Qed.

Lemma fastboot_okay_consistent reason st :
  tx_consistent st -> tx_consistent (fastboot_okay pf reason st).
Proof.
  intros H. unfold fastboot_okay. destruct (fastboot_states_eqb _ _).
  - now apply fastboot_ack_buffered_consistent.
  - now apply fastboot_ack_consistent.
Qed.

Lemma flush_tx_buffer_consistent st :
  tx_consistent st -> fastboot_state st = STATE_TX ->
  exists st', flush_tx_buffer pf st = Some st' /\ tx_consistent st'.
Proof.
  intros [Ha Hb] Htx. unfold flush_tx_buffer.
  destruct (txbuf_head st) as [| msg rest] eqn:Hq; [exfalso; now apply Ha |].
  eexists. split; [reflexivity |].
  unfold do_transport_write, do_FreePool.
  destruct rest as [| m2 rest];
    match goal with |- context [if ?c then _ else _] => destruct c end; cbn;
    (split; [| exact Hb]); try discriminate; try contradiction.
Qed.

(** The variable list and the pool. *)
Lemma getvar_or_create_same nm st :
  same_reply_state st (snd (fastboot_getvar_or_create pf nm st)).
Proof.
  unfold fastboot_getvar_or_create, do_AllocatePool.
  repeat match goal with
         | |- context [if ?c then _ else _] => destruct c
         | |- context [match ?c with Some _ => _ | None => _ end] => destruct c
         end; repeat split.
Qed.

Lemma fastboot_publish_same nm val st :
  same_reply_state st (snd (fastboot_publish pf nm val st)).
Proof.
  unfold fastboot_publish.
  destruct (MAX_VARIABLE_LENGTH <? strlena val + 1); [apply same_reply_state_refl |].
  pose proof (getvar_or_create_same nm st) as H.
  destruct (fastboot_getvar_or_create pf nm st) as [[v |] st']; cbn in *; exact H.
Qed.

Lemma publish_descriptors_same descriptors part_name st :
  same_reply_state st (snd (publish_descriptors pf descriptors part_name st)).
Proof.
  revert st. induction descriptors as [| [dn dv] rest IH]; intros st; cbn.
  - apply same_reply_state_refl.
  - destruct dv as [val |]; [| apply same_reply_state_refl].
    destruct (MAX_VARIABLE_LENGTH <=? _); [apply same_reply_state_refl |].
    match goal with
    | |- context [fastboot_publish pf ?n val st] =>
        pose proof (fastboot_publish_same n val st) as H;
        destruct (fastboot_publish pf n val st) as [r st']
    end.
    cbn [snd] in H. eapply same_reply_state_trans; [exact H | apply IH].
Qed.

Lemma publish_part_same part_name size guid st :
  same_reply_state st (snd (publish_part pf part_name size guid st)).
Proof. apply publish_descriptors_same. Qed.

Lemma publish_partitions_same gparti st :
  same_reply_state st (snd (publish_partitions pf gparti st)).
Proof.
  revert st. induction gparti as [| e rest IH]; intros st; cbn [publish_partitions].
  - repeat split.
  - set (size := u64 _).
    pose proof (publish_part_same (part_name e) size (part_type e) st) as H1.
    destruct (publish_part pf (part_name e) size (part_type e) st) as [r1 st1].
    cbn [snd] in H1.
    destruct (EFI_ERROR r1); [exact H1 |].
    assert (H2 : forall nm, same_reply_state st
                  (snd (publish_part pf nm size (part_type e) st1))).
    { intros nm. eapply same_reply_state_trans; [exact H1 | apply publish_part_same]. }
    destruct (String.eqb (part_name e) "data").
    + specialize (H2 "userdata").
      destruct (publish_part pf "userdata" size (part_type e) st1) as [r2 st2].
      cbn [snd] in H2. destruct (EFI_ERROR r2); [exact H2 |].
      eapply same_reply_state_trans; [exact H2 | apply IH].
    + destruct (String.eqb (part_name e) "userdata").
      * specialize (H2 "data").
        destruct (publish_part pf "data" size (part_type e) st1) as [r2 st2].
        cbn [snd] in H2. destruct (EFI_ERROR r2); [exact H2 |].
        eapply same_reply_state_trans; [exact H2 | apply IH].
      * destruct (EFI_ERROR r1); [exact H1 |].
        eapply same_reply_state_trans; [exact H1 | apply IH].
Qed.

Lemma publish_partsize_same st :
  same_reply_state st (snd (publish_partsize pf st)).
Proof.
  unfold publish_partsize.
  destruct (gpt_list_partition pf (trace st)) as [ret gparti].
  destruct (EFI_ERROR ret || _); [apply same_reply_state_refl |].
  apply publish_partitions_same.
Qed.

Lemma clean_partition_loop_same old st :
  same_reply_state st (clean_partition_loop old st).
Proof.
  revert st. induction old as [| v old IH]; intros st; cbn [clean_partition_loop].
  - apply same_reply_state_refl.
  - destruct (is_partition_var v);
      (eapply same_reply_state_trans; [| apply IH]); repeat split.
Qed.

Lemma refresh_partition_var_same st :
  same_reply_state st (snd (refresh_partition_var pf st)).
Proof.
  unfold refresh_partition_var, clean_partition_var.
  eapply same_reply_state_trans; [| apply publish_partsize_same].
  eapply same_reply_state_trans; [| apply clean_partition_loop_same].
  repeat split.
Qed.

Lemma log_consistent e st : tx_consistent st -> tx_consistent (log e st).
Proof. intros H. exact H. Qed.

Lemma fastboot_stop_consistent bootimage efiimage imagesize target st :
  tx_consistent st ->
  tx_consistent (snd (fastboot_stop pf bootimage efiimage imagesize target st)).
Proof.
  intros [Ha Hb]. unfold fastboot_stop, do_AllocatePool.
  destruct (negb (imagesize =? 0) && (bootimage || efiimage));
    [destruct (AllocatePool pf _ imagesize) |]; cbn [negb snd];
    try (split; [exact Ha | exact Hb]);
    cbn [fastboot_state set_fastboot_efiimage set_fastboot_bootimage
         set_fastboot_target set_fastboot_imagesize log set_trace];
    destruct (fastboot_states_eqb (fastboot_state st) STATE_COMPLETE) eqn:E; cbn;
    (split; [| first [exact Hb | discriminate]]);
    first [discriminate | exact Ha].
Qed.

Lemma fastboot_reboot_consistent target st :
  tx_consistent st -> tx_consistent (fastboot_reboot pf target st).
Proof.
  intros H. unfold fastboot_reboot.
  pose proof (fastboot_stop_consistent false false 0 target st H) as Hs.
  destruct (fastboot_stop pf false false 0 target st) as [ret st'].
  cbn [snd] in Hs.
  destruct (EFI_ERROR ret);
    [now apply fastboot_fail_consistent | now apply fastboot_okay_consistent].
Qed.

Lemma cmd_boot_consistent argc argv st :
  tx_consistent st -> tx_consistent (cmd_boot pf argc argv st).
Proof.
  intros H. unfold cmd_boot.
  match goal with
  | |- context [fastboot_stop pf ?b ?e ?n ?t st] =>
      pose proof (fastboot_stop_consistent b e n t st H) as Hs;
      destruct (fastboot_stop pf b e n t st) as [ret st']
  end.
  cbn [snd] in Hs.
  destruct (EFI_ERROR ret);
    [now apply fastboot_fail_consistent | now apply fastboot_okay_consistent].
Qed.

Lemma getvar_all_consistent vars st :
  tx_consistent st -> tx_consistent (getvar_all pf vars st).
Proof.
  revert st. induction vars as [| v vars IH]; intros st H; cbn [getvar_all].
  - exact H.
  - apply IH. unfold fastboot_info. now apply fastboot_ack_buffered_consistent.
Qed.

Lemma cmd_getvar_consistent argc argv st :
  tx_consistent st -> tx_consistent (cmd_getvar pf argc argv st).
Proof.
  intros H. unfold cmd_getvar.
  destruct (negb (argc =? 2)); [now apply fastboot_fail_consistent |].
  destruct (String.eqb (arg argv 1) "all").
  - apply fastboot_okay_consistent. now apply getvar_all_consistent.
  - now apply fastboot_okay_consistent.
Qed.

Lemma cmd_download_consistent argc argv st :
  tx_consistent st -> tx_consistent (cmd_download pf argc argv st).
Proof.
  intros H. unfold cmd_download.
  destruct (negb (argc =? 2)); [now apply fastboot_fail_consistent |].
  destruct (strtoul pf (arg argv 1) 16 =? 0); [now apply fastboot_fail_consistent |].
  destruct (MAX_DOWNLOAD_SIZE pf <? _); [now apply fastboot_fail_consistent |].
  assert (Hnb : forall st0, tx_consistent st0 ->
            tx_consistent
              (let st1 := set_dlsize (u32 (strtoul pf (arg argv 1) 16)) st0 in
               let response := truncate MAGIC_LENGTH ("DATA" ++ fmt_08x (dlsize st1)) in
               let st2 := set_fastboot_state STATE_START_DOWNLOAD st1 in
               let (ret, st3) := do_transport_write pf response (strlena response) st2 in
               if EFI_ERROR ret then set_fastboot_state STATE_ERROR st3 else st3)).
  { intros st0 [Ha Hb]. cbv zeta. unfold do_transport_write.
    match goal with |- context [if ?c then _ else _] => destruct c end;
      (split; [discriminate | exact Hb]). }
  destruct (bufsize st <? _).
  - unfold do_AllocatePool.
    match goal with |- context [AllocatePool pf ?t ?n] =>
      destruct (AllocatePool pf t n) end; cbn [negb].
    + apply Hnb. destruct (dlbuffer st); exact H.
    + assert (Hf : tx_consistent
                (fastboot_fail pf "Memory allocation failure"
                   (set_dlbuffer None
                      (log (PoolAlloc (strtoul pf (arg argv 1) 16) false)
                         (match dlbuffer st with
                          | Some _ => do_FreePool st
                          | None => st
                          end))))).
      { apply fastboot_fail_consistent. destruct (dlbuffer st); exact H. }
      exact Hf.
  - apply Hnb. exact H.
Qed.

Lemma cmd_flash_consistent argc argv st :
  engine_keeps_queue pf ->
  tx_consistent st -> tx_consistent (cmd_flash pf argc argv st).
Proof.
  intros [Hfl _] H. unfold cmd_flash.
  destruct (negb (argc =? 2)); [now apply fastboot_fail_consistent |].
  destruct (device_state_eqb _ _ && _); [now apply fastboot_fail_consistent |].
  destruct (stra_to_str pf (trace st) (arg argv 1)) as [label |];
    [| now apply fastboot_fail_consistent].
  match goal with
  | |- context [flash pf ?b ?n label ?s] =>
      pose proof (Hfl b n label s H) as Hs;
      destruct (flash pf b n label s) as [ret st']
  end.
  cbn [snd] in Hs.
  destruct (EFI_ERROR ret); [now apply fastboot_fail_consistent |].
  destruct (negb (Z.land ret (REFRESH_PARTITION_VAR pf) =? 0));
    [| now apply fastboot_okay_consistent].
  match goal with
  | |- context [refresh_partition_var pf ?s] =>
      pose proof (refresh_partition_var_same s) as Hr;
      destruct (refresh_partition_var pf s) as [ret2 st2]
  end.
  cbn [snd] in Hr.
  assert (H2 : tx_consistent st2).
  { eapply same_reply_state_consistent; [exact Hr | exact Hs]. }
  destruct (EFI_ERROR ret2);
    [now apply fastboot_fail_consistent | now apply fastboot_okay_consistent].
Qed.

Lemma cmd_erase_consistent argc argv st :
  engine_keeps_queue pf ->
  tx_consistent st -> tx_consistent (cmd_erase pf argc argv st).
Proof.
  intros [_ Her] H. unfold cmd_erase.
  destruct (negb (argc =? 2)); [now apply fastboot_fail_consistent |].
  destruct (stra_to_str pf (trace st) (arg argv 1)) as [label |];
    [| now apply fastboot_fail_consistent].
  match goal with
  | |- context [erase_by_label pf label ?s] =>
      pose proof (Her label s H) as Hs;
      destruct (erase_by_label pf label s) as [ret st']
  end.
  cbn [snd] in Hs.
  destruct (EFI_ERROR ret);
    [now apply fastboot_fail_consistent | now apply fastboot_okay_consistent].
Qed.

(** Every handler of the table keeps the queue consistent. *)
Lemma COMMANDS_consistent cmd argc argv st :
  engine_keeps_queue pf -> In cmd (COMMANDS pf) ->
  tx_consistent st -> tx_consistent (handle cmd argc argv st).
Proof.
  intros He Hin H. cbn in Hin.
  repeat (destruct Hin as [<- | Hin];
          [cbn [handle];
           first [ now apply cmd_download_consistent
                 | now apply cmd_flash_consistent
                 | now apply cmd_erase_consistent
                 | now apply cmd_getvar_consistent
                 | now apply cmd_boot_consistent
                 | now apply fastboot_reboot_consistent ] |]).
  destruct Hin.
Qed.

Lemma fastboot_run_cmd_consistent lst nm argc argv st :
  engine_keeps_queue pf ->
  (forall cmd, In cmd lst -> In cmd (COMMANDS pf)) ->
  tx_consistent st ->
  tx_consistent (fastboot_run_cmd pf lst nm argc argv st).
Proof.
  intros He Hl H. unfold fastboot_run_cmd.
  destruct (get_cmd lst nm) as [cmd |] eqn:E;
    [| now apply fastboot_fail_consistent].
  destruct (_ <? _); [now apply fastboot_fail_consistent |].
  apply COMMANDS_consistent; [exact He | | exact H].
  apply Hl. apply (get_cmd_Some _ _ _ E).
Qed.

(** X1: the reply queue is never flushed empty. Whenever the session is in
    STATE_TX there is a frame queued, and the state a reply falls back to is
    never STATE_TX; the three entry points of the main loop and of the
    transport ([fastboot_run_command], [fastboot_process_tx],
    [fastboot_process_rx]) keep that, so [flush_tx_buffer] never dereferences
    a NULL [txbuf_head]. *)
Theorem tx_queue_never_read_empty cmdlist argc0 buf data lk :
  engine_keeps_queue pf ->
  (forall cmd, In cmd cmdlist -> In cmd (COMMANDS pf)) ->
  tx_consistent (fb lk) ->
  (exists st', fastboot_run_command pf cmdlist argc0 (fb lk) = Some st'
               /\ tx_consistent st') /\
  (exists lk', fastboot_process_tx pf tp lk = Some lk' /\ tx_consistent (fb lk')) /\
  tx_consistent (fb (fastboot_process_rx pf tp buf data lk)).
Proof.
  intros He Hl H. split; [| split].
  - unfold fastboot_run_command.
    destruct (negb (fastboot_states_eqb (fastboot_state (fb lk)) STATE_COMMAND));
      [eexists; split; [reflexivity | exact H] |].
    pose proof (get_command_buffer_argv_state argc0 MAX_ARGS (fb lk)) as Hs.
    destruct (get_command_buffer_argv argc0 MAX_ARGS (fb lk)) as [[[ret argc] argv] st1].
    cbn [snd] in Hs. subst st1.
    destruct (EFI_ERROR ret); [eexists; split; [reflexivity | exact H] |].
    unfold fastboot_run_root_cmd.
    match goal with
    | |- context [fastboot_run_cmd pf cmdlist ?n argc argv ?s] =>
        pose proof (fastboot_run_cmd_consistent cmdlist n argc argv s He Hl H) as Hr;
        set (st2 := fastboot_run_cmd pf cmdlist n argc argv s) in *
    end.
    cbv zeta.
    change (fastboot_state (set_last_received_len 0 (set_received_len 0 st2)))
      with (fastboot_state st2).
    destruct (fastboot_states_eqb (fastboot_state st2) STATE_TX) eqn:E.
    + apply fastboot_states_eqb_eq in E.
      apply (flush_tx_buffer_consistent (set_last_received_len 0 (set_received_len 0 st2)));
        [exact Hr | exact E].
    + eexists; split; [reflexivity | exact Hr].
  - unfold fastboot_process_tx.
    destruct (fastboot_state (fb lk)) eqn:E;
      try (eexists; split; [reflexivity | exact H]).
    + unfold worker_download, do_transport_read.
      match goal with |- context [if ?c then _ else _] => destruct c end;
        eexists; (split; [reflexivity |]); cbn [fb with_fb].
      * now apply fastboot_fail_consistent.
      * destruct H as [Ha Hb]. split; [discriminate | exact Hb].
    + destruct (flush_tx_buffer_consistent (fb lk) H E) as (st' & -> & Hc).
      eexists; split; [reflexivity | exact Hc].
    + eexists; split; [reflexivity |]. destruct H as [Ha Hb].
      split; [discriminate | exact Hb].
  - unfold fastboot_process_rx.
    destruct (fastboot_state (fb lk)) eqn:E; try exact H.
    + destruct (negb _ || _); cbn [fb with_fb].
      * now apply fastboot_fail_consistent.
      * destruct H as [Ha Hb]. split; [discriminate | exact Hb].
    + cbv zeta.
      match goal with |- context [if ?c then _ else _] => destruct c end.
      * exact H.
      * cbn [fb with_fb]. apply fastboot_okay_consistent.
        destruct H as [Ha Hb]. split; [discriminate | exact Hb].
Qed.

End CallbackFacts.

(* ------------------------------------------------------------------------- *)
(** ** fastboot.c: the command line *)
(* ------------------------------------------------------------------------- *)

Section CommandLineFacts.
Import Efi Fastboot Callbacks CommandLine.
Open Scope string_scope.
Open Scope Z_scope.

Variable pf : platform.

Lemma skip_delims_word delim w s :
  word delim w -> skip_delims delim (w ++ s) = w ++ s.
Proof.
  intros [Hne Hw]. destruct w as [| c w]; [contradiction |].
  cbn in *. apply andb_true_iff in Hw. destruct Hw as [Hc _].
  apply negb_true_iff in Hc. rewrite Hc. reflexivity.
Qed.

Lemma take_token_free delim w :
  delimiter_free delim w = true ->
  take_token delim w = (w, "") /\
  forall d rest, is_delim d delim = true ->
    take_token delim (w ++ String d rest) = (w, rest).
Proof.
  induction w as [| c w IH]; intros Hw.
  - split; [reflexivity |]. intros d rest Hd. cbn. rewrite Hd. reflexivity.
  - cbn in Hw. apply andb_true_iff in Hw. destruct Hw as [Hc Hw].
    apply negb_true_iff in Hc. destruct (IH Hw) as [H1 H2]. split.
    + cbn. rewrite Hc, H1. reflexivity.
    + intros d rest Hd. cbn. rewrite Hc, (H2 d rest Hd). reflexivity.
Qed.

Lemma append_empty_r (s : string) : s ++ "" = s.
Proof. induction s as [| c s IH]; cbn; [reflexivity | now rewrite IH]. Qed.

Lemma strtok_r_word delim w :
  word delim w ->
  strtok_r delim w = (Some w, "") /\
  forall d rest, is_delim d delim = true ->
    strtok_r delim (w ++ String d rest) = (Some w, rest).
Proof.
  intros Hw. pose proof Hw as [Hne Hf].
  destruct (take_token_free delim w Hf) as [H1 H2].
  split.
  - unfold strtok_r. pose proof (skip_delims_word delim w "" Hw) as Hs.
    rewrite append_empty_r in Hs. rewrite Hs.
    destruct w as [| c w]; [contradiction |]. rewrite H1. reflexivity.
  - intros d rest Hd. unfold strtok_r.
    rewrite (skip_delims_word delim w _ Hw).
    pose proof (H2 d rest Hd) as E.
    destruct w as [| c w]; [contradiction |].
    cbn [append] in *. rewrite E. reflexivity.
Qed.

Lemma strtok_r_spaced a rest :
  word " " a -> strtok_r " " (spaced (a :: rest)) = (Some a, spaced rest).
Proof.
  intros Ha. destruct (strtok_r_word " " a Ha) as [H1 H2].
  destruct rest as [| b rest].
  - exact H1.
  - change (spaced (a :: b :: rest)) with (a ++ String " " (spaced (b :: rest))).
    apply H2. reflexivity.
Qed.

Lemma spaced_cons_not_empty a rest : word " " a -> spaced (a :: rest) <> "".
Proof.
  intros [Hne _]. destruct a as [| c a]; [contradiction |].
  destruct rest; cbn; discriminate.
Qed.

(** The loop over a line that holds no more tokens than it has rounds. *)
Lemma argv_loop_spaced n :
  forall args token argc argv,
    Forall (word " ") args -> (List.length args <= n)%nat ->
    exists token',
      argv_loop n token argc argv (spaced args)
        = (token', argc + Z.of_nat (List.length args), (argv ++ args)%list, "").
Proof.
  induction n as [| n IH]; intros args token argc argv Hw Hn.
  - destruct args; [| cbn in Hn; lia]. exists token. cbn.
    rewrite Z.add_0_r, app_nil_r. reflexivity.
  - destruct args as [| a rest].
    + exists None. cbn. rewrite Z.add_0_r, app_nil_r. reflexivity.
    + inversion Hw as [| ? ? Ha Hrest]; subst.
      cbn [argv_loop]. rewrite (strtok_r_spaced a rest Ha).
      destruct (IH rest (Some a) (argc + 1) (argv ++ [a])%list Hrest) as [token' E];
        [cbn in Hn; lia |].
      exists token'. rewrite E. rewrite <- app_assoc. cbn [app List.length].
      f_equal. f_equal. f_equal. lia.
Qed.

(** The loop over a line that holds more: it stops with a token in hand and
    the rest of the line unread. *)
Lemma argv_loop_spaced_over n :
  forall args token argc argv,
    Forall (word " ") args -> (S n < List.length args)%nat ->
    exists tok,
      argv_loop (S n) token argc argv (spaced args)
        = (Some tok, argc + Z.of_nat (S n), (argv ++ firstn (S n) args)%list,
           spaced (skipn (S n) args)).
Proof.
  induction n as [| n IH]; intros args token argc argv Hw Hn.
  - destruct args as [| a rest]; [cbn in Hn; lia |].
    inversion Hw as [| ? ? Ha Hrest]; subst.
    exists a. cbn [argv_loop]. rewrite (strtok_r_spaced a rest Ha). reflexivity.
  - destruct args as [| a rest]; [cbn in Hn; lia |].
    inversion Hw as [| ? ? Ha Hrest]; subst.
    destruct (IH rest (Some a) (argc + 1) (argv ++ [a])%list Hrest) as [tok E];
      [cbn in Hn; lia |].
    exists tok.
    change (argv_loop (S (S n)) token argc argv (spaced (a :: rest))) with
      (match strtok_r " " (spaced (a :: rest)) with
       | (None, saveptr) => (None, argc, argv, saveptr)
       | (Some tok, saveptr) =>
           argv_loop (S n) (Some tok) (argc + 1) (argv ++ [tok])%list saveptr
       end).
    rewrite (strtok_r_spaced a rest Ha), E, <- app_assoc.
    cbn [firstn skipn app]. f_equal. f_equal. f_equal. lia.
Qed.


(** What [get_command_buffer_argv] makes of a well-formed line. *)
Lemma command_line_tokens nm args argc0 st :
  word ": " nm -> Forall (word " ") args ->
  command_buffer st = command_line nm args ->
  ((List.length args <= 15)%nat ->
   get_command_buffer_argv argc0 MAX_ARGS st =
     (EFI_SUCCESS, 1 + Z.of_nat (List.length args), nm :: args,
      set_command_buffer nm st)) /\
  ((15 < List.length args)%nat ->
   get_command_buffer_argv argc0 MAX_ARGS st =
     (EFI_INVALID_PARAMETER, 16, nm :: firstn 15 args, set_command_buffer nm st)).
Proof.
  intros Hnm Hargs Hbuf.
  destruct (strtok_r_word ": " nm Hnm) as [Htok1 Htok2].
  assert (Hafter : buffer_after_strtok ": " (command_line nm args) = nm).
  { unfold buffer_after_strtok.
    assert (Hskip : skip_delims ": " (command_line nm args) = command_line nm args).
    { unfold command_line. destruct args.
      - pose proof (skip_delims_word ": " nm "" Hnm) as H.
        rewrite append_empty_r in H. exact H.
      - apply skip_delims_word. exact Hnm. }
    rewrite Hskip, Nat.sub_diag.
    assert (Htake : fst (take_token ": " (command_line nm args)) = nm).
    { destruct Hnm as [_ Hf]. destruct (take_token_free ": " nm Hf) as [H1 H2].
      unfold command_line. destruct args.
      - rewrite H1. reflexivity.
      - change (nm ++ ":" ++ spaced (s :: args))
          with (nm ++ String ":" (spaced (s :: args))).
        rewrite (H2 ":"%char _ eq_refl). reflexivity. }
    rewrite Htake. destruct (command_line nm args); reflexivity. }
  assert (Hfirst : strtok_r ": " (command_line nm args) = (Some nm, spaced args)).
  { unfold command_line. destruct args as [| a rest].
    - exact Htok1.
    - change (nm ++ ":" ++ spaced (a :: rest))
        with (nm ++ String ":" (spaced (a :: rest))).
      apply Htok2. reflexivity. }
  split; intros Hlen.
  - unfold get_command_buffer_argv. rewrite Hbuf, Hafter, Hfirst.
    change (Z.to_nat (MAX_ARGS - 1)) with 15%nat.
    destruct (argv_loop_spaced 15 args None 1 [nm] Hargs Hlen) as [token' E].
    rewrite E. cbn [app].
    destruct token'; reflexivity.
  - unfold get_command_buffer_argv. rewrite Hbuf, Hafter, Hfirst.
    change (Z.to_nat (MAX_ARGS - 1)) with 15%nat.
    destruct (argv_loop_spaced_over 14 args None 1 [nm] Hargs Hlen) as [tok E].
    rewrite E.
    assert (Hmore : exists b more, skipn 15 args = b :: more /\ word " " b).
    { destruct (skipn 15 args) as [| b more] eqn:Hs.
      - exfalso. assert (Hl := f_equal (@List.length _) Hs).
        rewrite length_skipn in Hl. cbn in Hl. lia.
      - exists b, more. split; [reflexivity |].
        rewrite Forall_forall in Hargs. apply Hargs.
        rewrite <- (firstn_skipn 15 args). apply in_or_app. right.
        rewrite Hs. left. reflexivity. }
    destruct Hmore as (b & more & -> & Hb).
    rewrite (strtok_r_spaced b more Hb). reflexivity.
Qed.

(** X2: a command line is split at the first colon and then at the spaces. A
    line of a name and at most fifteen arguments parses to exactly these
    tokens, the command buffer is left holding the name alone, and
    [fastboot_run_command] dispatches on the name with the tokens; a line with
    more than fifteen arguments is refused with EFI_INVALID_PARAMETER and
    [fastboot_run_command] returns without running or answering anything. *)
Theorem command_line_split nm args argc0 cmdlist st :
  word ": " nm -> Forall (word " ") args ->
  command_buffer st = command_line nm args ->
  ((List.length args <= 15)%nat ->
   get_command_buffer_argv argc0 MAX_ARGS st =
     (EFI_SUCCESS, 1 + Z.of_nat (List.length args), nm :: args,
      set_command_buffer nm st)
   /\ (fastboot_state st = STATE_COMMAND ->
       fastboot_run_command pf cmdlist argc0 st =
         let st' :=
           set_last_received_len 0
             (set_received_len 0
                (fastboot_run_cmd pf cmdlist nm (1 + Z.of_nat (List.length args))
                   (nm :: args) (set_command_buffer nm st))) in
         if fastboot_states_eqb (fastboot_state st') STATE_TX
         then flush_tx_buffer pf st' else Some st')) /\
  ((15 < List.length args)%nat ->
   get_command_buffer_argv argc0 MAX_ARGS st =
     (EFI_INVALID_PARAMETER, 16, nm :: firstn 15 args, set_command_buffer nm st)
   /\ (fastboot_state st = STATE_COMMAND ->
       fastboot_run_command pf cmdlist argc0 st = Some (set_command_buffer nm st))).
Proof.
  intros Hnm Hargs Hbuf.
  destruct (command_line_tokens nm args argc0 st Hnm Hargs Hbuf) as [Hok Hover].
  split; intros Hlen.
  - split; [exact (Hok Hlen) |].
    intros Hst. unfold fastboot_run_command. rewrite Hst, (Hok Hlen). reflexivity.
  - split; [exact (Hover Hlen) |].
    intros Hst. unfold fastboot_run_command. rewrite Hst, (Hover Hlen). reflexivity.
Qed.

End CommandLineFacts.

(* ------------------------------------------------------------------------- *)
(** ** fastboot.c: runs of transport events *)
(* ------------------------------------------------------------------------- *)

Section RunFacts.
Import Efi Fastboot Callbacks.
Open Scope string_scope.
Open Scope Z_scope.

Variable pf : platform.
Variable tp : transport.

Lemma flush_tx_buffer_sends msg rest st :
  transport_takes_all pf ->
  txbuf_head st = msg :: rest ->
  exists st',
    flush_tx_buffer pf st = Some st'
    /\ txbuf_head st' = rest
    /\ frames_written (trace st') = (frames_written (trace st) ++ [msg])%list
    /\ next_state st' = next_state st
    /\ fastboot_state st' =
         match rest with [] => next_state st | _ :: _ => fastboot_state st end.
Proof.
  intros Hw Hq. unfold flush_tx_buffer. rewrite Hq.
  eexists. split; [reflexivity |].
  unfold do_transport_write, do_FreePool. rewrite Hw.
  destruct rest; cbn; rewrite !frames_written_app; cbn; rewrite app_nil_r;
    repeat split.
Qed.

(** X4: the queued frames go out in the order they were queued, one for each
    completed transmission ([fastboot_process_tx] in STATE_TX); the state the
    last one leaves is [next_state], the queue is empty then, and no read is
    asked of the transport meanwhile. *)
Theorem tx_queue_drains lk :
  transport_takes_all pf ->
  fastboot_state (fb lk) = STATE_TX ->
  txbuf_head (fb lk) <> [] ->
  exists lk',
    tx_events pf tp (List.length (txbuf_head (fb lk))) lk = Some lk'
    /\ frames_written (trace (fb lk')) =
         (frames_written (trace (fb lk)) ++ txbuf_head (fb lk))%list
    /\ txbuf_head (fb lk') = []
    /\ fastboot_state (fb lk') = next_state (fb lk)
    /\ reads lk' = reads lk.
Proof.
  intros Hw. remember (txbuf_head (fb lk)) as q eqn:Hq.
  revert lk Hq. induction q as [| msg rest IH]; intros lk Hq Htx Hne;
    [contradiction |].
  cbn [List.length tx_events]. unfold fastboot_process_tx. rewrite Htx.
  destruct (flush_tx_buffer_sends msg rest (fb lk) Hw (eq_sym Hq))
    as (st' & -> & Hq' & Hf & Hn & Hs).
  destruct rest as [| m2 rest].
  - exists (with_fb st' lk). cbn. repeat split; assumption.
  - destruct (IH (with_fb st' lk)) as (lk' & E & H1 & H2 & H3 & H4).
    + cbn. symmetry. exact Hq'.
    + cbn. rewrite Hs. exact Htx.
    + discriminate.
    + exists lk'. split; [exact E |]. cbn in H1, H3, H4.
      rewrite H1, Hf, <- app_assoc, H3, Hn. repeat split; assumption.
Qed.

Lemma fastboot_okay_sent reason st :
  transport_takes_all pf -> fastboot_state st <> STATE_TX ->
  fastboot_okay pf reason st =
    set_fastboot_state (next_state st)
      (log (TransportWrite (fastboot_build_ack_msg "OKAY" reason) MAGIC_LENGTH
              (transport_write pf (trace st)
                 (fastboot_build_ack_msg "OKAY" reason) MAGIC_LENGTH)) st).
Proof.
  intros Hw Htx. unfold fastboot_okay. rewrite (fastboot_states_eqb_neq _ _ Htx).
  unfold fastboot_ack, do_transport_write. cbn [trace set_fastboot_state].
  rewrite Hw. reflexivity.
Qed.

(** X5: [fastboot_reboot] (behind [reboot], [continue] and
    [reboot-bootloader]) between two commands: the OKAY goes out first, the
    session is STATE_STOPPING with the target recorded and no image, and it is
    the completion of that transmission that makes it STATE_STOPPED. *)
Theorem reboot_stops_after_okay target lk :
  transport_takes_all pf ->
  fastboot_state (fb lk) = STATE_COMMAND ->
  let st1 := fastboot_reboot pf target (fb lk) in
  frames_written (trace st1) = (frames_written (trace (fb lk)) ++ ["OKAY"])%list
  /\ fastboot_state st1 = STATE_STOPPING
  /\ fastboot_target st1 = target
  /\ fastboot_bootimage st1 = None /\ fastboot_efiimage st1 = None
  /\ fastboot_imagesize st1 = 0
  /\ fastboot_process_tx pf tp (with_fb st1 lk)
     = Some (with_fb (set_fastboot_state STATE_STOPPED st1) lk).
Proof.
  intros Hw Hst st1. subst st1. unfold fastboot_reboot, fastboot_stop.
  cbn [Z.eqb negb andb orb fastboot_state set_fastboot_imagesize
       set_fastboot_target set_fastboot_bootimage set_fastboot_efiimage].
  rewrite Hst. cbn [fastboot_states_eqb EFI_ERROR EFI_SUCCESS Z.testbit].
  rewrite fastboot_okay_sent; [| exact Hw | cbn; rewrite Hst; discriminate].
  cbn. rewrite frames_written_app. cbn. unfold fastboot_process_tx. cbn.
  repeat split.
Qed.

Lemma strlena_nonneg s : 0 <= strlena s.
Proof. unfold strlena. lia. Qed.

Lemma total_nonneg evs : 0 <= total (lengths evs).
Proof.
  unfold total, lengths.
  induction evs as [| ev evs IH]; cbn [map fold_right]; [lia |].
  pose proof (strlena_nonneg (snd ev)). lia.
Qed.

(** While the bytes received stay below [dlsize], each reception is
    answered by a read request for what is still missing, behind the bytes
    just stored. *)
Lemma rx_events_partial evs :
  forall lk,
    fastboot_state (fb lk) = STATE_DOWNLOAD ->
    0 <= received_len (fb lk) ->
    received_len (fb lk) + total (lengths evs) < dlsize (fb lk) ->
    dlsize (fb lk) < 2 ^ 32 ->
    let lk' := rx_events pf tp evs lk in
    fastboot_state (fb lk') = STATE_DOWNLOAD
    /\ received_len (fb lk') = received_len (fb lk) + total (lengths evs)
    /\ dlsize (fb lk') = dlsize (fb lk)
    /\ next_state (fb lk') = next_state (fb lk)
    /\ trace (fb lk') = trace (fb lk)
    /\ txbuf_head (fb lk') = txbuf_head (fb lk)
    /\ map r_len (reads lk') =
         (map r_len (reads lk)
          ++ missing (dlsize (fb lk)) (received_len (fb lk)) (lengths evs))%list.
Proof.
  induction evs as [| [buf data] evs IH]; intros lk Hst Hr Hlt Hdl.
  - cbn. rewrite Z.add_0_r, app_nil_r. repeat split. exact Hst.
  - cbn [lengths map total fold_right snd] in Hlt. fold (lengths evs) in Hlt.
    fold (total (lengths evs)) in Hlt.
    pose proof (total_nonneg evs) as Ht.
    pose proof (strlena_nonneg data) as Hd.
    assert (E : fastboot_process_rx pf tp buf data lk =
                snd (do_transport_read tp
                       {| base := base buf;
                          displacement := displacement buf + strlena data |}
                       (dlsize (fb lk) - (received_len (fb lk) + strlena data))
                       (with_fb
                          (set_last_received_len (received_len (fb lk) + strlena data)
                             (set_received_len (received_len (fb lk) + strlena data)
                                (fb lk))) lk))).
    { unfold fastboot_process_rx. rewrite Hst. cbv zeta.
      cbn [received_len set_received_len set_last_received_len dlsize].
      rewrite (u32_small (received_len (fb lk) + strlena data)) by lia.
      assert (El : (received_len (fb lk) + strlena data <? dlsize (fb lk)) = true)
        by (apply Z.ltb_lt; lia).
      rewrite El.
      rewrite (u32_small (dlsize (fb lk) - (received_len (fb lk) + strlena data)))
        by lia.
      reflexivity. }
    cbv zeta. unfold rx_events. cbn [fold_left fst snd]. rewrite E.
    match goal with |- context [fold_left _ evs ?l] => set (lk1 := l) end.
    fold (rx_events pf tp evs lk1).
    assert (F1 : fastboot_state (fb lk1) = STATE_DOWNLOAD) by exact Hst.
    assert (F2 : received_len (fb lk1) = received_len (fb lk) + strlena data)
      by reflexivity.
    assert (F3 : dlsize (fb lk1) = dlsize (fb lk)) by reflexivity.
    assert (F4 : next_state (fb lk1) = next_state (fb lk)) by reflexivity.
    assert (F5 : trace (fb lk1) = trace (fb lk)) by reflexivity.
    assert (F6 : txbuf_head (fb lk1) = txbuf_head (fb lk)) by reflexivity.
    assert (F7 : map r_len (reads lk1) =
                 (map r_len (reads lk)
                  ++ [dlsize (fb lk) - (received_len (fb lk) + strlena data)])%list).
    { unfold lk1. cbn [snd do_transport_read reads]. rewrite map_app. reflexivity. }
    clearbody lk1.
    destruct (IH lk1) as (H1 & H2 & H3 & H4 & H5 & H6 & H7);
      [exact F1 | rewrite F2; lia | rewrite F2, F3; lia | rewrite F3; lia |].
    cbn [lengths map total fold_right snd missing].
    fold (lengths evs). fold (total (lengths evs)).
    rewrite H1, H2, H3, H4, H5, H6, H7, F2, F3, F4, F5, F6, F7.
    rewrite <- app_assoc. cbn [app]. repeat split. lia.
Qed.

(** X6: a download ends with the reception that brings the bytes received to
    [dlsize]. Each reception before that is answered by a read request for the
    bytes still missing, and nothing is sent; the last one is answered by
    OKAY, asks for no further read, and the session goes to the state that
    follows a reply. *)
Theorem download_completes_with_okay evs buf data lk :
  transport_takes_all pf ->
  fastboot_state (fb lk) = STATE_DOWNLOAD ->
  0 <= received_len (fb lk) ->
  received_len (fb lk) + total (lengths evs) < dlsize (fb lk) ->
  dlsize (fb lk) <= received_len (fb lk) + total (lengths evs) + strlena data < 2 ^ 32 ->
  let before := rx_events pf tp evs lk in
  let after := rx_events pf tp (evs ++ [(buf, data)]) lk in
  frames_written (trace (fb before)) = frames_written (trace (fb lk))
  /\ fastboot_state (fb before) = STATE_DOWNLOAD
  /\ map r_len (reads before) =
       (map r_len (reads lk)
        ++ missing (dlsize (fb lk)) (received_len (fb lk)) (lengths evs))%list
  /\ frames_written (trace (fb after)) =
       (frames_written (trace (fb lk)) ++ ["OKAY"])%list
  /\ fastboot_state (fb after) = next_state (fb lk)
  /\ reads after = reads before.
Proof.
  intros Hw Hst Hr Hlt Hge before after.
  pose proof (strlena_nonneg data) as Hd.
  pose proof (total_nonneg evs) as Ht.
  assert (Hdl : dlsize (fb lk) < 2 ^ 32) by lia.
  destruct (rx_events_partial evs lk Hst Hr Hlt Hdl)
    as (H1 & H2 & H3 & H4 & H5 & H6 & H7).
  fold before in H1, H2, H3, H4, H5, H6, H7.
  assert (E : after =
    with_fb (fastboot_okay pf ""
               (set_fastboot_state STATE_COMMAND
                  (set_last_received_len (received_len (fb before) + strlena data)
                     (set_received_len (received_len (fb before) + strlena data)
                        (fb before))))) before).
  { unfold after, rx_events. rewrite fold_left_app. cbn [fold_left fst snd].
    fold (rx_events pf tp evs lk). fold before.
    unfold fastboot_process_rx. rewrite H1. cbv zeta.
    cbn [received_len set_received_len set_last_received_len dlsize].
    rewrite (u32_small (received_len (fb before) + strlena data)) by lia.
    assert (El : (received_len (fb before) + strlena data <? dlsize (fb before)) = false)
      by (apply Z.ltb_ge; lia).
    rewrite El. reflexivity. }
  rewrite E. rewrite fastboot_okay_sent; [| exact Hw | cbn; discriminate].
  cbn. rewrite frames_written_app. cbn. rewrite H5, H4.
  repeat split; assumption.
Qed.

End RunFacts.

(* ------------------------------------------------------------------------- *)
(** ** fastboot.c: frames, getvar:all, registration, publishing *)
(* ------------------------------------------------------------------------- *)

Section ReplyFacts.
Import Efi Fastboot Callbacks.
Open Scope string_scope.
Open Scope Z_scope.

Variable pf : platform.
Variable tp : transport.

(** *** Reply frames *)

Lemma length_append (a b : string) :
  String.length (a ++ b) = (String.length a + String.length b)%nat.
Proof. induction a as [| c a IH]; cbn; [reflexivity | now rewrite IH]. Qed.

Lemma length_substring_le (n m : nat) (s : string) :
  (String.length (substring n m s) <= m)%nat.
Proof.
  revert n m. induction s as [| c s IH]; intros n m.
  - destruct n, m; cbn; lia.
  - destruct n as [| n].
    + destruct m as [| m]; cbn; [lia |]. specialize (IH 0%nat m). lia.
    + cbn. apply IH.
Qed.

(** X8: no reply overruns the 64 bytes of a frame, terminator included,
    whatever the code and the reason; and a reason of up to 59 characters goes
    out whole behind a code of four characters. *)
Theorem reply_frame_fits code reason :
  strlena (fastboot_build_ack_msg code reason) < MAGIC_LENGTH
  /\ (String.length code = 4%nat -> strlena reason < INFO_PAYLOAD ->
      fastboot_build_ack_msg code reason = code ++ reason).
Proof.
  unfold fastboot_build_ack_msg, truncate, strlena. split.
  - rewrite length_append.
    pose proof (length_substring_le 0 (Z.to_nat CODE_LENGTH) code).
    pose proof (length_substring_le 0 (Z.to_nat (INFO_PAYLOAD - 1)) reason).
    change (Z.to_nat CODE_LENGTH) with 4%nat in *.
    change (Z.to_nat (INFO_PAYLOAD - 1)) with 59%nat in *.
    unfold MAGIC_LENGTH. lia.
  - intros Hc Hr. unfold INFO_PAYLOAD, MAGIC_LENGTH, CODE_LENGTH in *.
    rewrite !substring_whole; [reflexivity | |].
    + change (Z.to_nat (64 - 4 - 1)) with 59%nat. lia.
    + change (Z.to_nat 4) with 4%nat. lia.
Qed.

(** *** getvar:all *)

Lemma fastboot_info_queues reason st :
  pool_grants_all pf ->
  txbuf_head (fastboot_info pf reason st) =
    (txbuf_head st ++ [fastboot_build_ack_msg "INFO" reason])%list
  /\ fastboot_state (fastboot_info pf reason st) = STATE_TX
  /\ frames_written (trace (fastboot_info pf reason st)) = frames_written (trace st)
  /\ next_state (fastboot_info pf reason st) = next_state st
  /\ varlist (fastboot_info pf reason st) = varlist st.
Proof.
  intros Hp. unfold fastboot_info, fastboot_ack_buffered, do_AllocatePool.
  rewrite Hp. cbn. rewrite frames_written_app. cbn. rewrite app_nil_r.
  repeat split.
Qed.

Lemma fastboot_var_value_spec var : fastboot_var_value var = spec_reported_value var.
Proof.
  unfold fastboot_var_value, spec_reported_value.
  destruct (get_value var) as [getter |]; [| reflexivity].
  destruct (getter tt) as [val |]; [| reflexivity].
  unfold MAX_VARIABLE_LENGTH.
  destruct (64 <? strlena val + 1) eqn:E1; destruct (strlena val <=? 63) eqn:E2;
    try reflexivity.
  - apply Z.ltb_lt in E1. apply Z.leb_le in E2. lia.
  - apply Z.ltb_ge in E1. apply Z.leb_gt in E2. lia.
Qed.

Lemma info_frame_spec var :
  fastboot_build_ack_msg "INFO" (name var ++ ": " ++ fastboot_var_value var)
  = spec_info_frame var.
Proof. rewrite fastboot_var_value_spec. reflexivity. Qed.

Lemma getvar_all_queues vars :
  forall st,
    pool_grants_all pf -> vars <> [] ->
    txbuf_head (getvar_all pf vars st) = (txbuf_head st ++ map spec_info_frame vars)%list
    /\ fastboot_state (getvar_all pf vars st) = STATE_TX
    /\ frames_written (trace (getvar_all pf vars st)) = frames_written (trace st)
    /\ next_state (getvar_all pf vars st) = next_state st.
Proof.
  induction vars as [| v vars IH]; intros st Hp Hne; [contradiction |].
  cbn [getvar_all map].
  destruct (fastboot_info_queues (name v ++ ": " ++ fastboot_var_value v) st Hp)
    as (H1 & H2 & H3 & H4 & _).
  rewrite info_frame_spec in H1.
  destruct vars as [| v2 vars].
  - cbn [getvar_all map]. rewrite H1, H2, H3, H4. repeat split.
  - destruct (IH (fastboot_info pf (name v ++ ": " ++ fastboot_var_value v) st) Hp)
      as (G1 & G2 & G3 & G4); [discriminate |].
    rewrite G1, G2, G3, G4, H1, H3, H4, <- app_assoc. repeat split.
Qed.

Lemma spec_info_frame_whole var :
  strlena (name var) + strlena (spec_reported_value var) <= 57 ->
  spec_info_frame var = "INFO" ++ name var ++ ": " ++ spec_reported_value var.
Proof.
  intros H. unfold spec_info_frame. rewrite substring_whole; [reflexivity |].
  unfold strlena in H. rewrite !length_append. cbn [String.length]. lia.
Qed.

(** X9: [getvar:all] queues one INFO frame for each variable, in the order
    of the list, and OKAY behind them: the frame of a variable is "INFO"
    followed by the first 59 characters of "<name>: <value>", so the whole
    of it when name and value have at most 57 characters together; nothing
    goes to the transport before the queue is flushed. *)
Theorem getvar_all_lists_every_variable argv st :
  pool_grants_all pf ->
  arg argv 1 = "all" -> varlist st <> [] ->
  let st' := cmd_getvar pf 2 argv st in
  txbuf_head st'
    = (txbuf_head st ++ map spec_info_frame (varlist st) ++ ["OKAY"])%list
  /\ (Forall (fun var =>
                strlena (name var) + strlena (spec_reported_value var) <= 57)
             (varlist st) ->
      txbuf_head st'
        = (txbuf_head st
           ++ map (fun var =>
                     ("INFO" ++ name var ++ ": " ++ spec_reported_value var)%string)
                  (varlist st)
           ++ ["OKAY"])%list)
  /\ fastboot_state st' = STATE_TX
  /\ frames_written (trace st') = frames_written (trace st).
Proof.
  intros Hp Hall Hne st'.
  assert (H : txbuf_head st'
              = (txbuf_head st ++ map spec_info_frame (varlist st) ++ ["OKAY"])%list
              /\ fastboot_state st' = STATE_TX
              /\ frames_written (trace st') = frames_written (trace st)).
  { subst st'. unfold cmd_getvar.
    cbn [Z.eqb Pos.eqb negb]. rewrite Hall. cbn [String.eqb Ascii.eqb Bool.eqb].
    destruct (getvar_all_queues (varlist st) st Hp Hne) as (G1 & G2 & G3 & G4).
    unfold fastboot_okay. rewrite G2. cbn [fastboot_states_eqb].
    unfold fastboot_ack_buffered, do_AllocatePool. rewrite Hp. cbn.
    rewrite frames_written_app, G1, G3. cbn. rewrite app_nil_r, <- app_assoc.
    repeat split. }
  destruct H as (H1 & H2 & H3).
  split; [exact H1 |]. split; [| split; [exact H2 | exact H3]].
  intros Hfit. rewrite H1. f_equal. f_equal.
  apply map_ext_in. intros var Hin. apply spec_info_frame_whole.
  rewrite Forall_forall in Hfit. apply Hfit. exact Hin.
Qed.

(** *** The registry *)

Lemma register_all_granted cmds :
  forall lst st,
    pool_grants_all pf ->
    exists st',
      register_all pf cmds lst st = (EFI_SUCCESS, (rev cmds ++ lst)%list, st')
      /\ varlist st' = varlist st /\ fastboot_state st' = fastboot_state st.
Proof.
  induction cmds as [| c cmds IH]; intros lst st Hp.
  - exists st. repeat split.
  - cbn [register_all]. unfold fastboot_register_into, do_AllocatePool.
    rewrite Hp. cbn [negb EFI_ERROR EFI_SUCCESS Z.testbit].
    destruct (IH (c :: lst) (log (PoolAlloc sizeof_cmdlist_node true) st) Hp)
      as (st' & E & H1 & H2).
    exists st'. rewrite E. cbn [rev]. rewrite <- app_assoc. repeat split; assumption.
Qed.

Lemma get_cmd_unique lst cmd :
  NoDup (map cmd_name lst) -> In cmd lst -> get_cmd lst (cmd_name cmd) = Some cmd.
Proof.
  induction lst as [| c lst IH]; intros Hnd Hin; [destruct Hin |].
  inversion Hnd as [| ? ? Hnotin Hnd']; subst. cbn.
  destruct Hin as [-> | Hin].
  - rewrite String.eqb_refl. reflexivity.
  - destruct (String.eqb (cmd_name cmd) (cmd_name c)) eqn:E.
    + apply String.eqb_eq in E. exfalso. apply Hnotin. rewrite <- E.
      apply in_map. exact Hin.
    + apply IH; assumption.
Qed.

(** X11: registration and lookup. A command registered with a granted
    allocation is the one its name resolves to, in front of any older command
    of that name, the other names resolving as before; without memory the list
    is left as it was. Registering a table of distinct names on an empty list
    makes each name resolve to its entry. *)
Theorem register_then_lookup lst cmd cmds st :
  (AllocatePool pf (trace st) sizeof_cmdlist_node = true ->
   exists st',
     fastboot_register_into pf lst cmd st = (EFI_SUCCESS, cmd :: lst, st')
     /\ get_cmd (cmd :: lst) (cmd_name cmd) = Some cmd
     /\ forall nm, nm <> cmd_name cmd -> get_cmd (cmd :: lst) nm = get_cmd lst nm) /\
  (AllocatePool pf (trace st) sizeof_cmdlist_node = false ->
   exists st', fastboot_register_into pf lst cmd st = (EFI_OUT_OF_RESOURCES, lst, st')) /\
  (pool_grants_all pf -> NoDup (map cmd_name cmds) ->
   exists st',
     register_all pf cmds [] st = (EFI_SUCCESS, rev cmds, st')
     /\ forall c, In c cmds -> get_cmd (rev cmds) (cmd_name c) = Some c).
Proof.
  split; [| split].
  - intros Ha. unfold fastboot_register_into, do_AllocatePool. rewrite Ha.
    eexists. split; [reflexivity |]. split.
    + cbn. rewrite String.eqb_refl. reflexivity.
    + intros nm Hne. cbn. apply String.eqb_neq in Hne. rewrite Hne. reflexivity.
  - intros Ha. unfold fastboot_register_into, do_AllocatePool. rewrite Ha.
    eexists. reflexivity.
  - intros Hp Hnd. destruct (register_all_granted cmds [] st Hp) as (st' & E & _).
    rewrite app_nil_r in E. exists st'. split; [exact E |].
    intros c Hin. apply get_cmd_unique.
    + rewrite map_rev. apply NoDup_rev. exact Hnd.
    + apply -> in_rev. exact Hin.
Qed.

(** *** Publishing *)

Lemma store_var_Forall (P : fastboot_var -> Prop) nm f l :
  (forall var, P (f var)) -> Forall P l -> Forall P (store_var nm f l).
Proof.
  intros Hf H. induction H as [| v l Hv Hl IH]; cbn; [constructor |].
  destruct (String.eqb nm (name v)); constructor; auto.
Qed.

(** X12: publishing a name for the first time. A value of 64 bytes or more is
    refused with EFI_BUFFER_TOO_SMALL and a name of 64 bytes or more with
    EFI_INVALID_PARAMETER, before anything is allocated; a failed allocation
    is reported as EFI_INVALID_PARAMETER and leaves the list alone; otherwise
    the variable is put in front of the list, is what its name resolves to,
    and the other names resolve as before. Whatever the outcome, the values
    stored keep fitting their arrays. *)
Theorem publish_new_variable nm val st :
  (63 < strlena val ->
   fastboot_publish pf nm val st = (EFI_BUFFER_TOO_SMALL, st)) /\
  (strlena val <= 63 -> 63 < strlena nm ->
   fastboot_publish pf nm val st = (EFI_INVALID_PARAMETER, st)) /\
  (strlena val <= 63 -> strlena nm <= 63 -> fastboot_getvar nm st = None ->
   AllocatePool pf (trace st) sizeof_fastboot_var = false ->
   fst (fastboot_publish pf nm val st) = EFI_INVALID_PARAMETER
   /\ varlist (snd (fastboot_publish pf nm val st)) = varlist st) /\
  (strlena val <= 63 -> strlena nm <= 63 -> fastboot_getvar nm st = None ->
   AllocatePool pf (trace st) sizeof_fastboot_var = true ->
   let var := {| name := nm; value := val; get_value := None |} in
   let st' := snd (fastboot_publish pf nm val st) in
   fst (fastboot_publish pf nm val st) = EFI_SUCCESS
   /\ varlist st' = var :: varlist st
   /\ fastboot_getvar nm st' = Some var
   /\ forall nm', nm' <> nm -> fastboot_getvar nm' st' = fastboot_getvar nm' st) /\
  (values_fit (varlist st) ->
   values_fit (varlist (snd (fastboot_publish pf nm val st)))).
Proof.
  split; [| split; [| split; [| split]]].
  - intros Hv. unfold fastboot_publish.
    assert (E : (MAX_VARIABLE_LENGTH <? strlena val + 1) = true)
      by (apply Z.ltb_lt; unfold MAX_VARIABLE_LENGTH; lia).
    rewrite E. reflexivity.
  - intros Hv Hn. unfold fastboot_publish, fastboot_getvar_or_create.
    assert (E1 : (MAX_VARIABLE_LENGTH <? strlena val + 1) = false)
      by (apply Z.ltb_ge; unfold MAX_VARIABLE_LENGTH; lia).
    assert (E2 : (MAX_VARIABLE_LENGTH <? strlena nm + 1) = true)
      by (apply Z.ltb_lt; unfold MAX_VARIABLE_LENGTH; lia).
    rewrite E1, E2. reflexivity.
  - intros Hv Hn Hget Ha. unfold fastboot_publish, fastboot_getvar_or_create.
    assert (E1 : (MAX_VARIABLE_LENGTH <? strlena val + 1) = false)
      by (apply Z.ltb_ge; unfold MAX_VARIABLE_LENGTH; lia).
    assert (E2 : (MAX_VARIABLE_LENGTH <? strlena nm + 1) = false)
      by (apply Z.ltb_ge; unfold MAX_VARIABLE_LENGTH; lia).
    rewrite E1, E2, Hget. unfold do_AllocatePool. rewrite Ha. split; reflexivity.
  - intros Hv Hn Hget Ha var st'. subst var st'.
    unfold fastboot_publish, fastboot_getvar_or_create.
    assert (E1 : (MAX_VARIABLE_LENGTH <? strlena val + 1) = false)
      by (apply Z.ltb_ge; unfold MAX_VARIABLE_LENGTH; lia).
    assert (E2 : (MAX_VARIABLE_LENGTH <? strlena nm + 1) = false)
      by (apply Z.ltb_ge; unfold MAX_VARIABLE_LENGTH; lia).
    rewrite E1, E2, Hget. unfold do_AllocatePool. rewrite Ha.
    cbn [negb fst snd varlist set_varlist log set_trace store_var name].
    rewrite !(String.eqb_refl nm). split; [reflexivity |]. split; [reflexivity |].
    unfold fastboot_getvar. cbn [varlist set_varlist find name].
    rewrite !(String.eqb_refl nm). split; [reflexivity |].
    intros nm' Hne. apply String.eqb_neq in Hne. rewrite Hne. reflexivity.
  - intros Hfit. unfold fastboot_publish.
    destruct (MAX_VARIABLE_LENGTH <? strlena val + 1) eqn:E1; [exact Hfit |].
    apply Z.ltb_ge in E1. unfold MAX_VARIABLE_LENGTH in E1.
    unfold fastboot_getvar_or_create.
    destruct (MAX_VARIABLE_LENGTH <? strlena nm + 1); [exact Hfit |].
    destruct (fastboot_getvar nm st) as [v0 |].
    + cbn [snd varlist set_varlist]. apply store_var_Forall; [| exact Hfit].
      intros var. cbn. unfold MAX_VARIABLE_LENGTH. lia.
    + unfold do_AllocatePool.
      destruct (AllocatePool pf (trace st) sizeof_fastboot_var);
        cbn [negb snd varlist set_varlist log set_trace store_var name];
        [| exact Hfit].
      rewrite (String.eqb_refl nm). constructor; [| exact Hfit].
      cbn. unfold MAX_VARIABLE_LENGTH. lia.
Qed.

Lemma publish_lookup nm val st :
  pool_grants_all pf -> strlena nm <= 63 -> strlena val <= 63 ->
  let st' := snd (fastboot_publish pf nm val st) in
  fst (fastboot_publish pf nm val st) = EFI_SUCCESS
  /\ option_map value (fastboot_getvar nm st') = Some val
  /\ forall nm', nm' <> nm -> fastboot_getvar nm' st' = fastboot_getvar nm' st.
Proof.
  intros Hp Hn Hv st'. subst st'.
  destruct (fastboot_getvar nm st) as [v0 |] eqn:Hget.
  - assert (Hpub : fastboot_publish pf nm val st =
                   (EFI_SUCCESS,
                    set_varlist
                      (store_var nm
                         (fun var => {| name := name var; value := val;
                                        get_value := get_value var |})
                         (varlist st)) st)).
    { unfold fastboot_publish, fastboot_getvar_or_create.
      assert (E1 : (MAX_VARIABLE_LENGTH <? strlena val + 1) = false)
        by (apply Z.ltb_ge; unfold MAX_VARIABLE_LENGTH; lia).
      assert (E2 : (MAX_VARIABLE_LENGTH <? strlena nm + 1) = false)
        by (apply Z.ltb_ge; unfold MAX_VARIABLE_LENGTH; lia).
      rewrite E1, E2, Hget. reflexivity. }
    rewrite Hpub. cbn [fst snd]. unfold fastboot_getvar in *.
    cbn [varlist set_varlist]. fold (named nm) in *.
    split; [reflexivity |]. split.
    + rewrite (find_store_var_same nm _ _ v0); [reflexivity | reflexivity | exact Hget].
    + intros nm' Hne. apply (find_store_var_other nm nm'); [reflexivity | exact Hne].
  - unfold fastboot_publish, fastboot_getvar_or_create.
    assert (E1 : (MAX_VARIABLE_LENGTH <? strlena val + 1) = false)
      by (apply Z.ltb_ge; unfold MAX_VARIABLE_LENGTH; lia).
    assert (E2 : (MAX_VARIABLE_LENGTH <? strlena nm + 1) = false)
      by (apply Z.ltb_ge; unfold MAX_VARIABLE_LENGTH; lia).
    rewrite E1, E2, Hget. unfold do_AllocatePool. rewrite Hp.
    cbn [negb fst snd varlist set_varlist log set_trace store_var name].
    rewrite !(String.eqb_refl nm). split; [reflexivity |].
    unfold fastboot_getvar. cbn [varlist set_varlist find name].
    rewrite !(String.eqb_refl nm). split; [reflexivity |].
    intros nm' Hne. apply String.eqb_neq in Hne. rewrite Hne. reflexivity.
Qed.

Lemma strip_zeros_length s : (String.length (strip_zeros s) <= String.length s)%nat.
Proof.
  induction s as [| c s IH]; [cbn; lia |].
  destruct s as [| d s]; [cbn; lia |].
  change (strip_zeros (String c (String d s))) with
    (if Ascii.eqb c "0"%char then strip_zeros (String d s) else String c (String d s)).
  destruct (Ascii.eqb c "0"%char); [| lia].
  change (String.length (String c (String d s)))
    with (S (String.length (String d s))). lia.
Qed.

Lemma fmt_0x_lX_length v : strlena (fmt_0x_lX v) <= 18.
Proof.
  unfold fmt_0x_lX, strlena. rewrite length_append.
  pose proof (strip_zeros_length (hex_nibbles true 16 (u64 v))) as H.
  rewrite hex_nibbles_length in H. cbn [String.length]. lia.
Qed.

Lemma get_ptype_str_length guid : strlena (get_ptype_str guid) = 4.
Proof.
  unfold get_ptype_str.
  destruct (guid_equal guid guid_linux_data); [reflexivity |].
  destruct (guid_equal guid EfiPartTypeSystemPartitionGuid); reflexivity.
Qed.

(** X13: [publish_part]. The size string is never NULL; a partition name of
    more than 48 characters is refused before anything is published; any
    shorter name is answered EFI_SUCCESS, whatever became of the three
    publications; and with memory at hand the three variables then read the
    size in hexadecimal, the type and "no". *)
Theorem publish_part_outcome part_name size guid st :
  get_psize_str size = Some (fmt_0x_lX size) /\
  (48 < strlena part_name ->
   publish_part pf part_name size guid st = (EFI_INVALID_PARAMETER, st)) /\
  (strlena part_name <= 48 ->
   fst (publish_part pf part_name size guid st) = EFI_SUCCESS) /\
  (strlena part_name <= 48 -> pool_grants_all pf ->
   let st' := snd (publish_part pf part_name size guid st) in
   option_map value (fastboot_getvar ("partition-size:" ++ part_name) st')
     = Some (fmt_0x_lX size)
   /\ option_map value (fastboot_getvar ("partition-type:" ++ part_name) st')
      = Some (get_ptype_str guid)
   /\ option_map value (fastboot_getvar ("has-slot:" ++ part_name) st')
      = Some "no").
Proof.
  pose proof (fmt_0x_lX_length size) as Hsz.
  assert (Hps : get_psize_str size = Some (fmt_0x_lX size)).
  { unfold get_psize_str.
    assert (E : (MAX_VARIABLE_LENGTH <=? strlena (fmt_0x_lX size)) = false)
      by (apply Z.leb_gt; unfold MAX_VARIABLE_LENGTH; lia).
    rewrite E. reflexivity. }
  assert (L1 : strlena ("partition-size" ++ ":" ++ part_name) = 15 + strlena part_name).
  { unfold strlena. cbn [append String.length]. lia. }
  assert (L2 : strlena ("partition-type" ++ ":" ++ part_name) = 15 + strlena part_name).
  { unfold strlena. cbn [append String.length]. lia. }
  assert (L3 : strlena ("has-slot" ++ ":" ++ part_name) = 9 + strlena part_name).
  { unfold strlena. cbn [append String.length]. lia. }
  split; [exact Hps |]. split; [| split].
  - intros Hlong. unfold publish_part. cbn [publish_descriptors]. rewrite Hps.
    assert (E : (MAX_VARIABLE_LENGTH <=? strlena ("partition-size" ++ ":" ++ part_name))
                = true)
      by (apply Z.leb_le; rewrite L1; unfold MAX_VARIABLE_LENGTH; lia).
    rewrite E. reflexivity.
  - intros Hfit. unfold publish_part. cbn [publish_descriptors]. rewrite Hps.
    assert (E1 : (MAX_VARIABLE_LENGTH <=? strlena ("partition-size" ++ ":" ++ part_name))
                 = false)
      by (apply Z.leb_gt; rewrite L1; unfold MAX_VARIABLE_LENGTH; lia).
    assert (E2 : (MAX_VARIABLE_LENGTH <=? strlena ("partition-type" ++ ":" ++ part_name))
                 = false)
      by (apply Z.leb_gt; rewrite L2; unfold MAX_VARIABLE_LENGTH; lia).
    assert (E3 : (MAX_VARIABLE_LENGTH <=? strlena ("has-slot" ++ ":" ++ part_name))
                 = false)
      by (apply Z.leb_gt; rewrite L3; unfold MAX_VARIABLE_LENGTH; lia).
    rewrite E1. destruct (fastboot_publish pf _ _ st) as [r1 st1].
    rewrite E2. destruct (fastboot_publish pf _ _ st1) as [r2 st2].
    rewrite E3. destruct (fastboot_publish pf _ _ st2) as [r3 st3].
    reflexivity.
  - intros Hfit Hp st'. subst st'.
    unfold publish_part. cbn [publish_descriptors]. rewrite Hps.
    assert (E1 : (MAX_VARIABLE_LENGTH <=? strlena ("partition-size" ++ ":" ++ part_name))
                 = false)
      by (apply Z.leb_gt; rewrite L1; unfold MAX_VARIABLE_LENGTH; lia).
    assert (E2 : (MAX_VARIABLE_LENGTH <=? strlena ("partition-type" ++ ":" ++ part_name))
                 = false)
      by (apply Z.leb_gt; rewrite L2; unfold MAX_VARIABLE_LENGTH; lia).
    assert (E3 : (MAX_VARIABLE_LENGTH <=? strlena ("has-slot" ++ ":" ++ part_name))
                 = false)
      by (apply Z.leb_gt; rewrite L3; unfold MAX_VARIABLE_LENGTH; lia).
    rewrite E1.
    destruct (publish_lookup ("partition-size" ++ ":" ++ part_name)
                (fmt_0x_lX size) st Hp ltac:(lia) ltac:(lia)) as (_ & A2 & _).
    destruct (fastboot_publish pf ("partition-size" ++ ":" ++ part_name)
                (fmt_0x_lX size) st) as [r1 st1].
    cbn [snd] in A2. rewrite E2.
    pose proof (get_ptype_str_length guid) as Hty.
    destruct (publish_lookup ("partition-type" ++ ":" ++ part_name)
                (get_ptype_str guid) st1 Hp ltac:(lia) ltac:(lia)) as (_ & B2 & B3).
    destruct (fastboot_publish pf ("partition-type" ++ ":" ++ part_name)
                (get_ptype_str guid) st1) as [r2 st2].
    cbn [snd] in B2, B3. rewrite E3.
    destruct (publish_lookup ("has-slot" ++ ":" ++ part_name) "no" st2 Hp
                ltac:(lia) ltac:(cbn; lia)) as (_ & C2 & C3).
    destruct (fastboot_publish pf ("has-slot" ++ ":" ++ part_name) "no" st2)
      as [r3 st3].
    cbn [snd publish_descriptors] in *.
    change ("partition-size:" ++ part_name) with ("partition-size" ++ ":" ++ part_name).
    change ("partition-type:" ++ part_name) with ("partition-type" ++ ":" ++ part_name).
    change ("has-slot:" ++ part_name) with ("has-slot" ++ ":" ++ part_name).
    split; [| split].
    + rewrite C3 by (intros H; discriminate H).
      rewrite B3 by (intros H; discriminate H). exact A2.
    + rewrite C3 by (intros H; discriminate H). exact B2.
    + exact C2.
Qed.

End ReplyFacts.

(* ------------------------------------------------------------------------- *)
(** ** fastboot.c: boot, and a line from the wire to its handler *)
(* ------------------------------------------------------------------------- *)

Section BootFacts.
Import Efi Fastboot Callbacks CommandLine.
Open Scope string_scope.
Open Scope Z_scope.

Variable pf : platform.
Variable tp : transport.

Lemma fastboot_fail_sent reason st :
  transport_takes_all pf -> fastboot_state st <> STATE_TX ->
  fastboot_fail pf reason st =
    set_fastboot_state (next_state st)
      (log (TransportWrite (fastboot_build_ack_msg "FAIL" reason) MAGIC_LENGTH
              (transport_write pf (trace st)
                 (fastboot_build_ack_msg "FAIL" reason) MAGIC_LENGTH)) st).
Proof.
  intros Hw Htx. unfold fastboot_fail. rewrite (fastboot_states_eqb_neq _ _ Htx).
  unfold fastboot_ack, do_transport_write. cbn [trace set_fastboot_state].
  rewrite Hw. reflexivity.
Qed.

(** X7: [boot] between two commands. With a download of [dlsize] bytes at hand
    and memory for a copy, the copy is what the session hands over as boot
    image, OKAY goes out and the session is stopping; when the copy cannot be
    allocated the answer is FAIL and the session goes on; with nothing
    downloaded the answer is OKAY all the same and the session stops with no
    image to boot. *)
Theorem boot_hands_over_the_download argc argv st :
  transport_takes_all pf ->
  fastboot_state st = STATE_COMMAND ->
  let st' := cmd_boot pf argc argv st in
  (forall b, dlbuffer st = Some b -> dlsize st <> 0 ->
     AllocatePool pf (trace st) (dlsize st) = true ->
     fastboot_bootimage st' = Some (dlsize st)
     /\ fastboot_efiimage st' = None
     /\ fastboot_imagesize st' = dlsize st
     /\ fastboot_target st' = UNKNOWN_TARGET
     /\ fastboot_state st' = STATE_STOPPING
     /\ frames_written (trace st') = (frames_written (trace st) ++ ["OKAY"])%list) /\
  (forall b, dlbuffer st = Some b -> dlsize st <> 0 ->
     AllocatePool pf (trace st) (dlsize st) = false ->
     fastboot_bootimage st' = fastboot_bootimage st
     /\ fastboot_state st' = next_state st
     /\ next_state st' = next_state st
     /\ frames_written (trace st') =
          (frames_written (trace st) ++ ["FAILFailed to stop transport"])%list) /\
  (dlbuffer st = None \/ dlsize st = 0 ->
     fastboot_bootimage st' = None
     /\ fastboot_efiimage st' = None
     /\ fastboot_state st' = STATE_STOPPING
     /\ frames_written (trace st') = (frames_written (trace st) ++ ["OKAY"])%list).
Proof.
  intros Hw Hst st'. subst st'. split; [| split].
  - intros b Hb Hsz Ha. unfold cmd_boot, fastboot_stop, do_AllocatePool.
    rewrite Hb. apply Z.eqb_neq in Hsz.
    cbn [trace set_fastboot_target set_fastboot_imagesize orb].
    rewrite Hsz, Ha. cbn [negb andb].
    cbn [fastboot_state set_fastboot_efiimage set_fastboot_bootimage log set_trace
         set_fastboot_target set_fastboot_imagesize].
    rewrite Hst. cbn [fastboot_states_eqb EFI_ERROR EFI_SUCCESS Z.testbit].
    rewrite fastboot_okay_sent; [| exact Hw | cbn; rewrite Hst; discriminate].
    cbn. rewrite !frames_written_app. cbn. rewrite app_nil_r. repeat split.
  - intros b Hb Hsz Ha. unfold cmd_boot, fastboot_stop, do_AllocatePool.
    rewrite Hb. apply Z.eqb_neq in Hsz.
    cbn [trace set_fastboot_target set_fastboot_imagesize orb].
    rewrite Hsz, Ha. cbn [negb andb].
    change (EFI_ERROR EFI_OUT_OF_RESOURCES) with true. cbv iota.
    rewrite fastboot_fail_sent; [| exact Hw | cbn; rewrite Hst; discriminate].
    cbn. rewrite !frames_written_app. cbn. rewrite app_nil_r. repeat split.
  - intros Hnone. unfold cmd_boot, fastboot_stop.
    assert (E : negb (dlsize st =? 0)
                && ((match dlbuffer st with Some _ => true | None => false end)
                    || false) = false).
    { destruct Hnone as [-> | ->]; [apply andb_false_r | reflexivity]. }
    rewrite E.
    cbn [fastboot_state set_fastboot_efiimage set_fastboot_bootimage
         set_fastboot_target set_fastboot_imagesize].
    rewrite Hst. cbn [fastboot_states_eqb EFI_ERROR EFI_SUCCESS Z.testbit].
    rewrite fastboot_okay_sent; [| exact Hw | cbn; rewrite Hst; discriminate].
    cbn. rewrite !frames_written_app. cbn.
    destruct (dlbuffer st); repeat split.
Qed.

Lemma c_string_nul_free s : nul_free s -> c_string s = s.
Proof.
  induction s as [| c s IH]; intros H; [reflexivity |].
  cbn. assert (Hc : c <> zero) by (apply H; left; reflexivity).
  apply Ascii.eqb_neq in Hc. rewrite Hc. rewrite IH; [reflexivity |].
  intros d Hd. apply H. right. exact Hd.
Qed.

(** X3: from the wire to the handler. In STATE_COMPLETE a reception is taken
    for a command only in the command buffer and only when it leaves room for
    the terminator; anything else is answered FAIL. A well-formed line of at
    most sixteen tokens that is taken reaches the handler registered under its
    first token, with the tokens as arguments, provided the lock state allows
    the command. *)
Theorem received_line_reaches_handler nm args cmd cmdlist argc0 buf data lk :
  fastboot_state (fb lk) = STATE_COMPLETE ->
  word ": " nm -> Forall (word " ") args -> (List.length args <= 15)%nat ->
  nul_free (command_line nm args) ->
  strlena (command_line nm args) < command_buffer_size lk ->
  get_cmd cmdlist nm = Some cmd ->
  device_state_rank (min_state cmd) <= device_state_rank (get_current_state (fb lk)) ->
  let cmdbuf := {| base := CommandBuffer; displacement := 0 |} in
  let lk1 := fastboot_process_rx pf tp cmdbuf (command_line nm args) lk in
  (fb lk1 =
     set_fastboot_state STATE_COMMAND
       (set_command_buffer (command_line nm args) (fb lk))
   /\ reads lk1 = reads lk
   /\ fastboot_run_command pf cmdlist argc0 (fb lk1) =
        let st' :=
          set_last_received_len 0
            (set_received_len 0
               (handle cmd (1 + Z.of_nat (List.length args)) (nm :: args)
                  (set_command_buffer nm (fb lk1)))) in
        if fastboot_states_eqb (fastboot_state st') STATE_TX
        then flush_tx_buffer pf st' else Some st') /\
  (pointer_eqb buf cmdbuf = false \/ command_buffer_size lk <= strlena data ->
   fastboot_process_rx pf tp buf data lk =
     with_fb (fastboot_fail pf "Inappropriate command buffer or length" (fb lk)) lk).
Proof.
  intros Hst Hnm Hargs Hlen Hnul Hsize Hcmd Hrank cmdbuf lk1.
  assert (E1 : lk1 =
    with_fb (set_fastboot_state STATE_COMMAND
               (set_command_buffer (command_line nm args) (fb lk))) lk).
  { unfold lk1, fastboot_process_rx. rewrite Hst. cbv zeta.
    assert (El : (command_buffer_size lk <=? strlena (command_line nm args)) = false)
      by (apply Z.leb_gt; exact Hsize).
    rewrite El. cbn [pointer_eqb cmdbuf base displacement buffer_eqb Z.eqb andb negb orb].
    rewrite (c_string_nul_free _ Hnul). reflexivity. }
  split.
  - rewrite E1. cbn [fb with_fb reads]. split; [reflexivity |]. split; [reflexivity |].
    destruct (command_line_tokens nm args argc0
                (set_fastboot_state STATE_COMMAND
                   (set_command_buffer (command_line nm args) (fb lk)))
                Hnm Hargs eq_refl) as [Hok _].
    set (st1 := set_fastboot_state STATE_COMMAND
                  (set_command_buffer (command_line nm args) (fb lk))) in *.
    assert (Hrun :
      fastboot_run_command pf cmdlist argc0 st1 =
        let st' :=
          set_last_received_len 0
            (set_received_len 0
               (fastboot_run_cmd pf cmdlist nm (1 + Z.of_nat (List.length args))
                  (nm :: args) (set_command_buffer nm st1))) in
        if fastboot_states_eqb (fastboot_state st') STATE_TX
        then flush_tx_buffer pf st' else Some st').
    { unfold fastboot_run_command. rewrite (Hok Hlen). reflexivity. }
    rewrite Hrun. unfold fastboot_run_cmd. rewrite Hcmd. subst st1.
    assert (Er : (device_state_rank
                    (get_current_state
                       (set_command_buffer nm
                          (set_fastboot_state STATE_COMMAND
                             (set_command_buffer (command_line nm args) (fb lk)))))
                  <? device_state_rank (min_state cmd)) = false).
    { apply Z.ltb_ge. exact Hrank. }
    rewrite Er. reflexivity.
  - intros Hbad. unfold fastboot_process_rx. rewrite Hst. cbv zeta.
    assert (E : negb (pointer_eqb buf cmdbuf) || (command_buffer_size lk <=? strlena data)
                = true).
    { destruct Hbad as [-> | H]; [reflexivity |].
      apply Z.leb_le in H. rewrite H. apply orb_true_r. }
    fold cmdbuf. rewrite E. reflexivity.
Qed.

End BootFacts.

(* ------------------------------------------------------------------------- *)
(** ** fastboot.c: long INFO strings *)
(* ------------------------------------------------------------------------- *)

Section LongInfoFacts.
Import Efi Fastboot Callbacks LongInfo.
Open Scope string_scope.
Open Scope Z_scope.

Variable pf : platform.

Lemma advance_shorter n str :
  (n < String.length str)%nat ->
  (String.length (advance (S n) str) < String.length str)%nat.
Proof.
  revert str. induction n as [| n IH]; intros [| c str] H; cbn in *; try lia.
  destruct str as [| d str]; cbn in *; [lia |].
  specialize (IH (String d str)). cbn in IH.
  assert (n < S (String.length str))%nat by lia.
  specialize (IH H0). lia.
Qed.

Lemma printf_plain_percent_free s : percent_free s -> printf_plain s = Some s.
Proof.
  induction s as [| c s IH]; intros H; [reflexivity |].
  cbn. assert (Hc : c <> "%"%char) by (apply H; left; reflexivity).
  apply Ascii.eqb_neq in Hc. rewrite Hc. rewrite IH; [reflexivity |].
  intros d Hd. apply H. right. exact Hd.
Qed.

Lemma substring_advance n s : substring 0 n s ++ advance n s = s.
Proof.
  revert s. induction n as [| n IH]; intros [| c s]; cbn; try reflexivity.
  rewrite IH. reflexivity.
Qed.

Lemma percent_free_split n s :
  percent_free s -> percent_free (substring 0 n s) /\ percent_free (advance n s).
Proof.
  revert s. induction n as [| n IH]; intros [| c s] H; cbn.
  - split; [intros c [] | exact H].
  - split; [intros d [] | exact H].
  - split; exact H.
  - destruct (IH s) as [H1 H2]; [intros d Hd; apply H; right; exact Hd |].
    split; [| exact H2].
    intros d [<- | Hd]; [apply H; left; reflexivity | apply H1; exact Hd].
Qed.

Lemma substring_full_length n s :
  (n <= String.length s)%nat -> String.length (substring 0 n s) = n.
Proof.
  revert s. induction n as [| n IH]; intros [| c s] H; cbn in *;
    try lia; try reflexivity.
  rewrite IH by lia. reflexivity.
Qed.

Lemma concat_cons (p : string) (parts : list string) :
  String.concat "" (p :: parts) = p ++ String.concat "" parts.
Proof.
  destruct parts as [| q parts]; cbn; [| reflexivity].
  induction p as [| c p IH]; cbn; [reflexivity | now rewrite <- IH].
Qed.

Lemma info_frame_whole p :
  (String.length p <= 59)%nat -> fastboot_build_ack_msg "INFO" p = "INFO" ++ p.
Proof.
  intros H. unfold fastboot_build_ack_msg, truncate.
  change (Z.to_nat (INFO_PAYLOAD - 1)) with 59%nat.
  rewrite (substring_whole p 59 H). reflexivity.
Qed.

(** X10: a long string goes out whole. For a string without a conversion
    character [fastboot_info_long_string] returns and queues INFO frames whose
    payloads, none longer than 59 characters, read one after the other give
    the string back. *)
Theorem long_info_loses_nothing str :
  forall st,
    pool_grants_all pf -> percent_free str ->
    exists parts st',
      fastboot_info_long_string pf str st = Some st'
      /\ String.concat "" parts = str
      /\ Forall (fun p => (String.length p <= 59)%nat) parts
      /\ txbuf_head st' = (txbuf_head st ++ map (append "INFO") parts)%list
      /\ fastboot_state st' = STATE_TX.
Proof.
  remember (String.length str) as n eqn:Hn. revert str Hn.
  induction n as [n IH] using lt_wf_ind. intros str Hn st Hp Hfree.
  rewrite fastboot_info_long_string_equation_1.
  destruct (Z_lt_dec max_len (strlena str)) as [Hl | Hl].
  - destruct (percent_free_split 59 str Hfree) as [F1 F2].
    simp fastboot_info_long_string.
    change (Z.to_nat max_len) with 59%nat.
    rewrite (printf_plain_percent_free _ F1).
    simp fastboot_info_long_string.
    rewrite <- fastboot_info_long_string_equation_1.
    change (Z.to_nat max_len) with 59%nat.
    assert (Hlong : (59 < String.length str)%nat).
    { unfold strlena, max_len, INFO_PAYLOAD, MAGIC_LENGTH, CODE_LENGTH in Hl. lia. }
    assert (Hshort : (String.length (advance 59 str) < n)%nat).
    { subst n. apply (advance_shorter 58). lia. }
    assert (Hlen : String.length (substring 0 59 str) = 59%nat)
      by (apply substring_full_length; lia).
    destruct (IH _ Hshort (advance 59 str) eq_refl
                (fastboot_info pf (substring 0 59 str) st) Hp F2)
      as (parts & st' & E & Hcat & Hall & Hq & Hs).
    destruct (fastboot_info_queues pf (substring 0 59 str) st Hp) as (Q1 & _).
    exists (substring 0 59 str :: parts), st'. split; [exact E |].
    split; [rewrite concat_cons, Hcat; apply substring_advance |].
    split; [constructor; [lia | exact Hall] |].
    split; [| exact Hs].
    rewrite Hq, Q1, info_frame_whole by lia. rewrite <- app_assoc. reflexivity.
  - simp fastboot_info_long_string.
    rewrite (printf_plain_percent_free _ Hfree).
    simp fastboot_info_long_string.
    assert (Hshort : (String.length str <= 59)%nat).
    { unfold strlena, max_len, INFO_PAYLOAD, MAGIC_LENGTH, CODE_LENGTH in Hl. lia. }
    destruct (fastboot_info_queues pf str st Hp) as (Q1 & Q2 & _).
    exists [str], (fastboot_info pf str st). split; [reflexivity |].
    split; [reflexivity |]. split; [constructor; [exact Hshort | constructor] |].
    split; [| exact Q2].
    rewrite Q1, info_frame_whole by exact Hshort. reflexivity.
Qed.

End LongInfoFacts.

(* ------------------------------------------------------------------------- *)
(** ** flash.c: writes in a row, flash_partition, flash_fill, erase *)
(* ------------------------------------------------------------------------- *)

Section FlashOpsFacts.
Import Efi Flash FlashOps.

Variable fw : firmware.
Variable sw : storage.

Lemma total_length_nonneg chunks : 0 <= total_length chunks.
Proof.
  unfold total_length. induction chunks as [| c rest IH]; cbn [fold_right]; lia.
Qed.

(** X14: chunks written in a row tile the partition from the cursor on: each
    request starts where the one before ended, and the cursor ends behind the
    last, as long as the chunks fit between the cursor and the end of the
    partition. *)
Theorem consecutive_writes_are_contiguous chunks :
  forall st b,
    (forall w, EFI_ERROR (WriteDisk fw w) = false) ->
    bio (gparti st) = Some b -> sane_partition (gparti st) b ->
    starting_lba (gparti st) * BlockSize b <= cur_offset st ->
    cur_offset st + total_length chunks <= (ending_lba (gparti st) + 1) * BlockSize b ->
    let st' := snd (flash_write_each fw chunks st) in
    EFI_ERROR (fst (flash_write_each fw chunks st)) = false
    /\ writes st' = (writes st ++ tiling (MediaId b) (cur_offset st) chunks)%list
    /\ cur_offset st' = cur_offset st + total_length chunks
    /\ gparti st' = gparti st.
Proof.
  induction chunks as [| c rest IH]; intros st b Hw Hb Hs Hlo Hhi.
  - cbn. rewrite app_nil_r, Z.add_0_r. repeat split.
  - cbn [total_length fold_right] in Hhi. fold (total_length rest) in Hhi.
    pose proof (total_length_nonneg rest) as Hr.
    pose proof Hs as (S0 & S1 & S2 & S3).
    assert (Hin : is_inside_partition (gparti st) b (cur_offset st)
                    (Z.of_nat (List.length c)) = true).
    { apply is_inside_partition_exact; [exact Hs | nia |].
      unfold in_partition_range. lia. }
    cbn [flash_write_each].
    rewrite (flash_write_accepted fw c _ st b Hb Hin). rewrite Hw.
    set (w := {| w_media := MediaId b; w_offset := cur_offset st;
                 w_size := Z.of_nat (List.length c); w_data := c |}).
    assert (Hu : u64 (cur_offset st + Z.of_nat (List.length c))
                 = cur_offset st + Z.of_nat (List.length c))
      by (apply u64_small; nia).
    rewrite Hu.
    specialize (IH (set_cur_offset (cur_offset st + Z.of_nat (List.length c))
                      (push_write w st)) b Hw Hb Hs).
    cbn [cur_offset set_cur_offset push_write gparti writes] in IH.
    destruct IH as (I1 & I2 & I3 & I4); [lia | lia |].
    cbv zeta. rewrite I1, I2, I3, I4. cbn [tiling total_length fold_right].
    fold (total_length rest). rewrite <- app_assoc. cbn [app].
    repeat split. lia.
Qed.

(** *** flash_partition *)

(** X15: [flash_partition] of a raw image for a resolved partition: no longer
    than the partition, it goes to [WriteDisk] in one request at the first
    byte of the partition, and the GPT is refreshed behind a successful write
    when the partition is the EFI system partition; longer than the partition,
    it is refused with EFI_INVALID_PARAMETER and nothing is written. *)
Theorem flash_partition_raw_image data size label d ret0 g b :
  gpt_get_partition_by_label fw label = (ret0, g) ->
  EFI_ERROR ret0 = false ->
  bio g = Some b -> sane_partition g b ->
  is_sparse_image sw data size = false ->
  0 <= size -> starting_lba g * BlockSize b + size < 2 ^ 64 ->
  let partlen := (ending_lba g + 1 - starting_lba g) * BlockSize b in
  let w := {| w_media := MediaId b; w_offset := starting_lba g * BlockSize b;
              w_size := size; w_data := data |} in
  let written :=
    set_cur_offset (starting_lba g * BlockSize b + size)
      (push_write w (set_cur_offset (starting_lba g * BlockSize b)
                       (set_gparti g (engine d)))) in
  (partlen < size ->
   flash_partition fw sw data size label d =
     Some (EFI_INVALID_PARAMETER,
           with_engine (set_cur_offset (starting_lba g * BlockSize b)
                          (set_gparti g (engine d))) d)) /\
  (size <= partlen -> EFI_ERROR (WriteDisk fw w) = true ->
   flash_partition fw sw data size label d =
     Some (WriteDisk fw w, with_engine written d)) /\
  (size <= partlen -> EFI_ERROR (WriteDisk fw w) = false ->
   flash_partition fw sw data size label d =
     if Fastboot.guid_equal (part_type sw label)
          Fastboot.EfiPartTypeSystemPartitionGuid
     then Some (gpt_refresh sw (calls d), note GptRefresh (with_engine written d))
     else Some (EFI_SUCCESS, with_engine written d)).
Proof.
  intros Hgpt Hret0 Hbio Hs Hraw Hsize Hnowrap partlen w written.
  pose proof Hs as (S0 & S1 & S2 & S3).
  assert (Hstart : u64 (starting_lba g * BlockSize b) = starting_lba g * BlockSize b)
    by (apply u64_small; nia).
  set (st0 := set_cur_offset (starting_lba g * BlockSize b) (set_gparti g (engine d))).
  assert (Hguard : is_inside_partition g b (starting_lba g * BlockSize b) size = true
                   <-> in_partition_range g b (starting_lba g * BlockSize b) size).
  { apply is_inside_partition_exact; [exact Hs | lia]. }
  assert (Hunfold :
    flash_partition fw sw data size label d =
      let (ret, st) := flash_write fw data size st0 in
      if EFI_ERROR ret then Some (ret, with_engine st d)
      else if Fastboot.guid_equal (part_type sw label)
                Fastboot.EfiPartTypeSystemPartitionGuid
      then Some (do_gpt_refresh sw (with_engine st d))
      else Some (EFI_SUCCESS, with_engine st d)).
  { unfold flash_partition. rewrite Hgpt, Hret0, Hbio, Hraw, Hstart. reflexivity. }
  rewrite Hunfold. split; [| split].
  - intros Hbig.
    assert (Hg : is_inside_partition (gparti st0) b (cur_offset st0) size = false).
    { cbn [st0 gparti cur_offset set_cur_offset set_gparti].
      apply not_true_is_false. intros E.
      apply Hguard in E. unfold in_partition_range in E. subst partlen. nia. }
    rewrite (flash_write_refused fw data size st0 b Hbio Hg). reflexivity.
  - intros Hfit Herr.
    assert (Hg : is_inside_partition (gparti st0) b (cur_offset st0) size = true).
    { cbn [st0 gparti cur_offset set_cur_offset set_gparti]. apply Hguard.
      unfold in_partition_range. subst partlen. nia. }
    rewrite (flash_write_accepted fw data size st0 b Hbio Hg).
    cbn [st0 cur_offset set_cur_offset set_gparti].
    rewrite (u64_small (starting_lba g * BlockSize b + size)) by nia.
    fold w. rewrite Herr. reflexivity.
  - intros Hfit Hok.
    assert (Hg : is_inside_partition (gparti st0) b (cur_offset st0) size = true).
    { cbn [st0 gparti cur_offset set_cur_offset set_gparti]. apply Hguard.
      unfold in_partition_range. subst partlen. nia. }
    rewrite (flash_write_accepted fw data size st0 b Hbio Hg).
    cbn [st0 cur_offset set_cur_offset set_gparti].
    rewrite (u64_small (starting_lba g * BlockSize b + size)) by nia.
    fold w. rewrite Hok. reflexivity.
Qed.

(** *** flash_fill *)

Lemma fill_words_length n pattern : List.length (fill_words n pattern) = (4 * n)%nat.
Proof. induction n as [| n IH]; cbn [fill_words]; [reflexivity |].
  rewrite length_app, IH. cbn. lia. Qed.

Lemma firstn_fill_words n pattern rest :
  firstn (4 * n) (fill_words n pattern ++ rest) = fill_words n pattern.
Proof.
  rewrite <- (fill_words_length n pattern). rewrite firstn_app, firstn_all.
  rewrite Nat.sub_diag. cbn. apply app_nil_r.
Qed.

(** X16: [flash_fill]. Without memory nothing is written and the cursor stays;
    otherwise one request of [size] bytes goes through the guard of
    [flash_write], its first [4 * (size / 4)] bytes being the pattern over and
    over; the [size mod 4] bytes behind are not stored to and go out as the
    pool block held them. *)
Theorem flash_fill_pattern pattern size d b :
  bio (gparti (engine d)) = Some b ->
  0 <= size ->
  (AllocatePool fw (allocs (engine d)) size = false ->
   flash_fill fw sw pattern size d =
     (EFI_OUT_OF_RESOURCES, with_engine (count_alloc (engine d)) d)) /\
  (AllocatePool fw (allocs (engine d)) size = true ->
   is_inside_partition (gparti (engine d)) b (cur_offset (engine d)) size = true ->
   exists w,
     flash_fill fw sw pattern size d =
       (WriteDisk fw w,
        note FreePool
          (with_engine
             (set_cur_offset (u64 (cur_offset (engine d) + size))
                (push_write w (count_alloc (engine d)))) d))
     /\ w_offset w = cur_offset (engine d) /\ w_size w = size
     /\ firstn (4 * Z.to_nat (size / 4)) (w_data w)
        = fill_words (Z.to_nat (size / 4)) pattern
     /\ (size mod 4 = 0 ->
         (Z.to_nat size <= List.length (pool_garbage sw size))%nat ->
         w_data w = fill_words (Z.to_nat (size / 4)) pattern)) /\
  (AllocatePool fw (allocs (engine d)) size = true ->
   is_inside_partition (gparti (engine d)) b (cur_offset (engine d)) size = false ->
   flash_fill fw sw pattern size d =
     (EFI_INVALID_PARAMETER,
      note FreePool (with_engine (count_alloc (engine d)) d))).
Proof.
  intros Hb Hsize. split; [| split].
  - intros Ha. unfold flash_fill. rewrite Ha. reflexivity.
  - intros Ha Hg. unfold flash_fill. rewrite Ha. cbn [negb].
    erewrite flash_write_accepted; [| exact Hb | exact Hg].
    eexists. split; [reflexivity |]. cbn [w_offset w_size w_data cur_offset count_alloc].
    split; [reflexivity |]. split; [reflexivity |]. split.
    + apply firstn_fill_words.
    + intros Hmod Hlen.
      assert (E : skipn (4 * Z.to_nat (size / 4))
                    (firstn (Z.to_nat size) (pool_garbage sw size)) = []).
      { apply skipn_all2. rewrite length_firstn.
        assert (Z.to_nat size = (4 * Z.to_nat (size / 4))%nat).
        { rewrite (Z.div_mod size 4) at 1 by lia. rewrite Hmod, Z.add_0_r.
          rewrite Z2Nat.inj_mul by (try lia; apply Z.div_pos; lia). reflexivity. }
        lia. }
      rewrite E. apply app_nil_r.
  - intros Ha Hg. unfold flash_fill. rewrite Ha. cbn [negb].
    erewrite flash_write_refused; [reflexivity | exact Hb | exact Hg].
Qed.

(** *** erase *)

(** X17: [erase_by_label] on a resolved partition: the hardware erase is asked
    for the whole LBA range, and one zero fill follows, from the first block
    on. After a hardware erase that answered EFI_SUCCESS the fill stops at
    [start + 4096 / BlockSize + 1] or at the last block, whichever comes
    first, so it covers 4096 bytes or the whole partition; after any other
    answer it covers the whole partition. It never reaches beyond the last
    block. The GPT is refreshed behind a successful fill when the partition is
    the EFI system partition. *)
Theorem erase_zero_fills_the_head label d ret0 g b :
  gpt_get_partition_by_label fw label = (ret0, g) ->
  EFI_ERROR ret0 = false ->
  bio g = Some b -> 0 < BlockSize b < 2 ^ 32 ->
  0 <= starting_lba g <= ending_lba g ->
  starting_lba g + 4096 / BlockSize b + 1 < 2 ^ 64 ->
  let first := starting_lba g in
  let last := ending_lba g in
  let erased := storage_erase_blocks sw (calls d) first last in
  let upto :=
    if erased =? EFI_SUCCESS then Z.min (first + 4096 / BlockSize b + 1) last
    else last in
  let d1 :=
    note (FillZero first upto)
      (note (StorageEraseBlocks first last)
         (with_engine (set_gparti g (engine d)) d)) in
  let zeroed := fill_zero sw (calls d ++ [StorageEraseBlocks first last]) first upto in
  erase_by_label fw sw label d =
    (if EFI_ERROR zeroed then Some (zeroed, d1)
     else if Fastboot.guid_equal (part_type sw label)
               Fastboot.EfiPartTypeSystemPartitionGuid
     then Some (gpt_refresh sw (calls d1), note GptRefresh d1)
     else Some (EFI_SUCCESS, d1))
  /\ first <= upto <= last
  /\ (erased = EFI_SUCCESS -> upto = last \/ 4096 <= (upto - first + 1) * BlockSize b)
  /\ (erased <> EFI_SUCCESS -> upto = last).
Proof.
  intros Hgpt Hret0 Hbio Hbs Hlba Hnowrap first last erased upto d1 zeroed.
  assert (Hdiv : 0 <= 4096 / BlockSize b <= 4096).
  { split; [apply Z.div_pos; lia |].
    apply Z.div_le_upper_bound; [lia | nia]. }
  assert (Hmin : u64 (u64 (first + u32 (FS_MGR_SIZE / BlockSize b)) + 1)
                 = first + 4096 / BlockSize b + 1).
  { unfold FS_MGR_SIZE. rewrite (u32_small (4096 / BlockSize b)) by lia.
    subst first. rewrite (u64_small (starting_lba g + 4096 / BlockSize b)) by lia.
    apply u64_small. lia. }
  split; [| split; [| split]].
  - unfold erase_by_label. rewrite Hgpt, Hret0. unfold erase_blocks.
    cbn [calls with_engine note]. fold first last erased.
    subst d1 zeroed upto. rewrite Hbio.
    destruct (erased =? EFI_SUCCESS) eqn:E.
    + assert (Ebs : (BlockSize b =? 0) = false) by (apply Z.eqb_neq; lia).
      rewrite Ebs, Hmin. cbn [calls note with_engine].
      destruct (EFI_ERROR _); reflexivity.
    + cbn [calls note with_engine]. destruct (EFI_ERROR _); reflexivity.
  - subst upto. destruct (erased =? EFI_SUCCESS); subst first last; lia.
  - intros He. subst upto. rewrite He. cbn [Z.eqb EFI_SUCCESS].
    destruct (Z.min_spec (first + 4096 / BlockSize b + 1) last) as [[Hlt ->] | [Hle ->]];
      [right | left; reflexivity].
    replace (first + 4096 / BlockSize b + 1 - first + 1)
      with (4096 / BlockSize b + 2) by lia.
    pose proof (Z.mod_pos_bound 4096 (BlockSize b) ltac:(lia)) as Hm.
    pose proof (Z.div_mod 4096 (BlockSize b) ltac:(lia)) as Hd.
    nia.
  - intros He. subst upto. apply Z.eqb_neq in He. rewrite He. reflexivity.
Qed.

End FlashOpsFacts.

(* ------------------------------------------------------------------------- *)
(** ** hashes.c: digest selection, hash_partition, the walk, ext4 *)
(* ------------------------------------------------------------------------- *)

Section HashToolsFacts.
Import Efi Hashes HashTools.
Open Scope string_scope.
Open Scope Z_scope.

Variable digest : EVP_MD -> bytes -> bytes.
Variable ReadDisk : Z -> Z -> Z -> EFI_STATUS * bytes.

(** *** The selected digest *)

(** X18: which digest [hash_buffer] computes after a call of
    [set_hash_algorithm], whatever was selected before: MD5 after "md5", and
    SHA-1 after NULL, after "sha1" and also after any other name, which is
    answered EFI_UNSUPPORTED and leaves nothing selected until the next digest
    falls back to the default. [hash_len] is the size of the digest computed
    once [hash_buffer] has run. *)
Theorem digest_after_set_hash_algorithm algo s buffer len hash :
  let ret := fst (set_hash_algorithm algo s) in
  let s1 := snd (set_hash_algorithm algo s) in
  let md :=
    match algo with
    | Some a => if String.eqb a "md5" then EVP_md5 else EVP_sha1
    | None => EVP_sha1
    end in
  hash_buffer digest buffer len hash s1
    = (digest md (firstn (Z.to_nat len) buffer),
       {| selected_md := Some md; hash_len := EVP_MD_size md |})
  /\ (ret = EFI_SUCCESS <->
      algo = None \/ algo = Some "sha1" \/ algo = Some "md5")
  /\ (ret <> EFI_SUCCESS ->
      ret = EFI_UNSUPPORTED /\ selected_md s1 = None /\ hash_len s1 = hash_len s).
Proof.
  cbv zeta. destruct algo as [a |].
  - unfold set_hash_algorithm, ALGORITHMS. cbn [select_loop].
    destruct (String.eqb a "md5") eqn:Emd5.
    + apply String.eqb_eq in Emd5. subst a. cbn. split; [reflexivity |].
      split; [| intros H; contradiction H; reflexivity].
      split; auto.
    + destruct (String.eqb a "sha1") eqn:Esha1.
      * apply String.eqb_eq in Esha1. subst a. cbn. split; [reflexivity |].
        split; [| intros H; contradiction H; reflexivity].
        split; auto.
      * cbn [fst snd]. unfold hash_buffer. cbn. split; [reflexivity |].
        split; [| intros _; repeat split].
        split; [intros H; discriminate H |].
        intros [H | [H | H]]; try discriminate H; injection H as ->.
        -- rewrite String.eqb_refl in Esha1. discriminate.
        -- rewrite String.eqb_refl in Emd5. discriminate.
  - cbn. split; [reflexivity |]. split; [| intros H; contradiction H; reflexivity].
    split; auto.
Qed.

(** *** The digest of a partition *)

Lemma chunk_count_spec len k :
  0 <= len -> (k < chunk_count len)%nat <-> Z.of_nat k * CHUNK < len.
Proof.
  intros Hlen. unfold chunk_count, CHUNK.
  assert (H0 : 0 <= (len + 1024 * 1024 - 1) / (1024 * 1024))
    by (apply Z.div_pos; lia).
  split; intros H.
  - apply Nat2Z.inj_lt in H. rewrite Z2Nat.id in H by exact H0.
    Z.div_mod_to_equations. lia.
  - apply Nat2Z.inj_lt. rewrite Z2Nat.id by exact H0.
    Z.div_mod_to_equations. lia.
Qed.

Lemma hash_partition_loop_chunks g b len :
  Flash.bio g = Some b -> Flash.sane_partition g b ->
  0 <= len <= (Flash.ending_lba g + 1 - Flash.starting_lba g) * Flash.BlockSize b ->
  len + CHUNK <= 2 ^ 64 ->
  (forall media off n, EFI_ERROR (fst (ReadDisk media off n)) = false) ->
  forall m k fuel ret fed asked buffer,
    (k + m = chunk_count len)%nat -> (m < fuel)%nat ->
    exists ret',
      hash_partition_loop ReadDisk fuel g len (Z.of_nat k * CHUNK) ret fed asked buffer
      = Some (ret',
              (fed ++ List.concat (map (chunk_data ReadDisk (Flash.MediaId b))
                                  (map (chunk_request
                                          (Flash.starting_lba g * Flash.BlockSize b) len)
                                       (seq k m))))%list,
              (asked ++ map (chunk_request
                               (Flash.starting_lba g * Flash.BlockSize b) len)
                            (seq k m))%list,
              true)
      /\ (m = O -> ret' = ret) /\ (m <> O -> EFI_ERROR ret' = false).
Proof.
  intros Hbio Hs Hlen Hcap Hok.
  pose proof Hs as (S0 & S1 & S2 & S3).
  induction m as [| m IH]; intros k fuel ret fed asked buffer Hk Hfuel.
  - destruct fuel as [| fuel]; [lia |]. cbn [hash_partition_loop].
    assert (E : (Z.of_nat k * CHUNK <? len) = false).
    { apply Z.ltb_ge. apply Z.nlt_ge. intros H.
      apply (chunk_count_spec len k) in H; lia. }
    rewrite E. exists ret. cbn. rewrite !app_nil_r.
    repeat split. intros H; contradiction H; reflexivity.
  - destruct fuel as [| fuel]; [lia |]. cbn [hash_partition_loop].
    assert (Hlt : Z.of_nat k * CHUNK < len)
      by (apply chunk_count_spec; lia).
    assert (E : (Z.of_nat k * CHUNK <? len) = true) by (apply Z.ltb_lt; exact Hlt).
    rewrite E.
    assert (Hk0 : 0 <= Z.of_nat k * CHUNK) by (unfold CHUNK; lia).
    assert (Hchunk : MIN (u64 (len - Z.of_nat k * CHUNK)) CHUNK
                     = Z.min CHUNK (len - Z.of_nat k * CHUNK)).
    { rewrite u64_small by (unfold CHUNK in *; lia). unfold MIN.
      destruct (len - Z.of_nat k * CHUNK <? CHUNK) eqn:El.
      - apply Z.ltb_lt in El. lia.
      - apply Z.ltb_ge in El. lia. }
    rewrite Hchunk. set (chunklen := Z.min CHUNK (len - Z.of_nat k * CHUNK)).
    assert (Hcl : 0 < chunklen <= CHUNK /\ Z.of_nat k * CHUNK + chunklen <= len)
      by (unfold chunklen, CHUNK in *; lia).
    unfold read_partition. rewrite Hbio.
    assert (Hpl : u64 (u64 (Flash.ending_lba g + 1 - Flash.starting_lba g)
                       * Flash.BlockSize b)
                  = (Flash.ending_lba g + 1 - Flash.starting_lba g) * Flash.BlockSize b).
    { apply (sane_zimage_partlen g b Hs). }
    assert (Hpo : u64 (Flash.starting_lba g * Flash.BlockSize b)
                  = Flash.starting_lba g * Flash.BlockSize b).
    { apply (sane_part_start g b Hs). }
    rewrite Hpl, Hpo.
    rewrite (u64_small (chunklen + Z.of_nat k * CHUNK)) by (unfold CHUNK in *; lia).
    assert (Eg : ((Flash.ending_lba g + 1 - Flash.starting_lba g) * Flash.BlockSize b
                  <? chunklen + Z.of_nat k * CHUNK) = false) by (apply Z.ltb_ge; lia).
    rewrite Eg.
    rewrite (u64_small (Flash.starting_lba g * Flash.BlockSize b + Z.of_nat k * CHUNK))
      by nia.
    unfold ReadDisk_noted.
    pose proof (Hok (Flash.MediaId b)
                  (Flash.starting_lba g * Flash.BlockSize b + Z.of_nat k * CHUNK)
                  chunklen) as Hr.
    destruct (ReadDisk (Flash.MediaId b)
                (Flash.starting_lba g * Flash.BlockSize b + Z.of_nat k * CHUNK)
                chunklen) as [r data] eqn:Hread.
    cbn [fst] in Hr. rewrite Hr.
    rewrite (u64_small (Z.of_nat k * CHUNK + CHUNK)) by (unfold CHUNK in *; lia).
    replace (Z.of_nat k * CHUNK + CHUNK) with (Z.of_nat (S k) * CHUNK) by lia.
    destruct (IH (S k) fuel r (fed ++ firstn (Z.to_nat chunklen) data)%list
                (asked ++ [(Flash.starting_lba g * Flash.BlockSize b
                            + Z.of_nat k * CHUNK, chunklen)])%list data)
      as (ret' & Eq & H0 & H1); [lia | lia |].
    exists ret'. rewrite Eq. split.
    + assert (Hrq : chunk_request (Flash.starting_lba g * Flash.BlockSize b) len k
                    = (Flash.starting_lba g * Flash.BlockSize b + Z.of_nat k * CHUNK,
                       chunklen)) by reflexivity.
      assert (Hcd : chunk_data ReadDisk (Flash.MediaId b)
                      (Flash.starting_lba g * Flash.BlockSize b + Z.of_nat k * CHUNK,
                       chunklen)
                    = firstn (Z.to_nat chunklen) data).
      { unfold chunk_data. cbn [fst snd]. rewrite Hread. reflexivity. }
      cbn [seq map List.concat]. rewrite Hrq, Hcd, <- !app_assoc. reflexivity.
    + split; [discriminate |]. intros _.
      destruct m; [rewrite H0 by reflexivity; exact Hr | apply H1; discriminate].
Qed.

(** X19: [hash_partition] reads the first [len] bytes of the partition in
    chunks of one MiB, the last one shorter when [len] is no multiple: the
    reads follow one another from the first byte of the partition, all of them
    inside it, and what they return is what the digest is computed over. A
    length of zero is answered EFI_INVALID_PARAMETER, though the digest of no
    bytes is stored. *)
Theorem hash_partition_reads_in_chunks pool g b len hash s buffer md :
  pool CHUNK = Some buffer ->
  selected_md s = Some md ->
  Flash.bio g = Some b -> Flash.sane_partition g b ->
  0 <= len <= (Flash.ending_lba g + 1 - Flash.starting_lba g) * Flash.BlockSize b ->
  len + CHUNK <= 2 ^ 64 ->
  (forall media off n, EFI_ERROR (fst (ReadDisk media off n)) = false) ->
  let requests := chunk_requests (Flash.starting_lba g * Flash.BlockSize b) len in
  exists ret,
    hash_partition ReadDisk digest pool g len hash s
      = Some (ret,
              digest md (List.concat (map (chunk_data ReadDisk (Flash.MediaId b)) requests)),
              requests, s)
    /\ (len = 0 -> ret = EFI_INVALID_PARAMETER /\ requests = [])
    /\ (0 < len -> EFI_ERROR ret = false).
Proof.
  intros Hpool Hmd Hbio Hs Hlen Hcap Hok requests.
  assert (Hfuel : (chunk_count len < Z.to_nat (len / CHUNK) + 2)%nat).
  { unfold chunk_count, CHUNK in *.
    assert (0 <= len / (1024 * 1024)) by (apply Z.div_pos; lia).
    assert (0 <= (len + 1024 * 1024 - 1) / (1024 * 1024)) by (apply Z.div_pos; lia).
    apply Nat2Z.inj_lt. rewrite Nat2Z.inj_add, !Z2Nat.id by assumption.
    Z.div_mod_to_equations. lia. }
  destruct (hash_partition_loop_chunks g b len Hbio Hs Hlen Hcap Hok
              (chunk_count len) 0%nat (Z.to_nat (len / CHUNK) + 2)%nat
              EFI_INVALID_PARAMETER [] [] buffer eq_refl Hfuel)
    as (ret & Eq & H0 & H1).
  exists ret. unfold hash_partition. rewrite Hpool, Hmd.
  change (Z.of_nat 0 * CHUNK) with 0 in Eq. rewrite Eq, Hmd.
  cbn [app]. fold (chunk_requests (Flash.starting_lba g * Flash.BlockSize b) len).
  fold requests. split; [reflexivity |]. split.
  - intros ->. split; [apply H0; reflexivity | reflexivity].
  - intros Hpos. apply H1. intros Hc.
    assert (Hz : (0 < chunk_count len)%nat) by (apply chunk_count_spec; lia).
    lia.
Qed.

(** *** The path of the walk *)

Lemma substring_prefix (a b : string) : substring 0 (String.length a) (a ++ b) = a.
Proof. induction a as [| c a IH]; cbn; [destruct b; reflexivity | now rewrite IH]. Qed.

Lemma nth_error_store_at {A : Type} (i : nat) (v : A) (a : list A) :
  (i < List.length a)%nat -> nth_error (store_at i v a) i = Some v.
Proof.
  revert i. induction a as [| x a IH]; intros i Hi; [cbn in Hi; lia |].
  destruct i as [| i]; [reflexivity |]. cbn in *. apply IH. lia.
Qed.

(** X20: the path string of the directory walk. A directory name that still
    fits the buffer is appended with a slash behind it, and the string stays
    within the buffer; entering the directory and leaving it again gives the
    path back as it was. A name that does not fit leaves the path alone, and
    leaving at the top level frees it. *)
Theorem pushdir_popdir_restore_the_path dir w p :
  path w = Some p ->
  0 <= subdir w < MAX_DIR ->
  List.length (subname w) = Z.to_nat MAX_DIR ->
  StrSize p <= DIR_BUFFER_SIZE ->
  (StrSize p + StrSize dir <= DIR_BUFFER_SIZE ->
   exists w1,
     pushdir dir w = Some w1
     /\ path w1 = Some (p ++ dir ++ "/")
     /\ StrSize (p ++ dir ++ "/") <= DIR_BUFFER_SIZE
     /\ subdir w1 = subdir w
     /\ exists w2,
          popdir (enter w1) = Some w2 /\ path w2 = Some p
          /\ subdir (leave w2) = subdir w /\ subname w2 = subname w1) /\
  (DIR_BUFFER_SIZE < StrSize p + StrSize dir -> pushdir dir w = Some w) /\
  (subdir w = 0 -> popdir w = Some (freepath w)).
Proof.
  intros Hp Hsub Hlen Hsize. split; [| split].
  - intros Hfit. unfold pushdir. rewrite Hp.
    assert (E1 : (DIR_BUFFER_SIZE <? StrSize p + StrSize dir) = false)
      by (apply Z.ltb_ge; exact Hfit).
    assert (E2 : (subdir w <? 0) || (MAX_DIR <=? subdir w) = false).
    { apply orb_false_iff. split; [apply Z.ltb_ge | apply Z.leb_gt]; lia. }
    rewrite E1, E2. eexists. split; [reflexivity |]. cbn [path subdir subname].
    split; [reflexivity |]. split.
    + unfold StrSize in *. rewrite !length_append. cbn [String.length]. lia.
    + split; [reflexivity |].
      unfold popdir, enter. cbn [path subdir subname].
      assert (E3 : (0 <? subdir w + 1) = true) by (apply Z.ltb_lt; lia).
      rewrite E3. replace (subdir w + 1 - 1) with (subdir w) by lia.
      rewrite nth_error_store_at by (rewrite Hlen; unfold MAX_DIR in *; lia).
      eexists. split; [reflexivity |]. cbn [path subname].
      split; [rewrite substring_prefix; reflexivity |].
      split; [| reflexivity]. unfold leave. cbn [path subname subdir]. lia.
  - intros Hbig. unfold pushdir. rewrite Hp.
    assert (E1 : (DIR_BUFFER_SIZE <? StrSize p + StrSize dir) = true)
      by (apply Z.ltb_lt; exact Hbig).
    rewrite E1. reflexivity.
  - intros H0. unfold popdir. rewrite Hp, H0. reflexivity.
Qed.

(** *** The length of an ext4 filesystem *)

Variable dk : disk_io.

(** X21: [get_ext4_len] on a superblock that was read: a wrong magic or a
    state without the valid bit is answered EFI_INVALID_PARAMETER and [*len]
    is left alone; otherwise [*len] is the block size, 1024 shifted by
    [s_log_block_size], times the block count. The two halves of the count are
    INT32: with both non-negative the length is that product over the integers
    as long as it fits 64 bits, and with a low half whose top bit is set the
    count comes out 2^32 blocks short. *)
Theorem ext4_len_from_superblock gparti b len0 ret sb :
  Flash.bio gparti = Some b ->
  EXT4_SB_OFFSET + sizeof_ext4_super_block
    <= u64 (u64 (Flash.ending_lba gparti + 1 - Flash.starting_lba gparti)
            * Flash.BlockSize b) ->
  ReadDisk_ext4 dk (Flash.MediaId b)
    (u64 (u64 (Flash.starting_lba gparti * Flash.BlockSize b) + EXT4_SB_OFFSET))
    sizeof_ext4_super_block = (ret, sb) ->
  EFI_ERROR ret = false ->
  let blocks := s_blocks_count_hi sb * 2 ^ 32 + s_blocks_count_lo sb mod 2 ^ 32 in
  let block_size := 1024 * 2 ^ s_log_block_size sb in
  (ext4_s_magic sb <> EXT4_SUPER_MAGIC ->
   get_ext4_len dk gparti len0 = Some (EFI_INVALID_PARAMETER, len0)) /\
  (ext4_s_magic sb = EXT4_SUPER_MAGIC ->
   Z.land (s_state sb) EXT4_VALID_FS <> EXT4_VALID_FS ->
   get_ext4_len dk gparti len0 = Some (EFI_INVALID_PARAMETER, len0)) /\
  (ext4_s_magic sb = EXT4_SUPER_MAGIC ->
   Z.land (s_state sb) EXT4_VALID_FS = EXT4_VALID_FS ->
   0 <= s_log_block_size sb <= 20 ->
   0 <= s_blocks_count_hi sb ->
   (0 <= s_blocks_count_lo sb < 2 ^ 31 -> block_size * blocks < 2 ^ 64 ->
    get_ext4_len dk gparti len0 = Some (EFI_SUCCESS, block_size * blocks)) /\
   (- 2 ^ 31 <= s_blocks_count_lo sb < 0 -> 1 <= s_blocks_count_hi sb ->
    block_size * blocks < 2 ^ 64 ->
    get_ext4_len dk gparti len0
      = Some (EFI_SUCCESS, block_size * (blocks - 2 ^ 32)))).
Proof.
  intros Hbio Hroom Hread Hok blocks block_size.
  assert (Hrp : read_partition (ReadDisk_ext4 dk) gparti EXT4_SB_OFFSET
                  sizeof_ext4_super_block
                  {| s_blocks_count_lo := 0; s_log_block_size := 0;
                     ext4_s_magic := 0; s_state := 0; s_blocks_count_hi := 0 |}
                = Some (ret, sb)).
  { unfold read_partition. rewrite Hbio.
    assert (E : (u64 (u64 (Flash.ending_lba gparti + 1 - Flash.starting_lba gparti)
                      * Flash.BlockSize b)
                 <? u64 (sizeof_ext4_super_block + EXT4_SB_OFFSET)) = false).
    { apply Z.ltb_ge. rewrite u64_small by (cbn; lia). lia. }
    rewrite E, Hread. reflexivity. }
  split; [| split].
  - intros Hm. unfold get_ext4_len. rewrite Hrp. cbn [bind_fault]. rewrite Hok.
    apply Z.eqb_neq in Hm. rewrite Hm. reflexivity.
  - intros Hm Hst. unfold get_ext4_len. rewrite Hrp. cbn [bind_fault].
    rewrite Hok, Hm, Z.eqb_refl. cbn [negb].
    apply Z.eqb_neq in Hst. rewrite Hst. reflexivity.
  - intros Hm Hst Hlog Hhi.
    assert (Hunfold :
      get_ext4_len dk gparti len0 =
        Some (EFI_SUCCESS,
              u64 (Z.shiftl 1024 (s_log_block_size sb)
                   * u64 (u64 (u64 (s_blocks_count_hi sb) * 2 ^ 32)
                          + s_blocks_count_lo sb)))).
    { unfold get_ext4_len. rewrite Hrp. cbn [bind_fault].
      rewrite Hok, Hm, Hst, !Z.eqb_refl. cbn [negb].
      assert (E : (0 <=? s_log_block_size sb) && (s_log_block_size sb <=? 20) = true).
      { apply andb_true_iff. split; apply Z.leb_le; lia. }
      rewrite E. reflexivity. }
    assert (Hshift : Z.shiftl 1024 (s_log_block_size sb) = block_size).
    { rewrite Z.shiftl_mul_pow2 by lia. reflexivity. }
    assert (Hbs : 1024 <= block_size).
    { unfold block_size.
      assert (1 <= 2 ^ s_log_block_size sb)
        by (apply (Z.pow_le_mono_r 2 0); lia).
      lia. }
    rewrite Hunfold, Hshift. split.
    + intros Hlo Hfit.
      assert (Eb : blocks = s_blocks_count_hi sb * 2 ^ 32 + s_blocks_count_lo sb).
      { unfold blocks. rewrite Z.mod_small by lia. reflexivity. }
      assert (Hb : 0 <= blocks < 2 ^ 64) by nia.
      rewrite (u64_small (s_blocks_count_hi sb)) by nia.
      rewrite (u64_small (s_blocks_count_hi sb * 2 ^ 32)) by nia.
      rewrite <- Eb. rewrite (u64_small blocks) by exact Hb.
      rewrite u64_small by nia. reflexivity.
    + intros Hlo Hhi1 Hfit.
      assert (Eb : blocks - 2 ^ 32
                   = s_blocks_count_hi sb * 2 ^ 32 + s_blocks_count_lo sb).
      { unfold blocks.
        assert (Hmod : s_blocks_count_lo sb mod 2 ^ 32 = s_blocks_count_lo sb + 2 ^ 32).
        { symmetry. apply Z.mod_unique with (q := -1); lia. }
        lia. }
      assert (Hbl : 2 ^ 32 <= blocks).
      { unfold blocks.
        pose proof (Z.mod_pos_bound (s_blocks_count_lo sb) (2 ^ 32) ltac:(lia)). nia. }
      assert (Hb : 0 <= blocks - 2 ^ 32 < 2 ^ 64) by nia.
      rewrite (u64_small (s_blocks_count_hi sb)) by nia.
      rewrite (u64_small (s_blocks_count_hi sb * 2 ^ 32)) by nia.
      rewrite <- Eb. rewrite (u64_small (blocks - 2 ^ 32)) by exact Hb.
      rewrite u64_small by nia. reflexivity.
Qed.

End HashToolsFacts.

(* ------------------------------------------------------------------------- *)
(** ** security.c: PKCS7 bundles *)
(* ------------------------------------------------------------------------- *)

Section Pkcs7Facts.
Import Efi Security Pkcs7.

Variable ossl : pkcs7_lib.

(** *** The signing time *)

Lemma two_digits_of n :
  0 <= n < 100 -> two_digits (48 + n / 10) (48 + n mod 10) = n.
Proof.
  intros H. unfold two_digits.
  pose proof (Z.div_mod n 10 ltac:(lia)). lia.
Qed.

(** X22: the twelve characters "YYmmddHHMMSS" of a signing time between 1970
    and 2069 decode to the fields they were written from: a year number of 70
    and above is read as 19YY, one below as 20YY; what follows the twelve
    characters is not looked at. [get_signing_time] converts the time of the
    first signer that has one, and answers 0 when that attribute is not a
    UTCTIME. *)
Theorem signing_time_decodes t rest without stime others :
  1970 <= Year t <= 2069 ->
  0 <= Month t < 100 -> 0 <= Day t < 100 -> 0 <= Hour t < 100 ->
  0 <= Minute t < 100 -> 0 <= Second t < 100 ->
  Forall (fun a => a = None) without ->
  utctime_fields (utctime_of t ++ rest) = Some t
  /\ (asn1_type stime = V_ASN1_UTCTIME ->
      utctime_data stime = (utctime_of t ++ rest)%list ->
      get_signing_time (efi_time_to_ctime ossl)
        (Some (without ++ Some stime :: others)%list)
      = Some (efi_time_to_ctime ossl t))
  /\ (asn1_type stime <> V_ASN1_UTCTIME ->
      get_signing_time (efi_time_to_ctime ossl)
        (Some (without ++ Some stime :: others)%list) = Some 0).
Proof.
  intros Hy Hmo Hd Hh Hmi Hs Hnone.
  assert (Hfields : utctime_fields (utctime_of t ++ rest) = Some t).
  { unfold utctime_of, digits_of. cbn [app utctime_fields].
    rewrite !two_digits_of by (try lia; apply Z.mod_pos_bound; lia).
    unfold u8, u16. rewrite !(Z.mod_small _ (2 ^ 8)) by lia.
    assert (Hyear : (if (1900 + Year t mod 100) mod 2 ^ 16 <? 1970
                     then ((1900 + Year t mod 100) mod 2 ^ 16 + 100) mod 2 ^ 16
                     else (1900 + Year t mod 100) mod 2 ^ 16) = Year t).
    { pose proof (Z.mod_pos_bound (Year t) 100 ltac:(lia)) as Hm.
      rewrite (Z.mod_small (1900 + Year t mod 100)) by lia.
      destruct (Z_lt_dec (Year t) 2000) as [Hc | Hc].
      - assert (E : Year t mod 100 = Year t - 1900).
        { symmetry. apply Z.mod_unique with (q := 19); lia. }
        rewrite E.
        assert (El : (1900 + (Year t - 1900) <? 1970) = false) by (apply Z.ltb_ge; lia).
        rewrite El. lia.
      - assert (E : Year t mod 100 = Year t - 2000).
        { symmetry. apply Z.mod_unique with (q := 20); lia. }
        rewrite E.
        assert (El : (1900 + (Year t - 2000) <? 1970) = true) by (apply Z.ltb_lt; lia).
        rewrite El. rewrite Z.mod_small by lia. lia. }
    rewrite Hyear. destruct t; reflexivity. }
  assert (Hfirst : first_signing_time (without ++ Some stime :: others) = Some stime).
  { induction Hnone as [| a l Ha Hl IH]; [reflexivity |]. subst a. exact IH. }
  split; [exact Hfields |]. split.
  - intros Hty Hdata. unfold get_signing_time. rewrite Hfirst, Hty, Z.eqb_refl.
    cbn [negb]. rewrite Hdata, Hfields. reflexivity.
  - intros Hty. unfold get_signing_time. rewrite Hfirst.
    apply Z.eqb_neq in Hty. rewrite Hty. reflexivity.
Qed.

(** *** The trusted certificate *)

Lemma bytes_eqb_eq a b : bytes_eqb a b = true <-> a = b.
Proof.
  revert b. induction a as [| x a IH]; intros [| y b]; cbn;
    try (split; [discriminate | discriminate]); [tauto |].
  rewrite andb_true_iff, Z.eqb_eq, IH. split.
  - intros [-> ->]. reflexivity.
  - intros H. injection H as -> ->. auto.
Qed.

(** X23: the loop of [find_cert_in_pkcs7] returns the first certificate of the
    bundle whose SHA-256 digest is the trusted one, provided the digest of
    every certificate in front of it could be computed; it returns no other. *)
Theorem find_cert_loop_finds_the_trusted certs cert_sha256 x509 :
  find_cert_loop ossl certs cert_sha256 = Some x509 <->
  exists before behind,
    certs = (before ++ x509 :: behind)%list
    /\ Forall (passed_over ossl cert_sha256) before
    /\ trusted ossl cert_sha256 x509.
Proof.
  induction certs as [| c certs IH]; cbn [find_cert_loop].
  - split; [discriminate |]. intros (before & behind & H & _).
    destruct before; discriminate H.
  - destruct (X509_digest_sha256 ossl c) as [digest |] eqn:Hd.
    + destruct (negb (Z.of_nat (List.length digest) =? SHA256_DIGEST_LENGTH)) eqn:Hl.
      * apply negb_true_iff, Z.eqb_neq in Hl. unfold SHA256_DIGEST_LENGTH in Hl.
        assert (Hpass : passed_over ossl cert_sha256 c).
        { exists digest. split; [exact Hd |]. intros [H _]. lia. }
        rewrite IH. split.
        -- intros (before & behind & -> & Hb & Ht).
           exists (c :: before), behind. repeat split; [constructor |]; assumption.
        -- intros (before & behind & Heq & Hb & Ht).
           destruct before as [| c' before].
           ++ injection Heq as <- <-. destruct Ht as (d & Hd' & Hlen & _).
              rewrite Hd in Hd'. injection Hd' as <-. lia.
           ++ injection Heq as <- ->. inversion Hb; subst.
              exists before, behind. repeat split; assumption.
      * apply negb_false_iff, Z.eqb_eq in Hl. unfold SHA256_DIGEST_LENGTH in Hl.
        assert (Hlen : List.length digest = 32%nat) by lia.
        assert (Hfirst : firstn 32 digest = digest)
          by (apply firstn_all2; lia).
        rewrite Hfirst.
        destruct (bytes_eqb (firstn 32 cert_sha256) digest) eqn:He.
        -- apply bytes_eqb_eq in He. split.
           ++ intros H. injection H as <-. exists [], certs.
              repeat split; [constructor |]. exists digest. auto.
           ++ intros (before & behind & Heq & Hb & Ht).
              destruct before as [| c' before].
              ** injection Heq as <- <-. reflexivity.
              ** injection Heq as <- ->. inversion Hb as [| ? ? Hp Hrest]; subst.
                 destruct Hp as (d & Hd' & Hn). rewrite Hd in Hd'.
                 injection Hd' as <-. exfalso. apply Hn. auto.
        -- assert (Hne : firstn 32 cert_sha256 <> digest).
           { intros H. apply bytes_eqb_eq in H. congruence. }
           assert (Hpass : passed_over ossl cert_sha256 c).
           { exists digest. split; [exact Hd |]. intros [_ H]. contradiction. }
           rewrite IH. split.
           ++ intros (before & behind & -> & Hb & Ht).
              exists (c :: before), behind. repeat split; [constructor |]; assumption.
           ++ intros (before & behind & Heq & Hb & Ht).
              destruct before as [| c' before].
              ** injection Heq as <- <-. destruct Ht as (d & Hd' & _ & Hm).
                 rewrite Hd in Hd'. injection Hd' as <-. contradiction.
              ** injection Heq as <- ->. inversion Hb; subst.
                 exists before, behind. repeat split; assumption.
    + split; [discriminate |]. intros (before & behind & Heq & Hb & Ht).
      destruct before as [| c' before].
      * injection Heq as <- <-. destruct Ht as (d & Hd' & _).
        rewrite Hd in Hd'. discriminate.
      * injection Heq as <- ->. inversion Hb as [| ? ? Hp Hrest]; subst.
        destruct Hp as (d & Hd' & _). rewrite Hd in Hd'. discriminate.
Qed.

Lemma find_cert_loop_trusted certs cert_sha256 x509 :
  find_cert_loop ossl certs cert_sha256 = Some x509 -> trusted ossl cert_sha256 x509.
Proof.
  induction certs as [| c certs IH]; cbn [find_cert_loop]; [discriminate |].
  destruct (X509_digest_sha256 ossl c) as [digest |] eqn:Hd; [| discriminate].
  destruct (negb (Z.of_nat (List.length digest) =? SHA256_DIGEST_LENGTH)) eqn:Hl;
    [exact IH |].
  apply negb_false_iff, Z.eqb_eq in Hl. unfold SHA256_DIGEST_LENGTH in Hl.
  destruct (bytes_eqb (firstn 32 cert_sha256) (firstn 32 digest)) eqn:He; [| exact IH].
  intros H. injection H as <-. apply bytes_eqb_eq in He.
  rewrite (firstn_all2 digest) in He by lia.
  exists digest. repeat split; [exact Hd | lia | exact He].
Qed.

(** *** verify_pkcs7 *)

(** X24: [verify_pkcs7] answers EFI_SUCCESS or EFI_INVALID_PARAMETER and
    nothing else, and stores a payload only with EFI_SUCCESS. EFI_SUCCESS
    means that the digest given has 32 bytes, that the bundle holds a
    certificate with that SHA-256 digest, that a signing time other than 0 was
    found, and that [PKCS7_verify] answered 1 for the bundle against that one
    certificate at that time; the payload is the content it verified. *)
Theorem verify_pkcs7_success_means_verified cert_sha256 cert_size pkcs7 pkcs7_size
  ret data size :
  verify_pkcs7 ossl cert_sha256 cert_size pkcs7 pkcs7_size = Some (ret, data, size) ->
  (ret = EFI_SUCCESS \/ ret = EFI_INVALID_PARAMETER) /\
  (ret = EFI_INVALID_PARAMETER -> data = None) /\
  (ret = EFI_SUCCESS ->
   cert_size = 32 /\
   exists p7 x509 t content,
     d2i_PKCS7 ossl pkcs7 pkcs7_size = Some p7
     /\ find_cert_in_pkcs7 ossl p7 cert_sha256 = Some x509
     /\ trusted ossl cert_sha256 x509
     /\ get_signing_time (efi_time_to_ctime ossl) (signer_times ossl p7) = Some t
     /\ t <> 0
     /\ PKCS7_verify ossl p7 x509 t = (1, content)
     /\ data = Some (firstn (Z.to_nat (BIO_get_mem_data ossl content)) content)).
Proof.
  unfold verify_pkcs7.
  cbv zeta.
  assert (Hfail' : forall (sz0 : option Z) (C : Prop),
            Some (EFI_INVALID_PARAMETER, @None bytes, sz0) = Some (ret, data, size) ->
            (ret = EFI_SUCCESS \/ ret = EFI_INVALID_PARAMETER) /\
            (ret = EFI_INVALID_PARAMETER -> data = None) /\
            (ret = EFI_SUCCESS -> C)).
  { intros sz0 C H. injection H as <- <- <-. repeat split; auto. discriminate. }
  destruct (negb (cert_size =? SHA256_DIGEST_LENGTH)) eqn:Hsz; [apply Hfail' |].
  apply negb_false_iff, Z.eqb_eq in Hsz. unfold SHA256_DIGEST_LENGTH in Hsz.
  destruct (d2i_PKCS7 ossl pkcs7 pkcs7_size) as [p7 |] eqn:Hp7; [| apply Hfail'].
  destruct (find_cert_in_pkcs7 ossl p7 cert_sha256) as [x509 |] eqn:Hfind;
    [| apply Hfail'].
  destruct (get_signing_time (efi_time_to_ctime ossl) (signer_times ossl p7))
    as [t |] eqn:Htime; [| discriminate].
  destruct (t =? 0) eqn:Ht; [apply Hfail' |]. apply Z.eqb_neq in Ht.
  destruct (negb (X509_STORE_new ossl)); [apply Hfail' |].
  destruct (negb (X509_STORE_add_cert ossl x509 =? 1)); [apply Hfail' |].
  destruct (negb (BIO_new_mem ossl)); [apply Hfail' |].
  destruct (PKCS7_verify ossl p7 x509 t) as [r content] eqn:Hver.
  destruct (negb (r =? 1)) eqn:Hr; [apply Hfail' |].
  apply negb_false_iff, Z.eqb_eq in Hr. subst r.
  destruct (BIO_get_mem_data ossl content =? -1); [apply Hfail' |].
  destruct (negb (AllocatePool ossl (BIO_get_mem_data ossl content)));
    [apply Hfail' |].
  intros H. injection H as <- <- <-.
  split; [left; reflexivity |]. split; [discriminate |]. intros _.
  split; [exact Hsz |]. exists p7, x509, t, content.
  repeat split; try assumption.
  unfold find_cert_in_pkcs7 in Hfind.
  destruct (signed_certs ossl p7) as [certs |]; [| discriminate].
  apply (find_cert_loop_trusted certs). exact Hfind.
Qed.

End Pkcs7Facts.

(* ------------------------------------------------------------------------- *)
(** ** security.c: the outputs of the attestation *)
(* ------------------------------------------------------------------------- *)

Section OutputsFacts.
Import Efi Security Pkcs7.

Variable ssl : openssl.
Variable kf : lib ssl.

Lemma red_agrees vc : outputs_agree ssl kf vc (red ssl).
Proof. repeat split; cbn; try discriminate. Qed.

Lemma finish_agrees vc sig s c :
  (vc = false -> c = None) -> outputs_agree ssl kf vc (finish ssl kf sig s c).
Proof.
  intros Hc. unfold finish.
  destruct (stra_to_str ssl kf (attributes_target ssl sig)) as [target_tmp |];
    repeat split; cbn; try discriminate; try assumption.
  intros t H. injection H as <-. apply length_substring_le.
Qed.

(** X25: the outputs of [verify_android_boot_image] agree with the state it
    returns: a state other than red always comes with the target string of the
    signature, cut to BOOT_TARGET_SIZE characters, stored in [target]; and
    nothing is stored through a NULL [verifier_cert]. *)
Theorem boot_state_comes_with_its_target
  bootimage der_cert cert_size target verifier_cert :
  let o :=
    verify_android_boot_image ssl kf bootimage der_cert cert_size target
                              verifier_cert in
  (verify_state ssl o <> BOOT_STATE_RED ->
   exists t, target_out ssl o = Some t
             /\ (String.length t <= Z.to_nat (BOOT_TARGET_SIZE ssl kf))%nat)
  /\ (verifier_cert = false -> verifier_out ssl o = None).
Proof.
  cbv zeta.
  assert (H : outputs_agree ssl kf verifier_cert
                (verify_android_boot_image ssl kf bootimage der_cert cert_size
                   target verifier_cert)).
  { unfold verify_android_boot_image.
    assert (Hdup : forall c, verifier_cert = false ->
                     (if verifier_cert then X509_dup ssl c else None) = None)
      by (intros c ->; reflexivity).
    repeat match goal with
           | |- outputs_agree _ _ _ (red _) => apply red_agrees
           | |- outputs_agree _ _ _ (finish _ _ _ _ None) =>
               apply finish_agrees; reflexivity
           | |- outputs_agree _ _ _ (finish _ _ _ _ _) =>
               apply finish_agrees; apply Hdup
           | |- outputs_agree _ _ _ (match ?x with _ => _ end) => destruct x
           | |- outputs_agree _ _ _ (if ?x then _ else _) => destruct x
           | |- outputs_agree _ _ _ (let (_, _) := ?x in _) => destruct x
           end. }
  destruct H as (H1 & H2 & H3). split; [| exact H3].
  intros Hs.
  destruct (target_out ssl _) as [t |] eqn:Ht.
  - exists t. split; [reflexivity | apply H2; reflexivity].
  - exfalso. apply Hs. apply H1. reflexivity.
Qed.

End OutputsFacts.

(* ------------------------------------------------------------------------- *)
(** ** fastboot.c: the callbacks on the sample device *)
(* ------------------------------------------------------------------------- *)

Section CallbackExamples.
Import Efi Fastboot Callbacks CommandLine LongInfo.
Open Scope string_scope.
Open Scope Z_scope.

(** [getvar:all] on the sample device, a completed transmission and a
    reception in the command buffer. *)
Lemma tx_queue_never_read_empty_witness :
  let lk := link_of (session LOCKED "getvar:all") in
  (exists st', fastboot_run_command granting_platform root_cmdlist 0 (fb lk) = Some st'
               /\ tx_consistent st')
  /\ (exists lk', fastboot_process_tx granting_platform ready_transport lk = Some lk'
                  /\ tx_consistent (fb lk'))
  /\ tx_consistent
       (fb (fastboot_process_rx granting_platform ready_transport
              {| base := CommandBuffer; displacement := 0 |} "reboot" lk)).
Proof.
  cbv zeta.
  apply (tx_queue_never_read_empty granting_platform ready_transport root_cmdlist 0
           {| base := CommandBuffer; displacement := 0 |} "reboot"
           (link_of (session LOCKED "getvar:all"))).
  - split; intros; simpl; assumption.
  - intros cmd Hin. apply in_rev. exact Hin.
  - split; simpl; [intros H; discriminate H | intros H; discriminate H].
Defined.

(** [getvar:product] splits into the name and one argument. *)
Lemma command_line_split_witness :
  get_command_buffer_argv 0 MAX_ARGS (session LOCKED "getvar:product")
    = (EFI_SUCCESS, 2, ["getvar"; "product"],
       set_command_buffer "getvar" (session LOCKED "getvar:product")).
Proof.
  destruct (command_line_split granting_platform "getvar" ["product"] 0 root_cmdlist
              (session LOCKED "getvar:product")) as [Hok _].
  - split; [intros H; discriminate H | reflexivity].
  - constructor; [split; [intros H; discriminate H | reflexivity] | constructor].
  - reflexivity.
  - destruct Hok as [H _]; [simpl; lia | exact H].
Defined.

(** [getvar:product] received in the command buffer of a locked device that
    waits for a command: the handler answers with the value. *)
Lemma received_line_reaches_handler_witness :
  let cmdbuf := {| base := CommandBuffer; displacement := 0 |} in
  let lk1 :=
    fastboot_process_rx granting_platform ready_transport cmdbuf "getvar:product"
      (link_of waiting_session) in
  option_map (fun st => frames_written (trace st))
    (fastboot_run_command granting_platform root_cmdlist 0 (fb lk1))
  = Some ["OKAYyt2"].
Proof.
  cbv zeta.
  destruct (received_line_reaches_handler granting_platform ready_transport
              "getvar" ["product"]
              {| cmd_name := "getvar"; min_state := LOCKED;
                 handle := cmd_getvar granting_platform |}
              root_cmdlist 0 {| base := CommandBuffer; displacement := 0 |} ""
              (link_of waiting_session)) as [(_ & _ & H) _].
  - reflexivity.
  - split; [intros H; discriminate H | reflexivity].
  - constructor; [split; [intros H; discriminate H | reflexivity] | constructor].
  - simpl; lia.
  - intros c Hc. vm_compute in Hc.
    repeat (destruct Hc as [<- | Hc]; [intros H; discriminate H |]). destruct Hc.
  - vm_compute. reflexivity.
  - reflexivity.
  - vm_compute. intros H; discriminate H.
  - etransitivity; [apply f_equal; exact H |]. vm_compute. reflexivity.
Defined.

(** Two queued frames leave in two transmissions. *)
Lemma tx_queue_drains_witness :
  exists lk',
    tx_events granting_platform ready_transport 2 (link_of queued_session) = Some lk'
    /\ frames_written (trace (fb lk')) = ["INFOproduct: yt2"; "OKAY"]
    /\ fastboot_state (fb lk') = STATE_COMPLETE.
Proof.
  destruct (tx_queue_drains granting_platform ready_transport (link_of queued_session))
    as (lk' & E & H1 & H2 & H3 & H4).
  - intros t buf len. reflexivity.
  - reflexivity.
  - intros H. discriminate H.
  - exists lk'. split; [exact E |]. split; [exact H1 | exact H3].
Defined.

(** [reboot] on the sample device. *)
Lemma reboot_stops_after_okay_witness :
  let st1 := fastboot_reboot granting_platform NORMAL_BOOT (session LOCKED "reboot") in
  frames_written (trace st1) = ["OKAY"]
  /\ fastboot_state st1 = STATE_STOPPING
  /\ fastboot_target st1 = NORMAL_BOOT.
Proof.
  cbv zeta.
  destruct (reboot_stops_after_okay granting_platform ready_transport NORMAL_BOOT
              (link_of (session LOCKED "reboot"))) as (H1 & H2 & H3 & _).
  - intros t buf len. reflexivity.
  - reflexivity.
  - repeat split; assumption.
Defined.

(** Ten bytes arrive as four, three and three. *)
Lemma download_completes_with_okay_witness :
  let dl := {| base := DownloadBuffer; displacement := 0 |} in
  let dl4 := {| base := DownloadBuffer; displacement := 4 |} in
  let dl7 := {| base := DownloadBuffer; displacement := 7 |} in
  let lk := link_of downloading_session in
  let before :=
    rx_events granting_platform ready_transport [(dl, "abcd"); (dl4, "efg")] lk in
  let after :=
    rx_events granting_platform ready_transport
      [(dl, "abcd"); (dl4, "efg"); (dl7, "hij")] lk in
  frames_written (trace (fb before)) = []
  /\ map r_len (reads before) = [6; 3]
  /\ frames_written (trace (fb after)) = ["OKAY"]
  /\ fastboot_state (fb after) = STATE_COMPLETE.
Proof.
  cbv zeta.
  destruct (download_completes_with_okay granting_platform ready_transport
              [({| base := DownloadBuffer; displacement := 0 |}, "abcd");
               ({| base := DownloadBuffer; displacement := 4 |}, "efg")]
              {| base := DownloadBuffer; displacement := 7 |} "hij"
              (link_of downloading_session))
    as (H1 & H2 & H3 & H4 & H5 & H6).
  - intros t buf len. reflexivity.
  - reflexivity.
  - simpl; lia.
  - vm_compute. reflexivity.
  - vm_compute. split; [intros H; discriminate H | reflexivity].
  - repeat split; assumption.
Defined.

(** [boot] with the 4096 bytes downloaded. *)
Lemma boot_hands_over_the_download_witness :
  let st' := cmd_boot granting_platform 1 ["boot"] (session UNLOCKED "boot") in
  fastboot_bootimage st' = Some 4096
  /\ fastboot_state st' = STATE_STOPPING
  /\ frames_written (trace st') = ["OKAY"].
Proof.
  cbv zeta.
  destruct (boot_hands_over_the_download granting_platform 1 ["boot"]
              (session UNLOCKED "boot")) as [H _].
  - intros t buf len. reflexivity.
  - reflexivity.
  - destruct (H 4096) as (H1 & _ & _ & _ & H5 & H6).
    + reflexivity.
    + simpl. intros E. discriminate E.
    + reflexivity.
    + repeat split; assumption.
Defined.

(** [getvar:all] with the three variables of the sample session. *)
Lemma getvar_all_lists_every_variable_witness :
  txbuf_head (cmd_getvar granting_platform 2 ["getvar"; "all"]
                (session LOCKED "getvar:all"))
  = ["INFOpartition-size:boot: 0x400000"; "INFObattery-voltage: ";
     "INFOproduct: yt2"; "OKAY"].
Proof.
  destruct (getvar_all_lists_every_variable granting_platform ["getvar"; "all"]
              (session LOCKED "getvar:all")) as (H & _).
  - intros t size. reflexivity.
  - reflexivity.
  - intros H. discriminate H.
  - exact H.
Defined.

(** A string of 130 characters goes out in three frames. *)
Lemma long_info_loses_nothing_witness :
  exists parts st',
    fastboot_info_long_string granting_platform long_line (session LOCKED "") = Some st'
    /\ String.concat "" parts = long_line
    /\ txbuf_head st' = map (append "INFO") parts.
Proof.
  destruct (long_info_loses_nothing granting_platform long_line (session LOCKED ""))
    as (parts & st' & E & H1 & _ & H3 & _).
  - intros t size. reflexivity.
  - intros c Hc. vm_compute in Hc.
    repeat (destruct Hc as [<- | Hc]; [intros H; discriminate H |]). destruct Hc.
  - exists parts, st'. split; [exact E |]. split; [exact H1 | exact H3].
Defined.

End CallbackExamples.

(* ------------------------------------------------------------------------- *)
(** ** flash.c on the sample disk *)
(* ------------------------------------------------------------------------- *)

Section FlashOpsExamples.
Import Efi Flash FlashOps.

(** Three bytes and two bytes at the start of the 16 GiB partition. *)
Lemma consecutive_writes_are_contiguous_witness :
  writes (snd (flash_write_each granting_firmware [[1; 2; 3]; [4; 5]] st_16G))
  = [ {| w_media := 0; w_offset := 2 ^ 34; w_size := 3; w_data := [1; 2; 3] |};
      {| w_media := 0; w_offset := 2 ^ 34 + 3; w_size := 2; w_data := [4; 5] |} ].
Proof.
  destruct (consecutive_writes_are_contiguous granting_firmware [[1; 2; 3]; [4; 5]]
              st_16G {| MediaId := 0; BlockSize := 512 |})
    as (_ & H & _).
  - intros w. reflexivity.
  - reflexivity.
  - vm_compute. repeat split; try reflexivity; intros H; discriminate H.
  - vm_compute. intros H; discriminate H.
  - vm_compute. intros H; discriminate H.
  - exact H.
Defined.

(** Five bytes flashed to the boot partition. *)
Lemma flash_partition_raw_image_witness :
  option_map (fun r => (fst r, writes (engine (snd r))))
    (flash_partition granting_firmware plain_storage [1; 2; 3; 4; 5] 5 "boot"
       idle_disk)
  = Some (EFI_SUCCESS,
          [ {| w_media := 7; w_offset := 2048 * 512; w_size := 5;
               w_data := [1; 2; 3; 4; 5] |} ]).
Proof.
  destruct (flash_partition_raw_image granting_firmware plain_storage [1; 2; 3; 4; 5] 5
              "boot" idle_disk EFI_SUCCESS boot_gparti
              {| MediaId := 7; BlockSize := 512 |}) as (_ & _ & H).
  - reflexivity.
  - reflexivity.
  - reflexivity.
  - vm_compute. repeat split; try reflexivity; intros H; discriminate H.
  - reflexivity.
  - lia.
  - vm_compute. reflexivity.
  - etransitivity; [apply f_equal; apply H |].
    + vm_compute. intros E; discriminate E.
    + reflexivity.
    + vm_compute. reflexivity.
Defined.

(** Eight bytes of a pattern at the start of the 16 GiB partition. *)
Lemma flash_fill_pattern_witness :
  exists w,
    fst (flash_fill granting_firmware plain_storage 0xDEADBEEF 8 disk_16G)
      = WriteDisk granting_firmware w
    /\ w_offset w = 2 ^ 34
    /\ w_data w = [0xEF; 0xBE; 0xAD; 0xDE; 0xEF; 0xBE; 0xAD; 0xDE].
Proof.
  destruct (flash_fill_pattern granting_firmware plain_storage 0xDEADBEEF 8 disk_16G
              {| MediaId := 0; BlockSize := 512 |}) as (_ & H & _).
  - reflexivity.
  - lia.
  - destruct H as (w & E & H1 & _ & _ & H4).
    + reflexivity.
    + vm_compute. reflexivity.
    + exists w. split; [rewrite E; reflexivity |]. split; [exact H1 |].
      rewrite H4; [vm_compute; reflexivity | reflexivity | vm_compute; lia].
Defined.

(** Erasing the boot partition of 512-byte blocks: the zero fill stops
    nine blocks behind the first. *)
Lemma erase_zero_fills_the_head_witness :
  option_map (fun r => (fst r, calls (snd r)))
    (erase_by_label granting_firmware plain_storage "boot" idle_disk)
  = Some (EFI_SUCCESS, [StorageEraseBlocks 2048 10239; FillZero 2048 2057]).
Proof.
  destruct (erase_zero_fills_the_head granting_firmware plain_storage "boot" idle_disk
              EFI_SUCCESS boot_gparti {| MediaId := 7; BlockSize := 512 |})
    as (H & _).
  - reflexivity.
  - reflexivity.
  - reflexivity.
  - simpl; lia.
  - simpl; lia.
  - vm_compute. reflexivity.
  - etransitivity; [apply f_equal; exact H |]. vm_compute. reflexivity.
Defined.

End FlashOpsExamples.

(* ------------------------------------------------------------------------- *)
(** ** hashes.c on the sample disk *)
(* ------------------------------------------------------------------------- *)

Section HashToolsExamples.
Import Efi Hashes HashTools.
Open Scope string_scope.
Open Scope Z_scope.

(** The first 2.5 MiB of the boot partition: three reads. *)
Lemma hash_partition_reads_in_chunks_witness :
  exists ret,
    option_map (fun r => (fst (fst (fst r)), snd (fst r)))
      (HashTools.hash_partition offset_disk counting_digest (fun _ => Some [])
         boot_gparti 2621440 []
         {| selected_md := Some EVP_md5; hash_len := 16 |})
    = Some (ret, [ (1048576, 1048576); (2097152, 1048576); (3145728, 524288) ])
    /\ EFI_ERROR ret = false.
Proof.
  destruct (hash_partition_reads_in_chunks counting_digest offset_disk (fun _ => Some [])
              boot_gparti {| Flash.MediaId := 7; Flash.BlockSize := 512 |} 2621440 []
              {| selected_md := Some EVP_md5; hash_len := 16 |} [] EVP_md5)
    as (ret & E & _ & H).
  - reflexivity.
  - reflexivity.
  - reflexivity.
  - vm_compute. repeat split; try reflexivity; intros H; discriminate H.
  - vm_compute. split; intros H; discriminate H.
  - vm_compute. intros H; discriminate H.
  - intros media off n. reflexivity.
  - exists ret. split; [| apply H; reflexivity].
    rewrite E. reflexivity.
Defined.

(** Into EFI and back out again. *)
Lemma pushdir_popdir_restore_the_path_witness :
  exists w1 w2,
    pushdir "EFI" walk_top = Some w1
    /\ path w1 = Some "/bootloader/EFI/"
    /\ popdir (enter w1) = Some w2
    /\ path w2 = Some "/bootloader/".
Proof.
  destruct (pushdir_popdir_restore_the_path "EFI" walk_top "/bootloader/")
    as (H & _).
  - reflexivity.
  - by_evaluation.
  - reflexivity.
  - by_evaluation.
  - destruct H as (w1 & E1 & P1 & _ & _ & w2 & E2 & P2 & _).
    + vm_compute. intros H; discriminate H.
    + exists w1, w2. repeat split; assumption.
Defined.

(** 256 blocks of 4096 bytes. *)
Lemma ext4_len_from_superblock_witness :
  get_ext4_len ext4_disk hashed_gparti 0 = Some (EFI_SUCCESS, 1048576).
Proof.
  destruct (ext4_len_from_superblock ext4_disk hashed_gparti
              {| Flash.MediaId := 7; Flash.BlockSize := 512 |} 0 EFI_SUCCESS ext4_sb_1M)
    as (_ & _ & H).
  - reflexivity.
  - vm_compute. intros H; discriminate H.
  - reflexivity.
  - reflexivity.
  - destruct H as [H _].
    + reflexivity.
    + reflexivity.
    + simpl; lia.
    + simpl; lia.
    + rewrite H; [reflexivity | simpl; lia | vm_compute; reflexivity].
Defined.

End HashToolsExamples.

(* ------------------------------------------------------------------------- *)
(** ** security.c on a toy PKCS7 bundle *)
(* ------------------------------------------------------------------------- *)

Section Pkcs7Examples.
Import Efi Security Pkcs7.

(** 17 June 2015, 12:30:45, carried by the second signer. *)
Lemma signing_time_decodes_witness :
  utctime_fields (utctime_of signing_date ++ [90]) = Some signing_date
  /\ get_signing_time (efi_time_to_ctime toy_pkcs7) (signer_times toy_pkcs7 [])
     = Some 2015.
Proof.
  destruct (signing_time_decodes toy_pkcs7 signing_date [90] [None]
              {| asn1_type := V_ASN1_UTCTIME;
                 utctime_data := (utctime_of signing_date ++ [90])%list |} [])
    as (H1 & H2 & _).
  - simpl; lia.
  - simpl; lia.
  - simpl; lia.
  - simpl; lia.
  - simpl; lia.
  - simpl; lia.
  - constructor; [reflexivity | constructor].
  - split; [exact H1 |]. apply H2; reflexivity.
Defined.

(** A bundle of the certificates 3, 7 and 9, checked against the digest
    of 7. *)
Lemma verify_pkcs7_success_means_verified_witness :
  exists x509,
    find_cert_in_pkcs7 toy_pkcs7 [3; 7; 9] (repeat 7 32) = Some x509
    /\ trusted toy_pkcs7 (repeat 7 32) x509.
Proof.
  destruct (verify_pkcs7_success_means_verified toy_pkcs7 (repeat 7 32) 32 [3; 7; 9] 3
              EFI_SUCCESS (Some [3; 7; 9]) (Some 3)) as (_ & _ & H).
  - vm_compute. reflexivity.
  - destruct (H eq_refl) as (_ & p7 & x509 & t & content & Hp & Hf & Ht & _).
    injection Hp as <-. exists x509. split; [exact Hf | exact Ht].
Defined.

End Pkcs7Examples.
